(** * The cryptocurrency data pipeline of [crypto_pipeline_demo.py]

    A shallow embedding of the class [CryptoPipeline]: its methods are
    functions in a state-and-exception monad over the pipeline's world
    (the in-memory frame [self.df], the files it writes, what it prints,
    and how far it has consumed the network, the clock and the random
    generator).  The pandas operations the methods call are modelled on
    frames whose cells hold untyped values.

    - Numbers are exact rationals: the rounding of binary floating point
      is outside this development, and so is the text Python writes for a
      float, which is a parameter of the file operations ([PyText]).
    - A file is the grid of its fields; delimiters and quoting are not
      modelled. The file system holds a file or a directory at an
      absolute path, spelled as [pathlib] spells it; what [..] and links
      lead to is not resolved, and every path may be read and written.
    - The HTTP library is requests 2.27 or later, whose error for a body
      that is not JSON is a [RequestException]; the frames are those of
      pandas 2.
    - The network, the clock and the random generator are oracles held in
      the world.
    - Drawing is outside this development: [visualize_trends] and
      [visualize_bitcoin_price] are modelled up to the figure they ask
      the plotting library for, which stands for what they put on the
      screen and into the image file. The HTTP headers and the display
      options of pandas are left out, and so is [main], which prints
      frames the way pandas lays them out.

    The first part of the file holds the definitions, the second the
    properties. *)

From Stdlib Require Import ZArith QArith String Ascii List Lia Bool.
From Stdlib Require Import DecimalString DecimalN Sorted Permutation.
From stdpp Require Import base gmap strings list pretty.
Import ListNotations.

Local Open Scope string_scope.
Local Open Scope list_scope.
Local Open Scope nat_scope.
#[local] Set Warnings "-register-all".
#[local] Set Default Proof Using "Type".

(** ** Values *)

(** What the HTTP layer hands back after [response.json()]. A Python dict
    keeps its keys in insertion order, so an object is an association
    list. *)
Inductive json : Type :=
| JNull
| JBool (b : bool)
| JNum (q : Q)
| JStr (s : string)
| JList (l : list json)
| JDict (d : list (string * json)).

(** A naive [datetime] with microsecond resolution, as [pd.to_datetime('now')]
    produces it. *)
Record Timestamp : Type := mkTimestamp {
  year : N; month : N; day : N;
  hour : N; minute : N; second : N;
  microsecond : N
}.

(** The content of one cell of a frame. [VNA] stands for every missing
    marker of pandas ([NaN], [None], [NaT]). *)
Inductive value : Type :=
| VNA
| VBool (b : bool)
| VNum (q : Q)
| VStr (s : string)
| VList (l : list json)
| VTime (t : Timestamp).

Inductive exn : Type :=
| KeyError (key : string)
| TypeError (what : string)
| ValueError (what : string)
| AttributeError (what : string)
| NotImplementedError
| EmptyDataError
| ParserError
| OSError (what : string)
| IsADirectoryError (path : string)
| Unmodelled (what : string).

Inductive result (A : Type) : Type :=
| Ok (a : A)
| Raise (e : exn).
Arguments Ok {A} a.
Arguments Raise {A} e.

(** ** Python dictionaries *)

Module Dict.
Section Dict.
Context {V : Type}.

Definition t := list (string * V).

Fixpoint get (k : string) (d : t) : option V :=
  match d with
  | [] => None
  | (k', v) :: d' => if String.eqb k k' then Some v else get k d'
  end.

Definition mem (k : string) (d : t) : bool :=
  match get k d with Some _ => true | None => false end.

(** [d[k] = v]: an existing key keeps its place, a new one goes last. *)
Fixpoint set (k : string) (v : V) (d : t) : t :=
  match d with
  | [] => [(k, v)]
  | (k', v') :: d' =>
      if String.eqb k k' then (k, v) :: d' else (k', v') :: set k v d'
  end.

(** [{**a, **b}] *)
Definition merge (a b : t) : t :=
  fold_left (fun acc kv => set (fst kv) (snd kv) acc) b a.

Definition keys (d : t) : list string := map fst d.
End Dict.
Arguments t : clear implicits.
End Dict.

(** Truth value of a decoded body, as [if raw_data:] and [not data] test
    it. *)
Definition truthy (j : json) : bool :=
  match j with
  | JNull => false
  | JBool b => b
  | JNum q => negb (Qeq_bool q 0)
  | JStr s => negb (String.eqb s "")
  | JList l => match l with [] => false | _ => true end
  | JDict d => match d with [] => false | _ => true end
  end.

Definition is_substring (needle hay : string) : bool :=
  match String.index 0 needle hay with Some _ => true | None => false end.

Definition json_is_str (s : string) (j : json) : bool :=
  match j with JStr s' => String.eqb s s' | _ => false end.

(** [key in data] for a string [key]. *)
Definition py_contains (key : string) (data : json) : result bool :=
  match data with
  | JDict d => Ok (Dict.mem key d)
  | JList l => Ok (existsb (json_is_str key) l)
  | JStr s => Ok (is_substring key s)
  | JNull => Raise (TypeError "argument of type 'NoneType' is not iterable")
  | JBool _ => Raise (TypeError "argument of type 'bool' is not iterable")
  | JNum _ => Raise (TypeError "argument of type 'float' is not iterable")
  end.

(** [data[key]] for a string [key]. *)
Definition py_getitem (key : string) (data : json) : result json :=
  match data with
  | JDict d =>
      match Dict.get key d with
      | Some v => Ok v
      | None => Raise (KeyError key)
      end
  | JList _ => Raise (TypeError "list indices must be integers or slices, not str")
  | JStr _ => Raise (TypeError "string indices must be integers")
  | _ => Raise (TypeError "object is not subscriptable")
  end.

(** ** Frames *)

(** A [pd.DataFrame] with the default range index: its column labels and
    its rows, each row holding one cell per column. *)
Record DataFrame : Type := mkDataFrame {
  columns : list string;
  rows : list (list value)
}.

(** [pd.DataFrame()] *)
Definition DataFrame_new : DataFrame := mkDataFrame [] [].

(** [df.empty]: some axis has length zero. *)
Definition empty (df : DataFrame) : bool :=
  (length (columns df) =? 0) || (length (rows df) =? 0).

(** [len(df)] *)
Definition len (df : DataFrame) : nat := length (rows df).

(** [df.shape] *)
Definition shape (df : DataFrame) : nat * nat :=
  (length (rows df), length (columns df)).

Definition rectangular (df : DataFrame) : Prop :=
  Forall (fun r => length r = length (columns df)) (rows df).

Fixpoint col_index (c : string) (cols : list string) : option nat :=
  match cols with
  | [] => None
  | c' :: cols' =>
      if String.eqb c c' then Some 0
      else match col_index c cols' with
           | Some i => Some (S i)
           | None => None
           end
  end.

Definition has_column (c : string) (df : DataFrame) : bool :=
  match col_index c (columns df) with Some _ => true | None => false end.

(** The cell of row [r] under label [c], missing when there is none. *)
Definition cell (cols : list string) (r : list value) (c : string) : value :=
  match col_index c cols with
  | Some i => nth i r VNA
  | None => VNA
  end.

(** The whole column [df[c]]. *)
Definition column (c : string) (df : DataFrame) : list value :=
  map (fun r => cell (columns df) r c) (rows df).

(** A row laid out again under the labels [cols']. *)
Definition reindex (cols cols' : list string) (r : list value) : list value :=
  map (cell cols r) cols'.

Fixpoint list_set {A} (i : nat) (x : A) (l : list A) : list A :=
  match l, i with
  | [], _ => []
  | _ :: l', 0 => x :: l'
  | y :: l', S i' => y :: list_set i' x l'
  end.

(** [df[c] = v] for a scalar [v]: an existing column is overwritten where
    it stands, a new one is added last. *)
Definition set_column (c : string) (v : value) (df : DataFrame) : DataFrame :=
  match col_index c (columns df) with
  | Some i => mkDataFrame (columns df) (map (list_set i v) (rows df))
  | None => mkDataFrame (columns df ++ [c]) (map (fun r => r ++ [v]) (rows df))
  end.

(** Labels of [extra] not yet in [cols], appended in order of first
    appearance. *)
Definition union_columns (cols extra : list string) : list string :=
  fold_left
    (fun acc c => match col_index c acc with Some _ => acc | None => acc ++ [c] end)
    extra cols.

(** [pd.DataFrame(records)] for a list of flat dicts: the columns are the
    keys in order of first appearance, absent keys give missing cells. *)
Definition from_records (records : list (Dict.t value)) : DataFrame :=
  let cols := fold_left (fun acc d => union_columns acc (Dict.keys d)) records [] in
  mkDataFrame cols
    (map (fun d => map (fun c => match Dict.get c d with
                                 | Some v => v
                                 | None => VNA
                                 end) cols) records).

(** ** [pd.json_normalize] *)

Definition leaf_value (j : json) : value :=
  match j with
  | JNull => VNA
  | JBool b => VBool b
  | JNum q => VNum q
  | JStr s => VStr s
  | JList l => VList l
  | JDict _ => VNA
  end.

Definition is_dict (j : json) : bool :=
  match j with JDict _ => true | _ => false end.

(** The key under which a nested entry is stored: the path so far, a dot,
    the entry's own key; no leading dot at the top. *)
Definition new_key (key_string key : string) : string :=
  if String.eqb key_string "" then key else key_string +:+ "." +:+ key.

(** [_normalise_json]: walks nested objects and stores every leaf under
    its dotted path. An empty nested object stores nothing. *)
Fixpoint _normalise_json (data : json) (key_string : string)
    (normalized_dict : Dict.t value) : Dict.t value :=
  match data with
  | JDict d =>
      (fix items (kvs : list (string * json)) (acc : Dict.t value) : Dict.t value :=
         match kvs with
         | [] => acc
         | (key, v) :: kvs' =>
             items kvs' (_normalise_json v (new_key key_string key) acc)
         end) d normalized_dict
  | leaf => Dict.set key_string (leaf_value leaf) normalized_dict
  end.

(** [_normalise_json_ordered]: the scalar entries of the object first, then
    the flattened nested ones. *)
Definition _normalise_json_ordered (d : list (string * json)) : Dict.t value :=
  let top_dict_ :=
    fold_left (fun acc kv => Dict.set (fst kv) (leaf_value (snd kv)) acc)
      (List.filter (fun kv => negb (is_dict (snd kv))) d) [] in
  let nested_dict_ :=
    _normalise_json (JDict (List.filter (fun kv => is_dict (snd kv)) d)) "" [] in
  Dict.merge top_dict_ nested_dict_.

(** [_simple_json_normalize] on one element of the input list. An element
    that is an object is flattened, a scalar gives a row without cells;
    an element that is itself a list is outside this model and refused. *)
Definition normalize_entry (entry : json) : result (Dict.t value) :=
  match entry with
  | JDict d => Ok (_normalise_json_ordered d)
  | JList _ => Raise (Unmodelled "a list as a record")
  | _ => Ok []
  end.

Fixpoint normalize_entries (entries : list json) : result (list (Dict.t value)) :=
  match entries with
  | [] => Ok []
  | e :: es =>
      match normalize_entry e with
      | Raise x => Raise x
      | Ok d =>
          match normalize_entries es with
          | Raise x => Raise x
          | Ok ds => Ok (d :: ds)
          end
      end
  end.

(** [pd.json_normalize(data)] with default arguments. *)
Definition json_normalize (data : json) : result DataFrame :=
  match data with
  | JList [] => Ok DataFrame_new
  | JList entries =>
      match normalize_entries entries with
      | Ok ds => Ok (from_records ds)
      | Raise x => Raise x
      end
  | JDict d =>
      match normalize_entries [JDict d] with
      | Ok ds => Ok (from_records ds)
      | Raise x => Raise x
      end
  | _ => Raise NotImplementedError
  end.

(** [pd.concat([a, b], ignore_index=True)]: the union of the labels, [a]'s
    first, and the rows of [a] then those of [b], laid out under it. *)
Definition concat (a b : DataFrame) : DataFrame :=
  let cols := union_columns (columns a) (columns b) in
  mkDataFrame cols
    (map (reindex (columns a) cols) (rows a)
     ++ map (reindex (columns b) cols) (rows b)).

(** ** Timestamps *)

Definition ts_fields (t : Timestamp) : list N :=
  [year t; month t; day t; hour t; minute t; second t; microsecond t].

Fixpoint lex_leb (a b : list N) : bool :=
  match a, b with
  | [], _ => true
  | _ :: _, [] => false
  | x :: a', y :: b' => (x <? y)%N || ((x =? y)%N && lex_leb a' b')
  end.

(** [t1 <= t2] on timestamps. *)
Definition ts_leb (t1 t2 : Timestamp) : bool :=
  lex_leb (ts_fields t1) (ts_fields t2).

Definition ts_le (t1 t2 : Timestamp) : Prop := ts_leb t1 t2 = true.

(** The timestamps of a column, missing cells skipped; [None] when a cell
    holds anything else. *)
Fixpoint timestamps_of (cells : list value) : option (list Timestamp) :=
  match cells with
  | [] => Some []
  | VTime t :: cells' =>
      match timestamps_of cells' with
      | Some ts => Some (t :: ts)
      | None => None
      end
  | VNA :: cells' => timestamps_of cells'
  | _ :: _ => None
  end.

Fixpoint nondecreasing (ts : list Timestamp) : bool :=
  match ts with
  | [] => true
  | t :: ts' =>
      match ts' with
      | [] => true
      | t' :: _ => ts_leb t t' && nondecreasing ts'
      end
  end.

(** ** The world of a pipeline *)

(** One attempt of [session.get] followed by [raise_for_status] and
    [response.json()]: the decoded body, or the exception raised, with
    its text. A failure in transport or in the status is a
    [requests.exceptions.RequestException]; a body that is not JSON makes
    [response.json()] raise [requests.exceptions.JSONDecodeError], which
    is a [RequestException] and a [json.JSONDecodeError] at once. *)
Inductive Outcome : Type :=
| Replied (body : json)
| RequestException (e : string)
| JSONDecodeError (e : string).

Record Request : Type := mkRequest {
  url : string;
  params : list (string * string)
}.

(** What a path of the file system leads to: a file of delimited text,
    kept as the grid of its fields, or a directory. *)
Inductive node : Type :=
| File (grid : list (list string))
| Dir.

(** The state a method runs in. [files] is the file system: what lies at
    each absolute path, and nothing where it has no entry. [http],
    [clock] and [normal_draws] are the surroundings: what the n-th
    request will meet, what the n-th reading of the clock will show and
    what the n-th standard normal deviate of NumPy's global generator
    will be. The counters say how many of each have been used. *)
Record World : Type := mkWorld {
  df : DataFrame;
  base_url : string;
  cwd : string;
  files : gmap string node;
  stdout : list string;
  http : nat -> Request -> Outcome;
  requests : nat;
  clock : nat -> Timestamp;
  ticks : nat;
  normal_draws : nat -> Q;
  drawn : nat
}.

Definition with_df (d : DataFrame) (w : World) : World :=
  mkWorld d (base_url w) (cwd w) (files w) (stdout w)
    (http w) (requests w) (clock w) (ticks w) (normal_draws w) (drawn w).

Definition with_files (f : gmap string node) (w : World) : World :=
  mkWorld (df w) (base_url w) (cwd w) f (stdout w)
    (http w) (requests w) (clock w) (ticks w) (normal_draws w) (drawn w).

Definition with_stdout (o : list string) (w : World) : World :=
  mkWorld (df w) (base_url w) (cwd w) (files w) o
    (http w) (requests w) (clock w) (ticks w) (normal_draws w) (drawn w).

Definition with_requests (n : nat) (w : World) : World :=
  mkWorld (df w) (base_url w) (cwd w) (files w) (stdout w)
    (http w) n (clock w) (ticks w) (normal_draws w) (drawn w).

Definition with_ticks (n : nat) (w : World) : World :=
  mkWorld (df w) (base_url w) (cwd w) (files w) (stdout w)
    (http w) (requests w) (clock w) n (normal_draws w) (drawn w).

Definition with_drawn (n : nat) (w : World) : World :=
  mkWorld (df w) (base_url w) (cwd w) (files w) (stdout w)
    (http w) (requests w) (clock w) (ticks w) (normal_draws w) n.

(** Computations that read and change the world and may raise. *)
Definition M (A : Type) : Type := World -> result A * World.

Definition ret {A} (a : A) : M A := fun w => (Ok a, w).

Definition bind {A B} (m : M A) (k : A -> M B) : M B :=
  fun w =>
    match m w with
    | (Ok a, w') => k a w'
    | (Raise e, w') => (Raise e, w')
    end.

Definition lift {A} (r : result A) : M A := fun w => (r, w).

Notation "x <- m ;; k" := (bind m (fun x => k))
  (at level 100, m at next level, right associativity).
Notation "m ;;; k" := (bind m (fun _ => k))
  (at level 100, right associativity).

Definition get_df : M DataFrame := fun w => (Ok (df w), w).
Definition set_df (d : DataFrame) : M unit := fun w => (Ok tt, with_df d w).

(** [print(s)] *)
Definition print (s : string) : M unit :=
  fun w => (Ok tt, with_stdout (stdout w ++ [s]) w).

(** [time.sleep(seconds)]: nothing of the world changes but the time,
    which the next reading of [clock] shows. *)
Definition sleep (seconds : nat) : M unit := ret tt.

(** [pd.to_datetime('now')] *)
Definition to_datetime_now : M Timestamp :=
  fun w => (Ok (clock w (ticks w)), with_ticks (S (ticks w)) w).

(** [np.random.normal(loc, scale)] *)
Definition random_normal (loc scale : Q) : M Q :=
  fun w => (Ok (loc + scale * normal_draws w (drawn w))%Q,
            with_drawn (S (drawn w)) w).

(** [self.session.get(...)], [raise_for_status()] and [response.json()]. *)
Definition session_get (parameters : list (string * string)) : M Outcome :=
  fun w => (Ok (http w (requests w) (mkRequest (base_url w) parameters)),
            with_requests (S (requests w)) w).

Definition BASE_URL : string :=
  "https://pro-api.coinmarketcap.com/v1/cryptocurrency/listings/latest".

(** ** [CryptoPipeline] *)


(** One record of the mock listing, as its dict display writes it. *)
Definition mock_record (id : Z) (name symbol slug : string) (cmc_rank : Z)
    (price change_1h change_24h change_7d change_30d change_60d change_90d : Q)
    (market_cap volume_24h : Z) : json :=
  JDict [
    ("id", JNum (inject_Z id));
    ("name", JStr name);
    ("symbol", JStr symbol);
    ("slug", JStr slug);
    ("cmc_rank", JNum (inject_Z cmc_rank));
    ("quote", JDict [
      ("USD", JDict [
        ("price", JNum price);
        ("percent_change_1h", JNum change_1h);
        ("percent_change_24h", JNum change_24h);
        ("percent_change_7d", JNum change_7d);
        ("percent_change_30d", JNum change_30d);
        ("percent_change_60d", JNum change_60d);
        ("percent_change_90d", JNum change_90d);
        ("market_cap", JNum (inject_Z market_cap));
        ("volume_24h", JNum (inject_Z volume_24h))])])].

(** The evaluation of one record: its seven draws are made in the order
    in which the dict display has them. *)
Definition mock_entry (id : Z) (name symbol slug : string) (cmc_rank : Z)
    (price price_sd sd_1h sd_24h sd_7d sd_30d sd_60d sd_90d : Q)
    (market_cap volume_24h : Z) : M json :=
  d0 <- random_normal 0 price_sd ;;
  d1 <- random_normal 0 sd_1h ;;
  d2 <- random_normal 0 sd_24h ;;
  d3 <- random_normal 0 sd_7d ;;
  d4 <- random_normal 0 sd_30d ;;
  d5 <- random_normal 0 sd_60d ;;
  d6 <- random_normal 0 sd_90d ;;
  ret (mock_record id name symbol slug cmc_rank
         (price + d0)%Q d1 d2 d3 d4 d5 d6 market_cap volume_24h).

(** [_get_mock_data] *)
Definition _get_mock_data : M json :=
  bitcoin <- mock_entry 1 "Bitcoin" "BTC" "bitcoin" 1
               45000.50 1000 2 5 10 15 20 25 800000000000 25000000000 ;;
  ethereum <- mock_entry 2 "Ethereum" "ETH" "ethereum" 2
               3200.75 200 2 5 10 15 20 25 400000000000 15000000000 ;;
  tether <- mock_entry 3 "Tether" "USDT" "tether" 3
               1.00 0.01 0.1 0.2 0.3 0.5 0.7 1.0 90000000000 50000000000 ;;
  ret (JDict [("data", JList [bitcoin; ethereum; tether])]).

(** [fetch_crypto_data] *)
Definition fetch_crypto_data (start limit : Z) (convert : string) : M json :=
  let parameters :=
    [("start", pretty start); ("limit", pretty limit); ("convert", convert)] in
  outcome <- session_get parameters ;;
  match outcome with
  | Replied data => ret data
  | RequestException e | JSONDecodeError e =>
      (* [except requests.exceptions.RequestException as e]: the first
         handler takes both, so the handler of [json.JSONDecodeError]
         after it never runs. *)
      print ("API request failed: " +:+ e) ;;;
      _get_mock_data
  end.

(** [process_data] *)
Definition process_data (data : json) : M DataFrame :=
  missing <- lift (if negb (truthy data) then Ok true
                   else match py_contains "data" data with
                        | Ok b => Ok (negb b)
                        | Raise e => Raise e
                        end) ;;
  if missing : bool then ret DataFrame_new
  else
    entries <- lift (py_getitem "data" data) ;;
    df_new <- lift (json_normalize entries) ;;
    now <- to_datetime_now ;;
    ret (set_column "timestamp" (VTime now) df_new).

(** [append_data] *)
Definition append_data (new_data : DataFrame) : M unit :=
  if empty new_data then ret tt
  else
    old <- get_df ;;
    if empty old then set_df new_data
    else set_df (concat old new_data).

Fixpoint for_each {A} (l : list A) (body : A -> M unit) : M unit :=
  match l with
  | [] => ret tt
  | x :: l' => body x ;;; for_each l' body
  end.

(** The body of the loop of [run_data_collection], at index [i]. *)
Definition iteration (iterations sleep_interval i : nat) : M unit :=
  print ("Iteration " +:+ pretty (i + 1) +:+ "/" +:+ pretty iterations) ;;;
  raw_data <- fetch_crypto_data 1 15 "USD" ;;
  (if truthy raw_data then
     processed_data <- process_data raw_data ;;
     append_data processed_data ;;;
     print ("  - Collected data for " +:+ pretty (len processed_data)
            +:+ " cryptocurrencies") ;;;
     total <- get_df ;;
     print ("  - Total dataset size: " +:+ pretty (len total) +:+ " records")
   else
     print "  - Failed to collect data") ;;;
  if i <? iterations - 1 then
    print ("  - Sleeping for " +:+ pretty sleep_interval +:+ " seconds...") ;;;
    sleep sleep_interval
  else ret tt.

(** [run_data_collection] *)
Definition run_data_collection (iterations sleep_interval : nat) : M unit :=
  print ("Starting automated data collection for " +:+ pretty iterations
         +:+ " iterations...") ;;;
  for_each (seq 0 iterations) (iteration iterations sleep_interval) ;;;
  print "Data collection completed!".

(** The field [k] of a JSON object. *)
Definition field (k : string) (j : json) : option json :=
  match j with
  | JDict d => Dict.get k d
  | _ => None
  end.

Definition is_list (j : json) : bool :=
  match j with JList _ => true | _ => false end.

(** ** Timestamps as text *)

Local Open Scope N_scope.

Definition digit_char (d : N) : ascii := ascii_of_N (48 + d).

Definition is_digit (c : ascii) : bool :=
  (48 <=? N_of_ascii c)%N && (N_of_ascii c <=? 57)%N.

Definition digit_val (c : ascii) : N := N_of_ascii c - 48.

(** [n] written with exactly [w] digits, zero-padded ([f"{n:0wd}"] for an
    [n] below [10^w]). *)
Fixpoint fixed (w : nat) (n : N) : string :=
  match w with
  | O => ""
  | S w' =>
      String (digit_char (n / 10 ^ N.of_nat w'))
             (fixed w' (n mod 10 ^ N.of_nat w'))
  end.

(** Reads exactly [w] digits off the front of [s]. *)
Fixpoint take_digits_from (w : nat) (acc : N) (s : string) : option (N * string) :=
  match w with
  | O => Some (acc, s)
  | S w' =>
      match s with
      | String c s' =>
          if is_digit c then take_digits_from w' (10 * acc + digit_val c) s'
          else None
      | EmptyString => None
      end
  end.

Definition take_digits (w : nat) (s : string) : option (N * string) :=
  take_digits_from w 0 s.

Definition expect (c : ascii) (s : string) : option string :=
  match s with
  | String c' s' => if Ascii.eqb c c' then Some s' else None
  | EmptyString => None
  end.

Definition is_leap (y : N) : bool :=
  ((y mod 4 =? 0) && negb (y mod 100 =? 0)) || (y mod 400 =? 0).

Definition days_in_month (y m : N) : N :=
  if m =? 2 then (if is_leap y then 29 else 28)
  else if (m =? 4) || (m =? 6) || (m =? 9) || (m =? 11) then 30
  else 31.

(** The timestamps a [datetime64[ns]] column can hold; the years are those
    lying wholly inside its range. *)
Definition valid_timestamp (t : Timestamp) : bool :=
  (1678 <=? year t) && (year t <=? 2261)
  && (1 <=? month t) && (month t <=? 12)
  && (1 <=? day t) && (day t <=? days_in_month (year t) (month t))
  && (hour t <? 24) && (minute t <? 60) && (second t <? 60)
  && (microsecond t <? 1000000).

(** The unit down to which a timestamp, or a column of them, has non-zero
    fields. *)
Inductive Resolution : Type := RESO_DAY | RESO_SEC | RESO_MS | RESO_US.

Definition reso_rank (r : Resolution) : N :=
  match r with RESO_DAY => 0 | RESO_SEC => 1 | RESO_MS => 2 | RESO_US => 3 end.

Definition reso_max (a b : Resolution) : Resolution :=
  if reso_rank a <? reso_rank b then b else a.

Definition resolution (t : Timestamp) : Resolution :=
  if negb (microsecond t mod 1000 =? 0) then RESO_US
  else if negb (microsecond t =? 0) then RESO_MS
  else if negb ((hour t =? 0) && (minute t =? 0) && (second t =? 0)) then RESO_SEC
  else RESO_DAY.

Definition column_resolution (cells : list value) : Resolution :=
  fold_left (fun r v => match v with
                        | VTime t => reso_max r (resolution t)
                        | _ => r
                        end) cells RESO_DAY.

Definition format_date (t : Timestamp) : string :=
  fixed 4 (year t) +:+ "-" +:+ fixed 2 (month t) +:+ "-" +:+ fixed 2 (day t).

Definition format_time (t : Timestamp) : string :=
  fixed 2 (hour t) +:+ ":" +:+ fixed 2 (minute t) +:+ ":" +:+ fixed 2 (second t).

Definition format_seconds (t : Timestamp) : string :=
  format_date t +:+ " " +:+ format_time t.

(** [ts.strftime('%Y-%m-%d %H:%M:%S')] *)
Definition strftime (t : Timestamp) : string := format_seconds t.

(** The text of a timestamp in a datetime column written at resolution
    [r]: the date alone when every timestamp of the column is a midnight,
    otherwise the time too, with as many fractional digits as the finest
    timestamp of the column needs. *)
Definition format_timestamp (r : Resolution) (t : Timestamp) : string :=
  match r with
  | RESO_DAY => format_date t
  | RESO_SEC => format_seconds t
  | RESO_MS => format_seconds t +:+ "." +:+ fixed 3 (microsecond t / 1000)
  | RESO_US => format_seconds t +:+ "." +:+ fixed 6 (microsecond t)
  end.

(** [str(ts)]: the text of a timestamp outside a datetime column. *)
Definition str_timestamp (t : Timestamp) : string :=
  if microsecond t =? 0 then format_seconds t
  else format_timestamp RESO_US t.

Definition checked (t : Timestamp) : option Timestamp :=
  if valid_timestamp t then Some t else None.

(** The fraction of a second after the dot: one to six digits. *)
Definition parse_fraction (s : string) : option N :=
  let k := String.length s in
  if (1 <=? k)%nat && (k <=? 6)%nat then
    '(n, rest) ← take_digits k s;
    match rest with
    | EmptyString => Some (n * 10 ^ N.of_nat (6 - k))
    | _ => None
    end
  else None.

(** The date at the front of a text: year, month, day and what follows. *)
Definition parse_date (s : string) : option (N * N * N * string) :=
  '(y, s) ← take_digits 4 s;
  s ← expect "-" s;
  '(mo, s) ← take_digits 2 s;
  s ← expect "-" s;
  '(d, s) ← take_digits 2 s;
  Some (y, mo, d, s).

(** The time of day at the front of a text: hour, minute, second and what
    follows. *)
Definition parse_time (s : string) : option (N * N * N * string) :=
  '(h, s) ← take_digits 2 s;
  s ← expect ":" s;
  '(mi, s) ← take_digits 2 s;
  s ← expect ":" s;
  '(sec, s) ← take_digits 2 s;
  Some (h, mi, sec, s).

(** Reading a timestamp back from text, in any of the forms
    [format_timestamp] writes. *)
Definition parse_timestamp (s : string) : option Timestamp :=
  '(y, mo, d, s) ← parse_date s;
  match s with
  | EmptyString => checked (mkTimestamp y mo d 0 0 0 0)
  | _ =>
      s ← expect " " s;
      '(h, mi, sec, s) ← parse_time s;
      match s with
      | EmptyString => checked (mkTimestamp y mo d h mi sec 0)
      | _ =>
          s ← expect "." s;
          us ← parse_fraction s;
          checked (mkTimestamp y mo d h mi sec us)
      end
  end.

(** [pd.to_datetime] on one cell of a column. Text is parsed, a missing
    cell stays missing. A number would be taken as nanoseconds since the
    epoch, which the calendar fields here do not express: it is refused. *)
Definition to_datetime_cell (v : value) : result value :=
  match v with
  | VNA => Ok VNA
  | VTime t => Ok (VTime t)
  | VStr s =>
      match parse_timestamp s with
      | Some t => Ok (VTime t)
      | None => Raise (ValueError ("Unknown datetime string format: " +:+ s))
      end
  | VNum _ => Raise (Unmodelled "a number as nanoseconds since the epoch")
  | VBool _ => Raise (TypeError "<class 'bool'> is not convertible to datetime")
  | VList _ => Raise (TypeError "<class 'list'> is not convertible to datetime")
  end.

Local Close Scope N_scope.

Fixpoint traverse {A B} (f : A -> result B) (l : list A) : result (list B) :=
  match l with
  | [] => Ok []
  | x :: l' =>
      match f x with
      | Raise e => Raise e
      | Ok y =>
          match traverse f l' with
          | Raise e => Raise e
          | Ok ys => Ok (y :: ys)
          end
      end
  end.

(** [pd.to_datetime(series)] *)
Definition to_datetime (cells : list value) : result (list value) :=
  traverse to_datetime_cell cells.

(** ** Frames as delimited text *)

(** The text of numbers and of lists is Python's: [repr] of a float for
    [num_text], the reader's numeric conversion for [num_parse], [str] of
    a list for [list_text]. They are taken as given. *)
Class PyText : Type := {
  num_text : Q -> string;
  num_parse : string -> option Q;
  list_text : list json -> string
}.

(** The texts [pd.read_csv] takes for a missing cell. *)
Definition na_values : list string :=
  [""; "#N/A"; "#N/A N/A"; "#NA"; "-1.#IND"; "-1.#QNAN"; "-NaN"; "-nan";
   "1.#IND"; "1.#QNAN"; "<NA>"; "N/A"; "NA"; "NULL"; "NaN"; "None"; "n/a";
   "nan"; "null"].

Definition is_na_text (s : string) : bool := existsb (String.eqb s) na_values.

Definition true_values : list string := ["True"; "TRUE"; "true"].
Definition false_values : list string := ["False"; "FALSE"; "false"].

Definition is_bool_text (s : string) : bool :=
  existsb (String.eqb s) true_values || existsb (String.eqb s) false_values.

Definition is_time_or_na (v : value) : bool :=
  match v with VTime _ | VNA => true | _ => false end.

(** A column of dtype [datetime64]: nothing but timestamps and [NaT]. *)
Definition is_datetime_column (cells : list value) : bool :=
  forallb is_time_or_na cells.

(** The [j]-th column by position. *)
Definition nth_column (j : nat) (rs : list (list value)) : list value :=
  map (fun r => nth j r VNA) rs.

Definition is_some {A} (o : option A) : bool :=
  match o with Some _ => true | None => false end.

Fixpoint has_duplicate (l : list string) : bool :=
  match l with
  | [] => false
  | x :: l' => existsb (String.eqb x) l' || has_duplicate l'
  end.

(** *** The labels of a file's first line

    [read_csv] names an empty label after its position and tells
    repeated labels apart by a counter, as pandas 2 does: the labels
    given in the file are gone through before the empty ones, and a
    counter that would give a label already in the header is passed
    over. *)

Definition unnamed (i : nat) : string := "Unnamed: " +:+ pretty i.

Definition fill_unnamed (header : list string) : list string :=
  map (fun ic => if String.eqb (snd ic) "" then unnamed (fst ic) else snd ic)
      (combine (seq 0 (length header)) header).

(** [counts.get(col, 0)] *)
Definition count_of (counts : Dict.t nat) (col : string) : nat :=
  match Dict.get col counts with
  | Some n => n
  | None => 0
  end.

(** The loop [while cur_count > 0] that looks for a label not yet used:
    the label found, the counter at the exit and the counts. It makes at
    most one turn per label of the header and one more, which [fuel]
    allows for. *)
Fixpoint fresh_label (fuel : nat) (this_header : list string)
    (counts : Dict.t nat) (old_col : string) (cur_count : nat) (col : string)
    : string * nat * Dict.t nat :=
  match cur_count, fuel with
  | O, _ | _, O => (col, cur_count, counts)
  | S _, S fuel' =>
      let counts' := Dict.set old_col (cur_count + 1) counts in
      let col' := old_col +:+ "." +:+ pretty cur_count in
      fresh_label fuel' this_header counts' old_col
        (if existsb (String.eqb col') this_header then cur_count + 1
         else count_of counts' col')
        col'
  end.

(** The body of the loop over the positions of the header. *)
Definition dedup_step (st : list string * Dict.t nat) (i : nat)
    : list string * Dict.t nat :=
  let '(this_header, counts) := st in
  let old_col := nth i this_header "" in
  let '(col, cur_count, counts') :=
    fresh_label (S (length this_header)) this_header counts old_col
      (count_of counts old_col) old_col in
  (list_set i col this_header, Dict.set col (cur_count + 1) counts').

Definition mangle_header (header : list string) : list string :=
  let positions := seq 0 (length header) in
  let is_unnamed := fun i => String.eqb (nth i header "") "" in
  let col_loop_order :=
    List.filter (fun i => negb (is_unnamed i)) positions
    ++ List.filter is_unnamed positions in
  fst (fold_left dedup_step col_loop_order (fill_unnamed header, [])).

Section Csv.
Context `{PyText}.

(** The text [to_csv] writes for the cell [v] of a column [cells]. *)
Definition cell_text (cells : list value) (v : value) : string :=
  match v with
  | VNA => ""
  | VBool true => "True"
  | VBool false => "False"
  | VNum q => num_text q
  | VStr s => s
  | VList l => list_text l
  | VTime t =>
      if is_datetime_column cells
      then format_timestamp (column_resolution cells) t
      else str_timestamp t
  end.

(** [df.to_csv(path, index=False)]: the header, then one line per row.
    A file is kept as the grid of its fields; how the fields are
    delimited and quoted on disk is below this model. *)
Definition to_csv (d : DataFrame) : list (list string) :=
  columns d
  :: map (fun r =>
            map (fun j => cell_text (nth_column j (rows d)) (nth j r VNA))
                (seq 0 (length (columns d))))
         (rows d).

(** The reader's type inference on the texts of one column: numbers if
    every field is a number or missing, else booleans if every field is
    a boolean or missing, else the texts themselves. *)
Definition infer_column (texts : list string) : list value :=
  if forallb (fun s => is_na_text s || is_some (num_parse s)) texts then
    map (fun s => if is_na_text s then VNA
                  else match num_parse s with
                       | Some q => VNum q
                       | None => VNA
                       end) texts
  else if forallb (fun s => is_na_text s || is_bool_text s) texts then
    map (fun s => if is_na_text s then VNA
                  else VBool (existsb (String.eqb s) true_values)) texts
  else
    map (fun s => if is_na_text s then VNA else VStr s) texts.

(** [pd.read_csv(path)] on the grid of a file. The labels are those of
    the first line as [mangle_header] renames them. A line shorter than
    the header is filled with missing cells, a longer one is an error;
    but when the first line after the header is the longer one, pandas
    takes its leading fields as row labels, which the frames here do not
    have: such a file is refused. *)
Definition read_csv (grid : list (list string)) : result DataFrame :=
  match grid with
  | [] => Raise EmptyDataError
  | header :: lines =>
      if match lines with
         | first :: _ => length header <? length first
         | [] => false
         end then
        Raise (Unmodelled "leading fields as row labels")
      else if existsb (fun l => length header <? length l) lines then
        Raise ParserError
      else
        let cols :=
          map (fun j => infer_column (map (fun l => nth j l "") lines))
              (seq 0 (length header)) in
        Ok (mkDataFrame (mangle_header header)
              (map (fun i => map (fun c => nth i c VNA) cols)
                   (seq 0 (length lines))))
  end.
End Csv.

(** [df[c] = values] for a whole column [c] that exists. *)
Definition set_column_values (i : nat) (values : list value) (d : DataFrame)
    : DataFrame :=
  mkDataFrame (columns d)
    (map (fun rv => list_set i (snd rv) (fst rv)) (combine (rows d) values)).

(** ** Paths and files *)

Fixpoint join (sep : string) (l : list string) : string :=
  match l with
  | [] => ""
  | [x] => x
  | x :: l' => x +:+ sep +:+ join sep l'
  end.

(** [s.split(sep)] for a separator of one character. *)
Fixpoint split_on (sep : ascii) (s : string) : list string :=
  match s with
  | EmptyString => [""]
  | String c s' =>
      if Ascii.eqb c sep then "" :: split_on sep s'
      else match split_on sep s' with
           | [] => [String c ""]
           | x :: xs => String c x :: xs
           end
  end.

(** [Path(s)] keeps of a text its root and its components: a run of
    slashes counts as one, the components ['.'] are dropped, the
    components ['..'] stay. Two slashes at the front, and no more, are a
    root of their own. *)
Definition path_root (s : string) : string :=
  match s with
  | String "/" (String "/" (String "/" _)) => "/"
  | String "/" (String "/" _) => "//"
  | String "/" _ => "/"
  | _ => ""
  end.

Definition path_parts (s : string) : list string :=
  List.filter (fun c => negb (String.eqb c "" || String.eqb c "."))
              (split_on "/" s).

(** [str(path)] *)
Definition path_str (root : string) (parts : list string) : string :=
  match root, parts with
  | EmptyString, [] => "."
  | _, _ => root +:+ join "/" parts
  end.

(** [str(Path(filename))] and [str(Path(filename).parent)] *)
Definition str_path (filename : string) : string :=
  path_str (path_root filename) (path_parts filename).

Definition str_parent (filename : string) : string :=
  path_str (path_root filename) (removelast (path_parts filename)).

(** [str(Path(filename).absolute())] in the working directory [cwd]: a
    relative path is put behind the working directory, nothing else is
    resolved. *)
Definition absolute (cwd filename : string) : string :=
  match path_root filename with
  | EmptyString =>
      path_str (path_root cwd) (path_parts cwd ++ path_parts filename)
  | root => path_str root (path_parts filename)
  end.

Definition write_file (path : string) (grid : list (list string)) : M unit :=
  fun w => (Ok tt, with_files (<[path := File grid]> (files w)) w).

Definition read_file (path : string) : M (option node) :=
  fun w => (Ok (files w !! path), w).

(** [path.is_dir()] *)
Definition is_dir (path : string) : M bool :=
  fun w => (Ok (match files w !! path with
                | Some Dir => true
                | _ => false
                end), w).

Definition get_cwd : M string := fun w => (Ok (cwd w), w).

Section Persistence.
Context `{PyText}.

(** [d.to_csv(Path(filename), index=False)]: pandas refuses a path whose
    directory does not exist, and a directory cannot be opened for
    writing. *)
Definition to_csv_at (filename : string) (d : DataFrame) : M unit :=
  dir <- get_cwd ;;
  parent_is_dir <- is_dir (absolute dir (str_parent filename)) ;;
  if negb parent_is_dir then
    lift (Raise (OSError ("Cannot save file into a non-existent directory: '"
                          +:+ str_parent filename +:+ "'")))
  else
    target_is_dir <- is_dir (absolute dir filename) ;;
    if target_is_dir : bool then
      lift (Raise (IsADirectoryError (str_path filename)))
    else write_file (absolute dir filename) (to_csv d).

(** [save_to_csv] *)
Definition save_to_csv (filename : string) : M unit :=
  d <- get_df ;;
  if empty d then print "No data to save"
  else
    to_csv_at filename d ;;;
    dir <- get_cwd ;;
    print ("Data saved to " +:+ absolute dir filename).

(** [load_from_csv] *)
Definition load_from_csv (filename : string) : M unit :=
  dir <- get_cwd ;;
  let filepath := absolute dir filename in
  content <- read_file filepath ;;
  match content with
  | Some Dir => lift (Raise (IsADirectoryError (str_path filename)))
  | Some (File grid) =>
      loaded <- lift (read_csv grid) ;;
      set_df loaded ;;;
      i <- lift (match col_index "timestamp" (columns loaded) with
                 | Some i => Ok i
                 | None => Raise (KeyError "timestamp")
                 end) ;;
      converted <- lift (to_datetime (column "timestamp" loaded)) ;;
      set_df (set_column_values i converted loaded) ;;;
      print ("Data loaded from " +:+ filepath) ;;;
      d <- get_df ;;
      print ("Dataset shape: (" +:+ pretty (fst (shape d)) +:+ ", "
             +:+ pretty (snd (shape d)) +:+ ")")
  | None =>
      print ("File " +:+ filepath +:+ " not found")
  end.
End Persistence.

(** ** Frames that a file holds faithfully *)


(** What is taken for granted of the text of numbers, for the numbers
    [exact] holds of: the reader's conversion gives a number back from
    the text written for it, and that text is not a marker of a missing
    cell. Python writes a float with the digits that give it back; the
    reader's conversion is pandas' own, which is close but promises this
    of no particular float. The texts of the booleans and of timestamps
    are not numbers to the reader. *)
Class ExactText `{PyText} (exact : Q -> bool) : Prop := {
  number_read_back :
    forall q, exact q = true -> num_parse (num_text q) = Some q;
  number_not_missing :
    forall q, exact q = true -> is_na_text (num_text q) = false;
  boolean_not_number :
    forall s, is_bool_text s = true -> num_parse s = None;
  timestamp_not_number :
    forall r t, num_parse (format_timestamp r t) = None
}.

Section Storable.
Context `{PyText}.
Variable exact : Q -> bool.










End Storable.

(** The target of a save can be written: its directory exists and it is
    not a directory itself. *)
Definition can_write (filename : string) (w : World) : bool :=
  match files w !! absolute (cwd w) (str_parent filename) with
  | Some Dir =>
      match files w !! absolute (cwd w) filename with
      | Some Dir => false
      | _ => true
      end
  | _ => false
  end.

(** ** Grouping *)

Definition ts_eqb (t1 t2 : Timestamp) : bool :=
  ts_leb t1 t2 && ts_leb t2 t1.

(** Equality of two cells used as group keys. *)
Definition value_eqb (a b : value) : bool :=
  match a, b with
  | VBool x, VBool y => Bool.eqb x y
  | VNum x, VNum y => Qeq_bool x y
  | VStr x, VStr y => String.eqb x y
  | VTime x, VTime y => ts_eqb x y
  | _, _ => false
  end.

Fixpoint find_index {A} (p : A -> bool) (l : list A) : option nat :=
  match l with
  | [] => None
  | x :: l' =>
      if p x then Some 0
      else match find_index p l' with
           | Some i => Some (S i)
           | None => None
           end
  end.

(** One step of [factorize]: the distinct keys met so far and the code of
    each row so far. A missing key gets no code (the row is dropped), a
    list cannot be hashed. *)
Definition factorize_step (st : list value * list (option nat)) (key : value)
    : result (list value * list (option nat)) :=
  let '(uniques, codes) := st in
  match key with
  | VNA => Ok (uniques, codes ++ [None])
  | VList _ => Raise (TypeError "unhashable type: 'list'")
  | _ =>
      match find_index (value_eqb key) uniques with
      | Some g => Ok (uniques, codes ++ [Some g])
      | None => Ok (uniques ++ [key], codes ++ [Some (length uniques)])
      end
  end.

Fixpoint fold_result {A B} (f : B -> A -> result B) (l : list A) (b : B) : result B :=
  match l with
  | [] => Ok b
  | x :: l' =>
      match f b x with
      | Ok b' => fold_result f l' b'
      | Raise e => Raise e
      end
  end.

(** The distinct keys of a column in order of first appearance, and for
    each row the position of its key among them. *)
Definition factorize (keys : list value) : result (list value * list (option nat)) :=
  fold_result factorize_step keys ([], []).

(** A cell as a summand of a mean. *)
Definition as_number (v : value) : result (option Q) :=
  match v with
  | VNA => Ok None
  | VNum q => Ok (Some q)
  | VBool b => Ok (Some (if b then 1 else 0)%Q)
  | VStr _ => Raise (TypeError "Could not convert string to numeric")
  | VList _ => Raise (TypeError "Could not convert list to numeric")
  | VTime _ => Raise (TypeError "datetime64 type does not support mean")
  end.

(** One row of the pass of [group_mean]: the sum and the number of
    observations of the row's group are advanced, unless the row was
    dropped or its cell is missing. *)
Definition group_mean_step (acc : list Q * list nat)
    (row : option nat * option Q) : list Q * list nat :=
  match row with
  | (Some g, Some q) =>
      (alter (fun s => (s + q)%Q) g (fst acc), alter S g (snd acc))
  | _ => acc
  end.

Definition mean_of (sumx : Q) (nobs : nat) : value :=
  match nobs with
  | O => VNA
  | _ => VNum (sumx / inject_Z (Z.of_nat nobs))%Q
  end.

(** The mean of a column within each of [ngroups] groups, in one pass over
    the rows. *)
Definition group_mean (ngroups : nat) (codes : list (option nat))
    (cells : list value) : result (list value) :=
  match traverse as_number cells with
  | Raise e => Raise e
  | Ok numbers =>
      let '(sumx, nobs) :=
        fold_left group_mean_step (combine codes numbers)
          (repeat 0%Q ngroups, repeat O ngroups) in
      Ok (map (fun g => mean_of (nth g sumx 0%Q) (nth g nobs O)) (seq 0 ngroups))
  end.

(** The frame a grouped aggregation returns: the group keys as row labels,
    one row of cells per key. *)
Record GroupedFrame : Type := mkGroupedFrame {
  g_index : list value;
  g_columns : list string;
  g_rows : list (list value)
}.

(** [pd.DataFrame()] as the result of an aggregation. *)
Definition GroupedFrame_new : GroupedFrame := mkGroupedFrame [] [] [].

(** [df.groupby(key, sort=False)[cols].mean()] *)
Definition groupby_mean (key : string) (cols : list string) (d : DataFrame)
    : result GroupedFrame :=
  match col_index key (columns d) with
  | None => Raise (KeyError key)
  | Some _ =>
      match factorize (column key d) with
      | Raise e => Raise e
      | Ok (uniques, codes) =>
          match traverse (fun c => group_mean (length uniques) codes (column c d)) cols with
          | Raise e => Raise e
          | Ok means =>
              Ok (mkGroupedFrame uniques cols
                    (map (fun g => map (fun m => nth g m VNA) means)
                         (seq 0 (length uniques))))
          end
      end
  end.

Definition trend_columns : list string :=
  ["quote.USD.percent_change_1h";
   "quote.USD.percent_change_24h";
   "quote.USD.percent_change_7d";
   "quote.USD.percent_change_30d";
   "quote.USD.percent_change_60d";
   "quote.USD.percent_change_90d"].

(** [[col for col in trend_columns if col in self.df.columns]] *)
Definition available_columns (d : DataFrame) : list string :=
  List.filter (fun col => has_column col d) trend_columns.

(** [analyze_price_trends] *)
Definition analyze_price_trends : M GroupedFrame :=
  d <- get_df ;;
  if empty d then
    print "No data available for analysis" ;;;
    ret GroupedFrame_new
  else
    match available_columns d with
    | [] =>
        print "No trend data available" ;;;
        ret GroupedFrame_new
    | _ => lift (groupby_mean "name" (available_columns d) d)
    end.

(** ** Trends, as the specification words them *)

(** The name of the asset a row is about, if it has one. *)
Definition asset_of (cols : list string) (r : list value) : option string :=
  match cell cols r "name" with
  | VStr s => Some s
  | _ => None
  end.

(** The rows that name an asset. *)
Definition named_rows (d : DataFrame) : list (list value) :=
  List.filter (fun r => match asset_of (columns d) r with
                        | Some _ => true
                        | None => false
                        end) (rows d).

(** Every name once, in the order in which the names first appear. *)
Fixpoint distinct_in_order (names : list string) : list string :=
  match names with
  | [] => []
  | s :: names' =>
      s :: List.filter (fun s' => negb (String.eqb s' s)) (distinct_in_order names')
  end.

Definition names_of (cols : list string) (rs : list (list value)) : list string :=
  flat_map (fun r => match asset_of cols r with
                     | Some s => [s]
                     | None => []
                     end) rs.

(** The distinct asset names of a dataset, in first-seen order. *)
Definition asset_names (d : DataFrame) : list string :=
  distinct_in_order (names_of (columns d) (rows d)).

(** All the rows of one asset. *)
Definition rows_of_asset (d : DataFrame) (s : string) : list (list value) :=
  List.filter (fun r => match asset_of (columns d) r with
                        | Some s' => String.eqb s' s
                        | None => false
                        end) (rows d).

(** The numbers a field has in some rows. *)
Definition numbers_of (cols : list string) (c : string) (rs : list (list value))
    : list Q :=
  flat_map (fun r => match cell cols r c with
                     | VNum q => [q]
                     | _ => []
                     end) rs.

(** The arithmetic mean: the sum divided by the count; missing when there
    is nothing to average. *)
Definition arithmetic_mean (qs : list Q) : value :=
  match qs with
  | [] => VNA
  | _ => VNum (fold_left Qplus qs 0 / inject_Z (Z.of_nat (length qs)))%Q
  end.

(** The mean of the field [c] over all the rows of the asset [s]. *)
Definition trend_of (d : DataFrame) (s : string) (c : string) : value :=
  arithmetic_mean (numbers_of (columns d) c (rows_of_asset d s)).

(** The six percent-change fields of a quote record. *)
Definition percent_change_fields : list string :=
  ["quote.USD.percent_change_1h"; "quote.USD.percent_change_24h";
   "quote.USD.percent_change_7d"; "quote.USD.percent_change_30d";
   "quote.USD.percent_change_60d"; "quote.USD.percent_change_90d"].

(** Those of the six that are among the labels of a dataset, in the
    order of the six. *)
Definition present_fields (d : DataFrame) : list string :=
  List.filter (fun c => existsb (String.eqb c) (columns d)) percent_change_fields.

Definition is_text_or_na (v : value) : bool :=
  match v with VStr _ | VNA => true | _ => false end.

Definition is_number_or_na (v : value) : bool :=
  match v with VNum _ | VNA => true | _ => false end.

(** A dataset of asset quote records: there is a name column, holding
    names, and the percent-change fields hold numbers; cells may be
    missing. *)
Definition quotes (d : DataFrame) : Prop :=
  has_column "name" d = true
  /\ forallb is_text_or_na (column "name" d) = true
  /\ forall c, In c trend_columns -> forallb is_number_or_na (column c d) = true.

(** ** The pass of the grouped mean, in terms of names *)

(** The code [factorize] gives a key among the distinct names [names]. *)
Definition code_of (names : list string) (key : value) : option nat :=
  match key with
  | VStr s => col_index s names
  | _ => None
  end.

(** The summands of group [g] among coded rows. *)
Definition selected (g : nat) (coded : list (option nat * option Q)) : list Q :=
  flat_map (fun row => match row with
                       | (Some g', Some q) => if g' =? g then [q] else []
                       | _ => []
                       end) coded.

(** The distinct names as [factorize] gathers them: each new name is
    added behind those already met. *)
Fixpoint gathered (met names : list string) : list string :=
  match names with
  | [] => met
  | s :: names' =>
      match col_index s met with
      | Some _ => gathered met names'
      | None => gathered (met ++ [s]) names'
      end
  end.

(** The name [s] is not among those met. *)
Definition unmet (met : list string) (s : string) : bool :=
  match col_index s met with Some _ => false | None => true end.

(** The number in a cell, if there is one. *)
Definition number_of (v : value) : option Q :=
  match v with VNum q => Some q | _ => None end.

(** ** Summary *)

Inductive Summary : Type :=
| NoData (message : string)
| Stats (total_records unique_cryptocurrencies : nat)
        (period_start period_end : string)
        (top_cryptocurrencies : list (value * nat)).

(** [series.nunique()] *)
Definition nunique (cells : list value) : result nat :=
  match factorize cells with
  | Ok (uniques, _) => Ok (length uniques)
  | Raise e => Raise e
  end.

Definition ts_min (a b : Timestamp) : Timestamp := if ts_leb a b then a else b.
Definition ts_max (a b : Timestamp) : Timestamp := if ts_leb a b then b else a.

(** [series.min().strftime(...)] and [series.max().strftime(...)] on a
    column of timestamps. A column without any has [NaT] as its extreme,
    a column of anything else has no [strftime]. *)
Definition extreme_strftime (pick : Timestamp -> Timestamp -> Timestamp)
    (cells : list value) : result string :=
  match timestamps_of cells with
  | Some (t :: ts) => Ok (strftime (fold_left pick ts t))
  | Some [] => Raise (ValueError "NaTType does not support strftime")
  | None => Raise (AttributeError "strftime")
  end.

Definition count_code (g : nat) (codes : list (option nat)) : nat :=
  length (List.filter (fun c => match c with Some g' => g' =? g | None => false end) codes).

Fixpoint insert_by_count (x : value * nat) (l : list (value * nat))
    : list (value * nat) :=
  match l with
  | [] => [x]
  | y :: l' => if snd y <=? snd x then x :: y :: l' else y :: insert_by_count x l'
  end.

(** [series.value_counts()]: the number of rows of every distinct value,
    most frequent first, values of equal frequency in order of first
    appearance. *)
Definition value_counts (cells : list value) : result (list (value * nat)) :=
  match factorize cells with
  | Raise e => Raise e
  | Ok (uniques, codes) =>
      let counted :=
        map (fun gu => (snd gu, count_code (fst gu) codes))
            (combine (seq 0 (length uniques)) uniques) in
      Ok (fold_right insert_by_count [] counted)
  end.

(** [get_summary_stats] *)
Definition get_summary_stats : M Summary :=
  d <- get_df ;;
  if empty d then ret (NoData "No data available")
  else
    unique <- lift (if has_column "name" d then nunique (column "name" d)
                    else Ok 0) ;;
    start <- lift (if has_column "timestamp" d
                   then extreme_strftime ts_min (column "timestamp" d)
                   else Ok "N/A") ;;
    finish <- lift (if has_column "timestamp" d
                    then extreme_strftime ts_max (column "timestamp" d)
                    else Ok "N/A") ;;
    top <- lift (if has_column "name" d
                 then match value_counts (column "name" d) with
                      | Ok counts => Ok (firstn 5 counts)
                      | Raise e => Raise e
                      end
                 else Ok []) ;;
    ret (Stats (len d) unique start finish top).

(** ** A text of numbers: whole numbers in decimal *)

(** Python writes an int as its decimal digits and reads such digits back
    as a number. This instance covers the non-negative whole numbers;
    lists are written as Python writes them when their strings need no
    escaping. *)
Definition whole_text (q : Q) : string :=
  NilEmpty.string_of_uint (N.to_uint (Z.to_N (Qnum q))).

Definition whole_parse (s : string) : option Q :=
  match s with
  | EmptyString => None
  | _ =>
      match NilEmpty.uint_of_string s with
      | Some u => Some (inject_Z (Z.of_N (N.of_uint u)))
      | None => None
      end
  end.

Fixpoint py_repr (j : json) : string :=
  match j with
  | JNull => "None"
  | JBool true => "True"
  | JBool false => "False"
  | JNum q => whole_text q
  | JStr s => "'" +:+ s +:+ "'"
  | JList l => "[" +:+ join ", " (map py_repr l) +:+ "]"
  | JDict d =>
      "{" +:+ join ", "
        ((fix items (kvs : list (string * json)) : list string :=
            match kvs with
            | [] => []
            | (k, v) :: kvs' => ("'" +:+ k +:+ "': " +:+ py_repr v) :: items kvs'
            end) d) +:+ "}"
  end.

#[export] Instance whole_numbers : PyText := {
  num_text := whole_text;
  num_parse := whole_parse;
  list_text := fun l => py_repr (JList l)
}.

(** The numbers this instance writes exactly: the whole numbers from
    zero on. *)
Definition whole (q : Q) : bool :=
  (0 <=? Qnum q)%Z && (Qden q =? 1)%positive.

(** What an iteration prints last, when it is not the final one. *)
Definition sleep_messages (iterations sleep_interval i : nat) : list string :=
  if i <? iterations - 1
  then ["  - Sleeping for " +:+ pretty sleep_interval +:+ " seconds..."]
  else [].

(** ** Outcomes of a request *)

(** What the next call of [fetch_crypto_data] will meet. *)
Definition fetch_outcome (start limit : Z) (convert : string) (w : World)
    : Outcome :=
  http w (requests w)
    (mkRequest (base_url w)
       [("start", pretty start); ("limit", pretty limit); ("convert", convert)]).

(** The request failed in transport or its body could not be decoded. *)
Definition failed (o : Outcome) : bool :=
  match o with
  | Replied _ => false
  | RequestException _ | JSONDecodeError _ => true
  end.


(** The records of a listing. *)
Definition listing (body : json) : list json :=
  match field "data" body with
  | Some (JList entries) => entries
  | _ => []
  end.

(** What the [i]-th call of [fetch_crypto_data] from now, with its default
    arguments, will meet. *)
Definition outcome_after (i : nat) (w : World) : Outcome :=
  fetch_outcome 1 15 "USD" (with_requests (requests w + i) w).

(** A successful fetch of [K] records: the request is answered by an
    object whose ['data'] is an array of [K] entries, each a record. *)
Definition answers_with (K : nat) (o : Outcome) : Prop :=
  exists d entries,
    o = Replied (JDict d)
    /\ Dict.get "data" d = Some (JList entries)
    /\ length entries = K
    /\ Forall (fun e => is_list e = false) entries.

(** The frames a collection run builds: every row has a cell for every
    label, and if there are rows there is a ['timestamp'] among the
    labels. *)
Definition collected (d : DataFrame) : Prop :=
  rectangular d /\ (rows d <> [] -> has_column "timestamp" d = true).

(** [np.random.normal(loc, scale)] when the deviate drawn is [z k]. *)
Definition normal_at (z : nat -> Q) (k : nat) (loc scale : Q) : Q :=
  (loc + scale * z k)%Q.

(** The mock listing as a function of the standard normal deviates [z 0],
    ..., [z 20] its draws consume. *)
Definition mock_listing (z : nat -> Q) : json :=
  JDict [("data", JList [
    mock_record 1 "Bitcoin" "BTC" "bitcoin" 1
      (45000.50 + normal_at z 0 0 1000)%Q
      (normal_at z 1 0 2) (normal_at z 2 0 5) (normal_at z 3 0 10)
      (normal_at z 4 0 15) (normal_at z 5 0 20) (normal_at z 6 0 25)
      800000000000 25000000000;
    mock_record 2 "Ethereum" "ETH" "ethereum" 2
      (3200.75 + normal_at z 7 0 200)%Q
      (normal_at z 8 0 2) (normal_at z 9 0 5) (normal_at z 10 0 10)
      (normal_at z 11 0 15) (normal_at z 12 0 20) (normal_at z 13 0 25)
      400000000000 15000000000;
    mock_record 3 "Tether" "USDT" "tether" 3
      (1.00 + normal_at z 14 0 0.01)%Q
      (normal_at z 15 0 0.1) (normal_at z 16 0 0.2) (normal_at z 17 0 0.3)
      (normal_at z 18 0 0.5) (normal_at z 19 0 0.7) (normal_at z 20 0 1.0)
      90000000000 50000000000])].

(** The frame of a result, the empty one if there is none. *)
Definition frame_of (r : result DataFrame) : DataFrame :=
  match r with
  | Ok d => d
  | Raise _ => DataFrame_new
  end.

(** ** Sample surroundings *)

Definition sample_clock (n : nat) : Timestamp :=
  mkTimestamp 2024 5 1 12 0 (N.of_nat n) 250000.

Definition sample_entry (id : Z) (name : string) (change : Z) : json :=
  JDict [("id", JNum (inject_Z id)); ("name", JStr name);
         ("quote", JDict [("USD", JDict [
            ("price", JNum (inject_Z (100 * id)));
            ("percent_change_1h", JNum (inject_Z change));
            ("percent_change_24h", JNum (inject_Z (2 * change)))])])].

Definition sample_body (n : nat) : list (string * json) :=
  [("status", JDict [("error_code", JNum 0)]);
   ("data", JList [sample_entry 1 "Bitcoin" (Z.of_nat n);
                   sample_entry 2 "Ethereum" (3 * Z.of_nat n);
                   sample_entry 3 "Tether" 0])].

(** The directories of the sample processes. *)
Definition demo_files : gmap string node :=
  {[ "/" := Dir; "/home" := Dir; "/home/demo" := Dir ]}.

(** A process whose requests are all answered, the n-th with
    [sample_body n]. *)
Definition online : World :=
  mkWorld DataFrame_new BASE_URL "/home/demo" demo_files []
    (fun n _ => Replied (JDict (sample_body n))) 0
    sample_clock 0 (fun n => inject_Z (Z.of_nat n)) 0.

(** The same process after one and after two iterations of collection. *)
Definition collected_once : World := snd (run_data_collection 1 0 online).
Definition collected_twice : World := snd (run_data_collection 2 0 online).

(** A process without network: every request fails. *)
Definition offline : World :=
  mkWorld DataFrame_new BASE_URL "/home/demo" demo_files []
    (fun _ _ => RequestException "connection refused") 0
    sample_clock 0 (fun n => inject_Z (Z.of_nat n)) 0.

(** A process whose server answers every request with the body [null]. *)
Definition answering_null : World :=
  mkWorld DataFrame_new BASE_URL "/home/demo" demo_files []
    (fun _ _ => Replied JNull) 0
    sample_clock 0 (fun n => inject_Z (Z.of_nat n)) 0.

(** A process whose server answers every request with the body [5]. *)
Definition answering_five : World :=
  mkWorld DataFrame_new BASE_URL "/home/demo" demo_files []
    (fun _ _ => Replied (JNum 5)) 0
    sample_clock 0 (fun n => inject_Z (Z.of_nat n)) 0.

(** A batch of one record. *)
Definition sample_batch (t : Timestamp) (price : Z) : DataFrame :=
  mkDataFrame ["name"; "quote.USD.price"; "timestamp"]
    [[VStr "Bitcoin"; VNum (inject_Z price); VTime t]].


(** ** What an iteration prints *)

Definition iteration_header (iterations i : nat) : string :=
  "Iteration " +:+ pretty (i + 1) +:+ "/" +:+ pretty iterations.

(** The two lines after a body was processed: how many records it gave
    and how many the dataset holds. *)
Definition collected_messages (processed total : nat) : list string :=
  ["  - Collected data for " +:+ pretty processed +:+ " cryptocurrencies";
   "  - Total dataset size: " +:+ pretty total +:+ " records"].

(** All that an iteration prints when the body it got is falsy. *)
Definition failure_messages (iterations sleep_interval i : nat) : list string :=
  [iteration_header iterations i; "  - Failed to collect data"]
  ++ sleep_messages iterations sleep_interval i.

(** ** Datasets as a run builds them *)

(** Every row has a cell for every label and no label occurs twice. *)
Definition well_formed (d : DataFrame) : Prop :=
  rectangular d /\ NoDup (columns d).

(** The collection timestamps of the dataset never decrease from a row to
    the next, and none is later than [bound]. *)
Definition chronological (d : DataFrame) (bound : Timestamp) : Prop :=
  collected d
  /\ exists ts,
       timestamps_of (column "timestamp" d) = Some ts
       /\ nondecreasing ts = true
       /\ Forall (fun t => ts_le t bound) ts.

(** What a request brings in: an answer with [K] records, or a failure,
    which the fallback turns into its three records. *)
Definition delivers (K : nat) (o : Outcome) : Prop :=
  answers_with K o \/ (failed o = true /\ K = 3).

(** The names of the mock listing, as cells. *)
Definition mock_names : list value :=
  [VStr "Bitcoin"; VStr "Ethereum"; VStr "Tether"].

(** ** The draws behind the mock records *)

(** The scales of the six percent changes of the [asset]-th mock record:
    Tether, the third, moves least. *)
Definition mock_scales (asset : nat) : list Q :=
  match asset with
  | 2 => [0.1; 0.2; 0.3; 0.5; 0.7; 1.0]%Q
  | _ => [2; 5; 10; 15; 20; 25]%Q
  end.

(** The [period]-th percent change of the [asset]-th record of a mock
    listing that consumes the deviates [z 0], ..., [z 20]: each record
    takes seven draws, the first of them for its price. *)
Definition mock_change (z : nat -> Q) (asset period : nat) : Q :=
  normal_at z (7 * asset + 1 + period) 0 (nth period (mock_scales asset) 0%Q).

(** The deviates the [i]-th call of the fallback from now on consumes. *)
Definition draws_of (w : World) (i : nat) : nat -> Q :=
  fun k => normal_draws w (k + (drawn w + 21 * i)).

(** The cells the [period]-th percent change has in the records of one
    mock listing. *)
Definition mock_changes (z : nat -> Q) (period : nat) : list value :=
  map (fun asset => VNum (mock_change z asset period)) (seq 0 3).

(** ** The leaves of a record *)

(** The leaves of a JSON value, each with its dotted path, in the order
    of the display. An empty object has none. *)
Fixpoint leaves (data : json) (key_string : string) : list (string * value) :=
  match data with
  | JDict d =>
      (fix items (kvs : list (string * json)) : list (string * value) :=
         match kvs with
         | [] => []
         | (key, v) :: kvs' => leaves v (new_key key_string key) ++ items kvs'
         end) d
  | leaf => [(key_string, leaf_value leaf)]
  end.

(** The fields of a record in the order of the columns they give: the
    scalar fields, then the leaves of the nested objects. *)
Definition flat_fields (d : list (string * json)) : list (string * value) :=
  map (fun kv => (fst kv, leaf_value (snd kv)))
      (List.filter (fun kv => negb (is_dict (snd kv))) d)
  ++ leaves (JDict (List.filter (fun kv => is_dict (snd kv)) d)) "".

(** No two fields of the record come under the same path. *)
Definition distinct_paths (d : list (string * json)) : Prop :=
  NoDup (map fst (flat_fields d)).

Definition set_item (acc : Dict.t value) (kv : string * value) : Dict.t value :=
  Dict.set (fst kv) (snd kv) acc.

(** ** Observations *)

(** The numbers the field [c] has in the records of the asset [s]. *)
Definition observations (d : DataFrame) (s c : string) : list Q :=
  numbers_of (columns d) c (rows_of_asset d s).

(** ** Counts of records *)

(** The first of two counts is not below the second. *)
Definition by_count (a b : value * nat) : Prop := snd b <= snd a.

(** The number of records of every asset of a dataset. *)
Definition record_counts (d : DataFrame) : list (value * nat) :=
  map (fun s => (VStr s, length (rows_of_asset d s))) (asset_names d).

(** ** Plots *)

(** What a method asks [sns.lineplot] and [plt] for: the frame, the
    columns of the two axes, the column that tells the lines apart, the
    title, and the file the figure is saved to, if any. The drawing
    itself is outside this development. *)
Record LinePlot : Type := mkLinePlot {
  plot_data : DataFrame;
  plot_x : string;
  plot_y : string;
  plot_hue : option string;
  plot_title : string;
  saved_as : option string
}.

(** What [sns.lineplot] raises when the column [c] it is given for the
    variable [var] is not a column of the data. *)
Definition not_in_data (c var : string) : exn :=
  ValueError ("Could not interpret value `" +:+ c +:+ "` for `" +:+ var
              +:+ "`. An entry with this name does not appear in `data`.").

(** [sns.lineplot(data=data, x=x, y=y, hue=hue)]: the columns named must
    be columns of [data]. *)
Definition lineplot (data : DataFrame) (x y : string) (hue : option string)
    : result unit :=
  if negb (has_column x data) then Raise (not_in_data x "x")
  else if negb (has_column y data) then Raise (not_in_data y "y")
  else match hue with
       | Some h => if has_column h data then Ok tt else Raise (not_in_data h "hue")
       | None => Ok tt
       end.

(** [df[df[c] == s]] for a text [s]: the rows whose cell under [c] is
    that text, in their order. *)
Definition select_text (c s : string) (d : DataFrame) : result DataFrame :=
  match col_index c (columns d) with
  | None => Raise (KeyError c)
  | Some _ =>
      Ok (mkDataFrame (columns d)
            (List.filter (fun r => value_eqb (cell (columns d) r c) (VStr s))
                         (rows d)))
  end.

(** [if save_plot: plt.savefig(file, ...); print(...)]. The image is not
    among the files of the world, which holds the files of text. *)
Definition savefig (save_plot : bool) (file : string) : M (option string) :=
  if save_plot then
    print ("Plot saved as '" +:+ file +:+ "'") ;;; ret (Some file)
  else ret None.

(** [visualize_bitcoin_price], up to the figure it asks for; [None] when
    it returns without one. *)
Definition visualize_bitcoin_price (save_plot : bool) : M (option LinePlot) :=
  d <- get_df ;;
  if empty d then
    print "No data available for visualization" ;;; ret None
  else
    bitcoin_data <- lift (select_text "name" "Bitcoin" d) ;;
    if empty bitcoin_data then
      print "No Bitcoin data available" ;;; ret None
    else
      lift (lineplot bitcoin_data "timestamp" "quote.USD.price" None) ;;;
      file <- savefig save_plot "bitcoin_price.png" ;;
      ret (Some (mkLinePlot bitcoin_data "timestamp" "quote.USD.price" None
                   "Bitcoin Price Over Time" file)).

(** [trend_data.empty] *)
Definition grouped_empty (g : GroupedFrame) : bool :=
  (length (g_columns g) =? 0) || (length (g_index g) =? 0).

(** [g.reset_index()] for a frame whose index is called [name]: the index
    becomes the first column. *)
Definition reset_index (name : string) (g : GroupedFrame) : result DataFrame :=
  if existsb (String.eqb name) (g_columns g) then
    Raise (ValueError ("cannot insert " +:+ name +:+ ", already exists"))
  else
    Ok (mkDataFrame (name :: g_columns g)
          (map (fun ir => fst ir :: snd ir) (combine (g_index g) (g_rows g)))).

(** [d.melt(id_vars=[id_var], var_name=var_name, value_name=value_name)]:
    one row per cell of the other columns, column after column. *)
Definition melt (id_var var_name value_name : string) (d : DataFrame)
    : result DataFrame :=
  match col_index id_var (columns d) with
  | None => Raise (KeyError id_var)
  | Some _ =>
      if existsb (String.eqb value_name) (columns d) then
        Raise (ValueError ("value_name (" +:+ value_name
                           +:+ ") cannot match an element in the DataFrame columns."))
      else
        Ok (mkDataFrame [id_var; var_name; value_name]
              (flat_map
                 (fun c => map (fun r => [cell (columns d) r id_var; VStr c;
                                          cell (columns d) r c])
                               (rows d))
                 (List.filter (fun c => negb (String.eqb c id_var)) (columns d))))
  end.

(** [new] in front of every character of [s] and behind the last. *)
Fixpoint intersperse (new s : string) : string :=
  match s with
  | EmptyString => new
  | String c s' => new +:+ String c (intersperse new s')
  end.

(** The occurrences of [old] in [s], found from the left, replaced by
    [new]; [skip] counts the characters of an occurrence still to be
    passed over. *)
Fixpoint replace_from (skip : nat) (old new s : string) : string :=
  match s with
  | EmptyString => EmptyString
  | String c s' =>
      match skip with
      | S k => replace_from k old new s'
      | O =>
          if String.prefix old s
          then new +:+ replace_from (String.length old - 1) old new s'
          else String c (replace_from 0 old new s')
      end
  end.

(** [s.replace(old, new)] *)
Definition str_replace (old new s : string) : string :=
  match old with
  | EmptyString => intersperse new s
  | _ => replace_from 0 old new s
  end.

(** [d[c].str.replace(old, new)] put back under [c], for a column of
    text; a cell that is not text comes out missing. *)
Definition replace_in_column (c old new : string) (d : DataFrame)
    : result DataFrame :=
  match col_index c (columns d) with
  | None => Raise (KeyError c)
  | Some i =>
      Ok (mkDataFrame (columns d)
            (map (fun r => list_set i (match nth i r VNA with
                                       | VStr s => VStr (str_replace old new s)
                                       | _ => VNA
                                       end) r) (rows d)))
  end.

(** [visualize_trends], up to the figure it asks for; [None] when it
    returns without one. *)
Definition visualize_trends (save_plot : bool) : M (option LinePlot) :=
  d <- get_df ;;
  if empty d then
    print "No data available for visualization" ;;; ret None
  else
    trend_data <- analyze_price_trends ;;
    if grouped_empty trend_data then
      print "No trend data available for visualization" ;;; ret None
    else
      wide <- lift (reset_index "name" trend_data) ;;
      trend_melted <- lift (melt "name" "time_period" "percent_change" wide) ;;
      trend_melted <- lift (replace_in_column "time_period"
                              "quote.USD.percent_change_" "" trend_melted) ;;
      lift (lineplot trend_melted "time_period" "percent_change" (Some "name")) ;;;
      file <- savefig save_plot "crypto_trends.png" ;;
      ret (Some (mkLinePlot trend_melted "time_period" "percent_change" (Some "name")
                   "Cryptocurrency Price Change Trends Over Time" file)).

(** The name of a period as the figure shows it. *)
Definition period_of (c : string) : string :=
  str_replace "quote.USD.percent_change_" "" c.

(** ** Readers *)

(** A computation that leaves the dataset as it is, whether it returns
    or raises. *)
Definition read_only {A} (m : M A) : Prop :=
  forall w, df (snd (m w)) = df w.

(** ** More sample surroundings *)

(** A process whose requests are answered and refused in turn. *)
Definition flaky : World :=
  mkWorld DataFrame_new BASE_URL "/home/demo" demo_files []
    (fun n _ => if Nat.even n then Replied (JDict (sample_body n))
                else RequestException "timed out") 0
    sample_clock 0 (fun n => inject_Z (Z.of_nat n)) 0.

(** A directory holding a file that some other program wrote: prices
    without a column of timestamps. *)
Definition with_foreign_file : World :=
  with_files (<[absolute (cwd online) "prices.csv"
                := File [["name"; "price"]; ["Bitcoin"; "45000"];
                         ["Ethereum"; "3200"]]]>
                (files online))
    (with_df (sample_batch (sample_clock 0) 100) online).

(** A dataset whose records carry a percent change but no name. *)
Definition nameless : DataFrame :=
  mkDataFrame ["id"; "quote.USD.percent_change_1h"] [[VNum 1; VNum 2]].

(** A dataset in which a percent change came as text. *)
Definition textual : DataFrame :=
  mkDataFrame ["name"; "quote.USD.percent_change_24h"]
    [[VStr "Bitcoin"; VNum 2]; [VStr "Bitcoin"; VStr "n/a"]].

(** A batch whose record carries a list, as the tags of a listing are. *)
Definition tagged_batch : DataFrame :=
  mkDataFrame ["name"; "tags"; "timestamp"]
    [[VStr "Bitcoin"; VList [JStr "mineable"; JStr "pow"]; VTime (sample_clock 0)]].

(** A process holding [tagged_batch], and one in whose directory that
    batch has been saved. *)
Definition tagged : World := with_df tagged_batch online.

(** A process whose one record has a code of digits, kept as text. *)
Definition coded : World :=
  with_df (mkDataFrame ["id"; "timestamp"]
             [[VStr "42"; VTime (sample_clock 0)]]) online.


Definition with_tagged_file : World :=
  with_files (<[absolute (cwd online) "tagged.csv" := File (to_csv tagged_batch)]>
                (files online)) online.

(** A process whose second request is answered with a body that carries
    a message where the records should be. *)
Definition answering_message : World :=
  mkWorld DataFrame_new BASE_URL "/home/demo" demo_files []
    (fun n _ => if n =? 1
                then Replied (JDict [("data", JStr "rate limit exceeded")])
                else Replied (JDict (sample_body n))) 0
    sample_clock 0 (fun n => inject_Z (Z.of_nat n)) 0.

(** * Properties *)

(** ** Labels, cells and rows *)

Lemma col_index_Some c cols i :
  col_index c cols = Some i -> i < length cols /\ nth i cols "" = c.
Proof.
  revert i. induction cols as [|c' cols IH]; intros i; simpl; [discriminate|].
  destruct (String.eqb_spec c c') as [->|Hne].
  - intros [= <-]. split; [lia|reflexivity].
  - destruct (col_index c cols) as [k|]; [|discriminate].
    intros [= <-]. destruct (IH k eq_refl). split; [lia|assumption].
Qed.

Lemma col_index_None c cols :
  col_index c cols = None <-> ~ In c cols.
Proof.
  induction cols as [|c' cols IH]; simpl.
  - split; [intros _ []|reflexivity].
  - destruct (String.eqb_spec c c') as [->|Hne].
    + split; [discriminate|]. intros Hn. exfalso. apply Hn. now left.
    + destruct (col_index c cols) as [k|].
      * split; [discriminate|]. intros Hn. exfalso.
        destruct IH as [_ IH]. 
        assert (Hc : ~ In c cols) by (intros Hin; apply Hn; now right).
        specialize (IH Hc). discriminate.
      * split; [|reflexivity]. intros _ [Heq|Hin]; [congruence|].
        destruct IH as [IH _]. now apply IH.
Qed.

Lemma col_index_In c cols :
  In c cols -> exists i, col_index c cols = Some i.
Proof.
  intros Hin. destruct (col_index c cols) as [i|] eqn:E; [eauto|].
  apply col_index_None in E. contradiction.
Qed.

Lemma col_index_app_l c cols extra i :
  col_index c cols = Some i -> col_index c (cols ++ extra) = Some i.
Proof.
  revert i. induction cols as [|c' cols IH]; intros i; simpl; [discriminate|].
  destruct (String.eqb c c'); [trivial|].
  destruct (col_index c cols) as [k|]; [|discriminate].
  intros [= <-]. now rewrite (IH k eq_refl).
Qed.

Lemma col_index_app_r c cols extra :
  col_index c cols = None ->
  col_index c (cols ++ c :: extra) = Some (length cols).
Proof.
  induction cols as [|c' cols IH]; simpl.
  - now rewrite String.eqb_refl.
  - destruct (String.eqb c c'); [discriminate|].
    destruct (col_index c cols); [discriminate|].
    intros _. now rewrite IH.
Qed.

Lemma col_index_app_new c cols :
  col_index c cols = None -> col_index c (cols ++ [c]) = Some (length cols).
Proof. apply col_index_app_r. Qed.

Lemma nth_list_set_eq {A} i (x d : A) l :
  i < length l -> nth i (list_set i x l) d = x.
Proof.
  revert i. induction l as [|y l IH]; intros [|i]; simpl; try lia; auto.
  intros Hi. apply IH. lia.
Qed.

Lemma length_list_set {A} i (x : A) l : length (list_set i x l) = length l.
Proof.
  revert i. induction l as [|y l IH]; intros [|i]; simpl; auto.
Qed.

Lemma nth_list_set_ne {A} i j (x d : A) l :
  i <> j -> nth j (list_set i x l) d = nth j l d.
Proof.
  revert i j. induction l as [|y l IH]; intros [|i] [|j]; simpl; auto; try congruence.
Qed.

(** After [df[c] = v] every row carries [v] under [c]. *)
Lemma column_set_column c v d :
  rectangular d -> column c (set_column c v d) = repeat v (len d).
Proof.
  intros Hrect. unfold column, set_column, len.
  destruct (col_index c (columns d)) as [i|] eqn:E; simpl.
  - rewrite map_map. unfold cell. rewrite E.
    destruct (col_index_Some _ _ _ E) as [Hi _].
    unfold rectangular in Hrect.
    induction Hrect as [|r rs Hr _ IH]; simpl; [reflexivity|].
    f_equal; [|exact IH]. apply nth_list_set_eq. lia.
  - rewrite map_map. unfold cell. rewrite (col_index_app_new _ _ E).
    unfold rectangular in Hrect.
    induction Hrect as [|r rs Hr _ IH]; simpl; [reflexivity|].
    f_equal; [|exact IH].
    rewrite app_nth2 by lia. now replace (length (columns d) - length r) with 0 by lia.
Qed.

Lemma len_set_column c v d : len (set_column c v d) = len d.
Proof.
  unfold set_column, len. destruct (col_index c (columns d)); simpl;
    now rewrite length_map.
Qed.

Lemma rectangular_set_column c v d :
  rectangular d -> rectangular (set_column c v d).
Proof.
  unfold rectangular, set_column. intros Hrect.
  destruct (col_index c (columns d)); simpl;
    induction Hrect as [|r rs Hr _ IH]; simpl; constructor; auto.
  - now rewrite length_list_set.
  - rewrite !length_app. simpl. lia.
Qed.

Lemma has_column_set_column c v d : has_column c (set_column c v d) = true.
Proof.
  unfold has_column, set_column.
  destruct (col_index c (columns d)) as [i|] eqn:E; simpl.
  - now rewrite E.
  - now rewrite (col_index_app_new _ _ E).
Qed.

Lemma rectangular_from_records ds : rectangular (from_records ds).
Proof.
  unfold rectangular, from_records. simpl.
  generalize (fold_left (fun acc d => union_columns acc (Dict.keys d)) ds []).
  intros cols. induction ds as [|d ds IH]; simpl; constructor; auto.
  now rewrite length_map.
Qed.

Lemma len_from_records ds : len (from_records ds) = length ds.
Proof. unfold len, from_records. simpl. apply length_map. Qed.

(** ** Normalization *)

Lemma normalize_entries_length entries :
  Forall (fun e => is_list e = false) entries ->
  exists ds, normalize_entries entries = Ok ds /\ length ds = length entries.
Proof.
  induction 1 as [|e es He _ [ds [IH Hlen]]]; simpl.
  - now exists [].
  - destruct e; simpl in *; try discriminate; rewrite IH; eexists;
      (split; [reflexivity|simpl; now rewrite Hlen]).
Qed.

Lemma json_normalize_rows entries :
  Forall (fun e => is_list e = false) entries ->
  exists d, json_normalize (JList entries) = Ok d
            /\ len d = length entries /\ rectangular d.
Proof.
  intros Hent. destruct entries as [|e es].
  - exists DataFrame_new. repeat split. constructor.
  - destruct (normalize_entries_length _ Hent) as [ds [E Hlen]].
    exists (from_records ds). unfold json_normalize. rewrite E.
    repeat split; [now rewrite len_from_records|apply rectangular_from_records].
Qed.

(** What [process_data] does with a body whose ['data'] is an array. *)
Lemma process_data_array w d entries :
  Dict.get "data" d = Some (JList entries) ->
  Forall (fun e => is_list e = false) entries ->
  exists df_new,
    process_data (JDict d) w = (Ok df_new, with_ticks (S (ticks w)) w)
    /\ len df_new = length entries
    /\ rectangular df_new
    /\ has_column "timestamp" df_new = true
    /\ column "timestamp" df_new
       = repeat (VTime (clock w (ticks w))) (length entries).
Proof.
  intros Hget Hent.
  destruct (json_normalize_rows _ Hent) as [dn [Hn [Hlen Hrect]]].
  exists (set_column "timestamp" (VTime (clock w (ticks w))) dn).
  split.
  - assert (Ht : truthy (JDict d) = true)
      by (destruct d; [discriminate|reflexivity]).
    unfold process_data, bind, lift. rewrite Ht.
    unfold py_contains, py_getitem, Dict.mem. rewrite Hget. cbn [negb].
    rewrite Hn. reflexivity.
  - rewrite len_set_column, column_set_column, Hlen by assumption.
    repeat split; auto using rectangular_set_column, has_column_set_column.
Qed.

(** The claim of C4 fails as stated: a body that is a number other than
    zero, or [true], lacks the key ['data'], and [process_data] fails on
    it, the test for the key raising [TypeError]. A server can send such
    a body, and [fetch_crypto_data] passes it on as it is. *)
Lemma process_data_fails :
  fst (fetch_crypto_data 1 15 "USD" answering_five) = Ok (JNum 5)
  /\ fst (process_data (JNum 5) answering_five)
     = Raise (TypeError "argument of type 'float' is not iterable")
  /\ fst (process_data (JBool true) answering_five)
     = Raise (TypeError "argument of type 'bool' is not iterable")
  /\ fst (run_data_collection 1 0 answering_five)
     = Raise (TypeError "argument of type 'float' is not iterable").
Proof. repeat split; vm_compute; reflexivity. Qed.

(** C4, amended: a body whose top-level ['data'] array holds K entries is
    normalized into exactly K rows, every one of them carrying the one
    reading of the clock made by the call under ['timestamp']; a body
    that is falsy ([None], zero, [false], an empty text, array or
    object), or an object without the key ['data'], or an array or a
    text in which ['data'] is not found, gives the empty frame, no
    exception, and leaves the world as it was; a number other than zero
    and [true] make the call raise [TypeError]. *)
Theorem process_data_normalizes (w : World) :
  (forall d entries,
      Dict.get "data" d = Some (JList entries) ->
      Forall (fun e => is_list e = false) entries ->
      exists df_new,
        fst (process_data (JDict d) w) = Ok df_new
        /\ len df_new = length entries
        /\ column "timestamp" df_new
           = repeat (VTime (clock w (ticks w))) (length entries))
  /\ (forall d,
        Dict.get "data" d = None ->
        process_data (JDict d) w = (Ok DataFrame_new, w))
  /\ (forall data,
        truthy data = false ->
        process_data data w = (Ok DataFrame_new, w))
  /\ (forall l,
        (forall e, In e l -> e <> JStr "data") ->
        process_data (JList l) w = (Ok DataFrame_new, w))
  /\ (forall s,
        is_substring "data" s = false ->
        process_data (JStr s) w = (Ok DataFrame_new, w))
  /\ (forall data,
        truthy data = true ->
        (exists q, data = JNum q) \/ (exists b, data = JBool b) ->
        exists what, process_data data w = (Raise (TypeError what), w)).
Proof.
  split; [|split; [|split; [|split; [|split]]]].
  - intros d entries Hget Hent.
    destruct (process_data_array w d entries Hget Hent)
      as [df_new [E [Hlen [_ [_ Hcol]]]]].
    exists df_new. rewrite E. auto.
  - intros d Hget. unfold process_data, bind, lift.
    destruct (truthy (JDict d)); [|reflexivity].
    unfold py_contains, Dict.mem. now rewrite Hget.
  - intros data Hfalsy. unfold process_data, bind, lift. now rewrite Hfalsy.
  - intros l Hl. unfold process_data, bind, lift.
    destruct (truthy (JList l)); [|reflexivity].
    unfold py_contains.
    replace (existsb (json_is_str "data") l) with false; [reflexivity|].
    symmetry. destruct (existsb (json_is_str "data") l) eqn:E; [|reflexivity].
    apply existsb_exists in E as (e & He & Es).
    destruct e; try discriminate. cbn [json_is_str] in Es.
    apply String.eqb_eq in Es as <-.
    now contradiction (Hl _ He).
  - intros s Hs. unfold process_data, bind, lift.
    destruct (truthy (JStr s)); [|reflexivity].
    unfold py_contains. now rewrite Hs.
  - intros data Ht [[q ->]|[b ->]]; unfold process_data, bind, lift;
      rewrite Ht; eexists; reflexivity.
Qed.

Lemma process_data_normalizes_witness :
  exists df_new,
    fst (process_data (JDict (sample_body 0)) online) = Ok df_new
    /\ len df_new = 3
    /\ column "timestamp" df_new = repeat (VTime (sample_clock 0)) 3.
Proof.
  apply (proj1 (process_data_normalizes online) (sample_body 0)
           [sample_entry 1 "Bitcoin" 0; sample_entry 2 "Ethereum" 0;
            sample_entry 3 "Tether" 0]).
  - reflexivity.
  - repeat constructor.
Defined.

(** The labels of a normalized listing are the dotted paths of its
    leaves, the scalar fields first, and the stamp last. *)
Example normalized_labels :
  columns (frame_of (fst (process_data (JDict (sample_body 0)) online)))
  = ["id"; "name"; "quote.USD.price"; "quote.USD.percent_change_1h";
     "quote.USD.percent_change_24h"; "timestamp"].
Proof. vm_compute. reflexivity. Qed.

(** ** The fallback *)

Lemma fetch_failed start limit convert w :
  failed (fetch_outcome start limit convert w) = true ->
  exists msg,
    fetch_crypto_data start limit convert w
    = _get_mock_data (with_stdout (stdout w ++ [msg]) (with_requests (S (requests w)) w)).
Proof.
  unfold fetch_outcome, fetch_crypto_data, bind, session_get. simpl.
  destruct (http w (requests w) _) as [body|e|e]; simpl; [discriminate| |];
    intros _; eexists; reflexivity.
Qed.

Lemma fetch_replied start limit convert w body :
  fetch_outcome start limit convert w = Replied body ->
  fetch_crypto_data start limit convert w
  = (Ok body, with_requests (S (requests w)) w).
Proof.
  unfold fetch_outcome, fetch_crypto_data, bind, session_get. simpl.
  now intros ->.
Qed.

(** A call of [_get_mock_data] consumes the next twenty-one draws and
    returns the listing they determine. *)
Lemma mock_data_eq w :
  _get_mock_data w
  = (Ok (mock_listing (fun k => normal_draws w (k + drawn w))),
     with_drawn (21 + drawn w) w).
Proof. destruct w. vm_compute. reflexivity. Qed.

(** A failed fetch prints one message and returns the mock listing of the
    next draws. *)
Lemma fetch_failed_mock start limit convert w :
  failed (fetch_outcome start limit convert w) = true ->
  exists msg w',
    fetch_crypto_data start limit convert w
    = (Ok (mock_listing (fun k => normal_draws w (k + drawn w))), w')
    /\ stdout w' = stdout w ++ [msg]
    /\ df w' = df w.
Proof.
  intros Hfail. destruct (fetch_failed _ _ _ _ Hfail) as [msg ->].
  rewrite mock_data_eq. exists msg. eexists. split; [reflexivity|].
  split; reflexivity.
Qed.

Lemma mock_listing_shape z :
  exists entries,
    mock_listing z = JDict [("data", JList entries)]
    /\ length entries = 3
    /\ Forall (fun e => is_list e = false) entries
    /\ map (field "name") entries
       = [Some (JStr "Bitcoin"); Some (JStr "Ethereum"); Some (JStr "Tether")]
    /\ map (field "cmc_rank") entries
       = [Some (JNum 1); Some (JNum 2); Some (JNum 3)].
Proof.
  eexists. split; [reflexivity|]. repeat split; repeat constructor.
Qed.

Lemma mock_listing_frame z w :
  exists d,
    process_data (mock_listing z) w = (Ok d, with_ticks (S (ticks w)) w)
    /\ len d = 3
    /\ collected d
    /\ column "timestamp" d = repeat (VTime (clock w (ticks w))) 3
    /\ column "name" d = [VStr "Bitcoin"; VStr "Ethereum"; VStr "Tether"]
    /\ column "cmc_rank" d = [VNum 1; VNum 2; VNum 3].
Proof.
  destruct (mock_listing_shape z) as (entries & E & Hlen & Hent & _).
  destruct (process_data_array w [("data", JList entries)] entries eq_refl Hent)
    as (d & Hd & Hlend & Hrect & Hhas & Hcol).
  rewrite <- E in Hd. rewrite Hlen in *.
  exists d. split; [exact Hd|]. split; [exact Hlend|].
  split; [split; auto|]. split; [exact Hcol|].
  assert (Hd' : d = frame_of (fst (process_data (mock_listing z) w)))
    by now rewrite Hd.
  rewrite Hd'. clear. destruct w. split; vm_compute; reflexivity.
Qed.

(** C5: when the request fails, in transport or in decoding, what
    [fetch_crypto_data] returns is a listing of exactly three records,
    named Bitcoin, Ethereum and Tether and ranked 1, 2 and 3, in this
    order; normalized, it is a frame of three rows with these names and
    ranks. *)
Theorem fallback_contents (w : World) (start limit : Z) (convert : string) :
  failed (fetch_outcome start limit convert w) = true ->
  exists body w',
    fetch_crypto_data start limit convert w = (Ok body, w')
    /\ length (listing body) = 3
    /\ map (field "name") (listing body)
       = [Some (JStr "Bitcoin"); Some (JStr "Ethereum"); Some (JStr "Tether")]
    /\ map (field "cmc_rank") (listing body)
       = [Some (JNum 1); Some (JNum 2); Some (JNum 3)]
    /\ exists d,
         fst (process_data body w') = Ok d
         /\ len d = 3
         /\ column "name" d = [VStr "Bitcoin"; VStr "Ethereum"; VStr "Tether"]
         /\ column "cmc_rank" d = [VNum 1; VNum 2; VNum 3].
Proof.
  intros Hfail.
  destruct (fetch_failed_mock _ _ _ _ Hfail) as (msg & w' & -> & _ & _).
  set (z := fun k => normal_draws w (k + drawn w)).
  exists (mock_listing z), w'. split; [reflexivity|].
  destruct (mock_listing_shape z) as (entries & E & Hlen & _ & Hnames & Hranks).
  destruct (mock_listing_frame z w') as (d & Hd & Hlend & _ & _ & Hn & Hr).
  rewrite Hd, E. cbn [listing field Dict.get String.eqb Ascii.eqb Bool.eqb fst].
  repeat split; auto. exists d. auto.
Qed.

Lemma fallback_contents_witness :
  exists body w',
    fetch_crypto_data 1 15 "USD" offline = (Ok body, w')
    /\ length (listing body) = 3
    /\ map (field "name") (listing body)
       = [Some (JStr "Bitcoin"); Some (JStr "Ethereum"); Some (JStr "Tether")]
    /\ map (field "cmc_rank") (listing body)
       = [Some (JNum 1); Some (JNum 2); Some (JNum 3)]
    /\ exists d,
         fst (process_data body w') = Ok d
         /\ len d = 3
         /\ column "name" d = [VStr "Bitcoin"; VStr "Ethereum"; VStr "Tether"]
         /\ column "cmc_rank" d = [VNum 1; VNum 2; VNum 3].
Proof. apply (fallback_contents offline 1 15 "USD"). reflexivity. Defined.


Lemma mock_listing_ext z1 z2 :
  (forall k, k < 21 -> z1 k = z2 k) -> mock_listing z1 = mock_listing z2.
Proof.
  intros Hz. cbv beta zeta delta [mock_listing normal_at].
  repeat match goal with
         | |- context [z1 ?k] => rewrite (Hz k) by lia
         end.
  reflexivity.
Qed.






(** ** Loading and summarizing *)

(** C7: when the file to load does not exist, [load_from_csv] prints that
    the file was not found, raises nothing and changes nothing else: the
    frame in memory is the one from before the call. *)
Theorem load_missing_file `{PyText} (w : World) (filename : string) :
  files w !! absolute (cwd w) filename = None ->
  load_from_csv filename w
  = (Ok tt,
     with_stdout
       (stdout w ++ ["File " +:+ absolute (cwd w) filename +:+ " not found"]) w)
  /\ df (snd (load_from_csv filename w)) = df w.
Proof.
  intros Hmissing.
  assert (E : load_from_csv filename w
              = (Ok tt,
                 with_stdout
                   (stdout w
                    ++ ["File " +:+ absolute (cwd w) filename +:+ " not found"]) w)).
  { unfold load_from_csv, bind, get_cwd, read_file. rewrite Hmissing. reflexivity. }
  rewrite E. split; reflexivity.
Qed.

Lemma load_missing_file_witness :
  load_from_csv "crypto_data.csv" online
  = (Ok tt,
     with_stdout
       (stdout online
        ++ ["File " +:+ absolute (cwd online) "crypto_data.csv" +:+ " not found"])
       online)
  /\ df (snd (load_from_csv "crypto_data.csv" online)) = df online.
Proof. apply (load_missing_file online "crypto_data.csv"). reflexivity. Defined.

(** C8: on an empty dataset [get_summary_stats] returns the message
    "No data available" and raises nothing. *)
Theorem summary_of_empty (w : World) :
  empty (df w) = true ->
  get_summary_stats w = (Ok (NoData "No data available"), w).
Proof.
  intros Hempty. unfold get_summary_stats, bind, get_df. now rewrite Hempty.
Qed.

(** On the sample process, after two iterations. *)
Example summary_after_two_iterations :
  fst (get_summary_stats collected_twice)
  = Ok (Stats 6 3 "2024-05-01 12:00:00" "2024-05-01 12:00:01"
          [(VStr "Bitcoin", 2); (VStr "Ethereum", 2); (VStr "Tether", 2)]).
Proof. vm_compute. reflexivity. Qed.

Lemma summary_of_empty_witness :
  get_summary_stats online = (Ok (NoData "No data available"), online).
Proof. apply (summary_of_empty online). reflexivity. Defined.

(** ** Appending *)

Lemma cell_None cols r c : ~ In c cols -> cell cols r c = VNA.
Proof.
  intros Hn. unfold cell. apply col_index_None in Hn. now rewrite Hn.
Qed.

(** A row laid out under more labels shows the same cell under every
    label. *)
Lemma cell_reindex cols cols' r c :
  (In c cols -> In c cols') ->
  cell cols' (reindex cols cols' r) c = cell cols r c.
Proof.
  intros Hsub. unfold reindex. unfold cell at 1.
  destruct (col_index c cols') as [i|] eqn:E.
  - destruct (col_index_Some _ _ _ E) as [Hi Hnth].
    rewrite (nth_indep _ VNA (cell cols r "")) by now rewrite length_map.
    rewrite (map_nth (cell cols r)). now rewrite Hnth.
  - symmetry. apply cell_None. intros Hin. apply col_index_None in E. auto.
Qed.

Lemma In_union_columns c cols extra :
  In c (union_columns cols extra) <-> In c cols \/ In c extra.
Proof.
  unfold union_columns. revert cols.
  induction extra as [|x extra IH]; intros cols; simpl; [tauto|].
  rewrite IH. destruct (col_index x cols) as [i|] eqn:E.
  - assert (In x cols).
    { destruct (col_index_Some _ _ _ E) as [Hi <-]. now apply nth_In. }
    split; [tauto|]. intros [?|[<-|?]]; auto.
  - rewrite in_app_iff. simpl. split; [intros [[?|[<-|[]]]|?]|intros [?|[<-|?]]]; auto.
Qed.

Lemma union_columns_subset cols extra :
  (forall c, In c extra -> In c cols) -> union_columns cols extra = cols.
Proof.
  unfold union_columns. induction extra as [|x extra IH]; intros Hsub; simpl; [reflexivity|].
  destruct (col_index_In x cols) as [i ->]; [apply Hsub; now left|].
  apply IH. intros c Hc. apply Hsub. now right.
Qed.

Lemma col_index_nth cols i :
  NoDup cols -> i < length cols -> col_index (nth i cols "") cols = Some i.
Proof.
  intros Hnd. revert i. induction Hnd as [|c cols Hnin _ IH]; intros [|i]; simpl; try lia.
  - intros _. now rewrite String.eqb_refl.
  - intros Hi. destruct (String.eqb_spec (nth i cols "") c) as [Heq|_].
    + exfalso. apply Hnin. rewrite <- Heq. apply list_elem_of_In, nth_In. lia.
    + rewrite IH by lia. reflexivity.
Qed.

Lemma reindex_same cols r :
  NoDup cols -> length r = length cols -> reindex cols cols r = r.
Proof.
  intros Hnd Hlen. unfold reindex.
  apply (nth_ext _ _ VNA VNA); [now rewrite length_map|].
  rewrite length_map. intros i Hi.
  rewrite (nth_indep _ VNA (cell cols r "")) by now rewrite length_map.
  rewrite (map_nth (cell cols r)). unfold cell. now rewrite col_index_nth.
Qed.

Lemma len_concat a b : len (concat a b) = len a + len b.
Proof. unfold len, concat. simpl. now rewrite length_app, !length_map. Qed.

(** Under every label, the column of a concatenation is the column of the
    first frame followed by that of the second. *)
Lemma column_concat c a b :
  column c (concat a b) = column c a ++ column c b.
Proof.
  unfold column, concat. simpl. rewrite map_app, !map_map. f_equal.
  - apply map_ext. intros r. apply cell_reindex.
    intros Hin. apply In_union_columns. now left.
  - apply map_ext. intros r. apply cell_reindex.
    intros Hin. apply In_union_columns. now right.
Qed.

Lemma concat_same_columns a b :
  columns b = columns a -> NoDup (columns a) ->
  rectangular a -> rectangular b ->
  concat a b = mkDataFrame (columns a) (rows a ++ rows b).
Proof.
  intros Hcols Hnd Ha Hb. unfold concat.
  rewrite union_columns_subset by (rewrite Hcols; auto).
  f_equal. f_equal.
  - unfold rectangular in Ha. induction Ha as [|r rs Hr _ IH]; simpl; [reflexivity|].
    now rewrite reindex_same, IH.
  - unfold rectangular in Hb. rewrite Hcols in *.
    induction Hb as [|r rs Hr _ IH]; simpl; [reflexivity|].
    now rewrite reindex_same, IH.
Qed.

Lemma rectangular_concat a b : rectangular (concat a b).
Proof.
  unfold rectangular, concat, reindex. simpl. apply Forall_app. split.
  - induction (rows a); simpl; constructor; auto. now rewrite length_map.
  - induction (rows b); simpl; constructor; auto. now rewrite length_map.
Qed.

Lemma has_column_concat_l c a b :
  has_column c a = true -> has_column c (concat a b) = true.
Proof.
  unfold has_column, concat. simpl.
  destruct (col_index c (columns a)) as [i|] eqn:E; [|discriminate]. intros _.
  destruct (col_index_In c (union_columns (columns a) (columns b))) as [k ->];
    [|reflexivity].
  apply In_union_columns. left.
  destruct (col_index_Some _ _ _ E) as [Hi <-]. now apply nth_In.
Qed.

(** C2: appending an empty batch leaves the dataset as it is; appending a
    batch that is not empty to an empty dataset makes the batch the
    dataset (and when both are empty the dataset stays empty, as the
    batch is); otherwise the dataset becomes the rows of the old one
    followed by the rows of the batch, in their order: it has as many
    rows as both together, under every label its column is the old column
    followed by the batch's, and when both frames have the same labels
    its rows are literally the old rows followed by the batch's. *)
Theorem append_semantics (w : World) (B : DataFrame) :
  (empty B = true -> append_data B w = (Ok tt, w))
  /\ (empty B = false -> empty (df w) = true ->
      append_data B w = (Ok tt, with_df B w))
  /\ (empty B = true -> empty (df w) = true ->
      empty (df (snd (append_data B w))) = empty B)
  /\ (empty B = false -> empty (df w) = false ->
      exists R,
        append_data B w = (Ok tt, with_df R w)
        /\ len R = len (df w) + len B
        /\ (forall c, column c R = column c (df w) ++ column c B)
        /\ (columns B = columns (df w) -> NoDup (columns (df w)) ->
            rectangular (df w) -> rectangular B ->
            columns R = columns (df w) /\ rows R = rows (df w) ++ rows B)).
Proof.
  unfold append_data, bind, get_df, set_df, ret.
  split; [|split; [|split]].
  - now intros ->.
  - now intros -> ->.
  - intros HB HE. rewrite HB. exact HE.
  - intros -> ->. exists (concat (df w) B).
    split; [reflexivity|]. split; [apply len_concat|].
    split; [intros c; apply column_concat|].
    intros Hcols Hnd Ha Hb. now rewrite concat_same_columns.
Qed.

Lemma append_semantics_witness :
  exists R,
    append_data (sample_batch (sample_clock 1) 101)
      (with_df (sample_batch (sample_clock 0) 100) online)
    = (Ok tt, with_df R (with_df (sample_batch (sample_clock 0) 100) online))
    /\ len R = 2
    /\ rows R = rows (sample_batch (sample_clock 0) 100)
                ++ rows (sample_batch (sample_clock 1) 101).
Proof.
  destruct (proj2 (proj2 (proj2 (append_semantics
                                   (with_df (sample_batch (sample_clock 0) 100) online)
                                   (sample_batch (sample_clock 1) 101))))
              eq_refl eq_refl) as [R [E [Hlen [_ Hrows]]]].
  exists R. split; [exact E|]. split; [exact Hlen|].
  apply Hrows.
  - reflexivity.
  - apply (bool_decide_unpack _). vm_compute. exact I.
  - repeat constructor.
  - repeat constructor.
Defined.

(** ** A collection run *)

(** Reads the fields of a world written with the [with_] updates. *)
Ltac world_fields :=
  cbn [df stdout http base_url clock requests ticks files cwd normal_draws
       drawn with_df with_stdout with_ticks with_requests with_drawn
       with_files] in *.

Lemma lex_leb_refl a : lex_leb a a = true.
Proof.
  induction a as [|x a IH]; simpl; [reflexivity|].
  now rewrite N.eqb_refl, IH, orb_true_r.
Qed.

Lemma ts_leb_refl t : ts_leb t t = true.
Proof. apply lex_leb_refl. Qed.

Lemma timestamps_of_app a b :
  timestamps_of (a ++ b)
  = match timestamps_of a, timestamps_of b with
    | Some x, Some y => Some (x ++ y)
    | _, _ => None
    end.
Proof.
  induction a as [|v a IH]; simpl.
  - now destruct (timestamps_of b).
  - destruct v; try reflexivity; rewrite IH;
      destruct (timestamps_of a), (timestamps_of b); reflexivity.
Qed.

Lemma timestamps_of_repeat t k :
  timestamps_of (repeat (VTime t) k) = Some (repeat t k).
Proof. induction k as [|k IH]; simpl; [reflexivity|now rewrite IH]. Qed.

Lemma collected_new : collected DataFrame_new.
Proof. split; [constructor|]. intros Hne. now contradiction Hne. Qed.

Lemma collected_empty d :
  collected d -> empty d = true -> rows d = [].
Proof.
  intros [_ Hts] Hempty. destruct (rows d) as [|r rs] eqn:E; [reflexivity|].
  exfalso. specialize (Hts ltac:(discriminate)).
  unfold empty in Hempty. rewrite E in Hempty. simpl in Hempty.
  rewrite orb_false_r in Hempty. apply Nat.eqb_eq in Hempty.
  unfold has_column in Hts. destruct (columns d); [discriminate|discriminate].
Qed.

(** One iteration whose fetch succeeds with [K] records adds [K] rows, all
    of them stamped with the reading of the clock it makes. *)
Lemma iteration_collects K iterations sleep_interval i w :
  answers_with K (outcome_after 0 w) ->
  collected (df w) ->
  exists w',
    iteration iterations sleep_interval i w = (Ok tt, w')
    /\ collected (df w')
    /\ len (df w') = len (df w) + K
    /\ column "timestamp" (df w')
       = column "timestamp" (df w) ++ repeat (VTime (clock w (ticks w))) K
    /\ http w' = http w /\ base_url w' = base_url w /\ clock w' = clock w
    /\ requests w' = S (requests w) /\ ticks w' = S (ticks w).
Proof.
  intros (d & entries & Hout & Hget & Hlen & Hent) Hcoll.
  unfold outcome_after in Hout. rewrite Nat.add_0_r in Hout.
  unfold iteration, bind, print at 1.
  set (w1 := with_stdout _ w).
  assert (Hout1 : fetch_outcome 1 15 "USD" w1 = Replied (JDict d)) by exact Hout.
  rewrite (fetch_replied _ _ _ _ _ Hout1).
  assert (Ht : truthy (JDict d) = true) by (destruct d; [discriminate|reflexivity]).
  rewrite Ht.
  destruct (process_data_array (with_requests (S (requests w1)) w1) d entries Hget Hent)
    as (P & HP & HlenP & HrectP & HhasP & HcolP).
  rewrite HP. rewrite Hlen in *.
  change (clock (with_requests (S (requests w1)) w1)
            (ticks (with_requests (S (requests w1)) w1)))
    with (clock w (ticks w)) in HcolP.
  assert (HPcoll : collected P) by (split; auto).
  unfold append_data, bind, get_df, set_df, ret, print, sleep.
  subst w1. world_fields.
  destruct (empty P) eqn:EP.
  - (* nothing was collected *)
    assert (HK : K = 0).
    { unfold empty in EP. unfold len in HlenP. rewrite HlenP in EP.
      unfold has_column in HhasP.
      destruct (columns P); [discriminate|]. simpl in EP.
      now apply Nat.eqb_eq in EP. }
    rewrite HK.
    destruct (i <? iterations - 1); eexists; (split; [reflexivity|]);
      world_fields; rewrite Nat.add_0_r, app_nil_r; repeat split; auto;
      apply Hcoll.
  - world_fields. destruct (empty (df w)) eqn:EE.
    + pose proof (collected_empty _ Hcoll EE) as Hrows.
      destruct (i <? iterations - 1); eexists; (split; [reflexivity|]);
        world_fields; unfold len at 2, column at 2; rewrite Hrows; simpl;
        repeat split; auto.
    + assert (Hne : rows (df w) <> []).
      { intros Hnil. unfold empty in EE. rewrite Hnil in EE.
        simpl in EE. now rewrite orb_true_r in EE. }
      destruct Hcoll as [Hrect Hts].
      destruct (i <? iterations - 1); eexists; (split; [reflexivity|]);
        world_fields; rewrite len_concat, column_concat, HlenP, HcolP;
        repeat split; auto using rectangular_concat, has_column_concat_l.
Qed.

(** The stamps of [m] successive iterations of [K] records each, the first
    one reading the clock at tick [t]. *)
Lemma stamps_shift (clk : nat -> Timestamp) K t m :
  flat_map (fun i => repeat (VTime (clk (t + i))) K) (seq 0 (S m))
  = repeat (VTime (clk t)) K
    ++ flat_map (fun i => repeat (VTime (clk (S t + i))) K) (seq 0 m).
Proof.
  cbn [seq flat_map]. rewrite Nat.add_0_r. f_equal.
  rewrite <- seq_shift, flat_map_concat_map, map_map, <- flat_map_concat_map.
  apply flat_map_ext. intros i. now rewrite Nat.add_succ_r.
Qed.

(** The loop of [run_data_collection], as long as every fetch succeeds
    with [K] records: it raises nothing and adds [K] rows per iteration,
    stamped with the successive readings of the clock. *)
Lemma loop_collects K iterations sleep_interval m :
  forall a w,
    (forall i, i < m -> answers_with K (outcome_after i w)) ->
    collected (df w) ->
    exists w',
      for_each (seq a m) (iteration iterations sleep_interval) w = (Ok tt, w')
      /\ collected (df w')
      /\ len (df w') = len (df w) + m * K
      /\ column "timestamp" (df w')
         = column "timestamp" (df w)
           ++ flat_map (fun i => repeat (VTime (clock w (ticks w + i))) K) (seq 0 m).
Proof.
  induction m as [|m IH]; intros a w Hout Hcoll.
  - exists w. simpl. rewrite app_nil_r, Nat.add_0_r. auto.
  - destruct (iteration_collects K iterations sleep_interval a w
                (Hout 0 ltac:(lia)) Hcoll)
      as (w1 & E1 & Hcoll1 & Hlen1 & Hcol1 & Hhttp & Hurl & Hclk & Hreq & Htick).
    destruct (IH (S a) w1) as (w' & E' & Hcoll' & Hlen' & Hcol'); [|assumption|].
    { intros i Hi. specialize (Hout (S i) ltac:(lia)).
      unfold outcome_after, fetch_outcome in *. simpl in *.
      rewrite Hhttp, Hurl, Hreq.
      now replace (S (requests w) + i) with (requests w + S i) by lia. }
    exists w'. split; [|split; [assumption|split]].
    + cbn [seq for_each]. unfold bind at 1. now rewrite E1.
    + rewrite Hlen', Hlen1. simpl. lia.
    + rewrite Hcol', Hcol1, Hclk, Htick, stamps_shift, <- app_assoc. reflexivity.
Qed.

(** C9: for a fresh pipeline, three iterations in a row whose fetches all
    succeed with three records each leave a dataset of exactly nine
    records, and the collection timestamps of its records, read in the
    order of the rows, never decrease, provided the clock never goes
    back between one reading and the next. *)
Theorem three_iterations (w : World) (sleep_interval : nat) :
  df w = DataFrame_new ->
  (forall i, i < 3 -> answers_with 3 (outcome_after i w)) ->
  (forall i, ts_le (clock w (ticks w + i)) (clock w (ticks w + S i))) ->
  exists w' ts,
    run_data_collection 3 sleep_interval w = (Ok tt, w')
    /\ len (df w') = 9
    /\ timestamps_of (column "timestamp" (df w')) = Some ts
    /\ length ts = 9
    /\ nondecreasing ts = true.
Proof.
  intros Hnew Hout Hclock.
  unfold run_data_collection, bind, print at 1.
  set (w0 := with_stdout _ w).
  destruct (loop_collects 3 3 sleep_interval 3 0 w0) as (w1 & E & _ & Hlen & Hcol).
  { exact Hout. }
  { unfold w0. cbn [df with_stdout]. rewrite Hnew. apply collected_new. }
  rewrite E. unfold print.
  exists (with_stdout (stdout w1 ++ ["Data collection completed!"]) w1).
  exists (repeat (clock w (ticks w)) 3 ++ repeat (clock w (ticks w + 1)) 3
          ++ repeat (clock w (ticks w + 2)) 3).
  subst w0. world_fields. rewrite Hnew in *.
  split; [reflexivity|]. split; [rewrite Hlen; reflexivity|].
  rewrite Hcol. cbn [column rows DataFrame_new map app seq flat_map].
  rewrite Nat.add_0_r, app_nil_r.
  rewrite !timestamps_of_app, !timestamps_of_repeat.
  split; [reflexivity|]. split; [reflexivity|].
  pose proof (Hclock 0) as H01. pose proof (Hclock 1) as H12.
  rewrite Nat.add_0_r in H01. unfold ts_le in *.
  cbn [repeat app nondecreasing]. rewrite !ts_leb_refl, H01, H12. reflexivity.
Qed.

Lemma sample_clock_monotone i : ts_le (sample_clock i) (sample_clock (S i)).
Proof.
  assert (H : (N.of_nat i <? N.of_nat (S i))%N = true) by (apply N.ltb_lt; lia).
  unfold ts_le, ts_leb, sample_clock, ts_fields.
  cbn [year month day hour minute second microsecond lex_leb].
  rewrite !N.ltb_irrefl, !N.eqb_refl, H. reflexivity.
Qed.

Lemma three_iterations_witness :
  exists w' ts,
    run_data_collection 3 2 online = (Ok tt, w')
    /\ len (df w') = 9
    /\ timestamps_of (column "timestamp" (df w')) = Some ts
    /\ length ts = 9
    /\ nondecreasing ts = true.
Proof.
  apply (three_iterations online 2).
  - reflexivity.
  - intros i Hi. unfold answers_with, outcome_after, fetch_outcome, online. simpl.
    do 2 eexists. split; [reflexivity|]. split; [reflexivity|].
    split; [reflexivity|]. repeat constructor.
  - intros i. apply sample_clock_monotone.
Defined.

(** ** Trends *)

Lemma find_index_names s names :
  find_index (value_eqb (VStr s)) (map VStr names) = col_index s names.
Proof.
  induction names as [|x names IH]; simpl; [reflexivity|].
  destruct (String.eqb s x); [reflexivity|]. now rewrite IH.
Qed.

Lemma gathered_prefix met names : exists more, gathered met names = met ++ more.
Proof.
  revert met. induction names as [|s names IH]; intros met; simpl.
  - exists []. now rewrite app_nil_r.
  - destruct (col_index s met).
    + apply IH.
    + destruct (IH (met ++ [s])) as [more ->]. exists (s :: more).
      now rewrite <- app_assoc.
Qed.

Lemma filter_filter_implied {A} (p q : A -> bool) l :
  (forall x, p x = true -> q x = true) ->
  List.filter p (List.filter q l) = List.filter p l.
Proof.
  intros Himp. induction l as [|x l IH]; simpl; [reflexivity|].
  destruct (q x) eqn:Eq; simpl.
  - now rewrite IH.
  - destruct (p x) eqn:Ep; [|exact IH].
    rewrite (Himp x Ep) in Eq. discriminate.
Qed.

Lemma filter_filter_both {A} (p q : A -> bool) l :
  List.filter p (List.filter q l) = List.filter (fun x => q x && p x) l.
Proof.
  induction l as [|x l IH]; simpl; [reflexivity|].
  destruct (q x); simpl; [|exact IH]. destruct (p x); now rewrite IH.
Qed.

Lemma unmet_app met s x :
  unmet (met ++ [s]) x = negb (String.eqb x s) && unmet met x.
Proof.
  unfold unmet. induction met as [|m met IH]; simpl.
  - now destruct (String.eqb x s).
  - destruct (String.eqb x m); [now rewrite andb_false_r|].
    destruct (col_index x (met ++ [s])), (col_index x met); simpl in *; auto.
Qed.

(** Gathering the names one by one gives the distinct names in order of
    first appearance. *)
Lemma gathered_distinct met names :
  gathered met names = met ++ List.filter (unmet met) (distinct_in_order names).
Proof.
  revert met. induction names as [|s names IH]; intros met; simpl.
  - now rewrite app_nil_r.
  - destruct (col_index s met) as [i|] eqn:E.
    + rewrite IH. f_equal. unfold unmet at 2. rewrite E.
      rewrite filter_filter_implied; [reflexivity|].
      intros x Hx. destruct (String.eqb_spec x s) as [->|]; [|reflexivity].
      unfold unmet in Hx. now rewrite E in Hx.
    + rewrite IH, <- app_assoc. f_equal. unfold unmet at 2. rewrite E. simpl.
      f_equal. rewrite filter_filter_both. apply filter_ext.
      intros x. apply unmet_app.
Qed.

Lemma factorize_names cells :
  forallb is_text_or_na cells = true ->
  forall met codes,
    fold_result factorize_step cells (map VStr met, codes)
    = Ok (map VStr (gathered met (flat_map (fun v => match v with
                                                     | VStr s => [s]
                                                     | _ => []
                                                     end) cells)),
          codes ++ map (code_of (gathered met
                                   (flat_map (fun v => match v with
                                                       | VStr s => [s]
                                                       | _ => []
                                                       end) cells))) cells).
Proof.
  induction cells as [|v cells IH]; intros Htext met codes; simpl.
  - now rewrite app_nil_r.
  - simpl in Htext. apply andb_prop in Htext as [Hv Hcells].
    destruct v; try discriminate; simpl.
    + (* a missing name *)
      rewrite IH by assumption. now rewrite <- app_assoc.
    + (* a name *)
      rewrite find_index_names.
      destruct (col_index s met) as [g|] eqn:E.
      * rewrite IH by assumption. rewrite <- app_assoc. simpl.
        destruct (gathered_prefix met
                    (flat_map (fun v => match v with VStr s => [s] | _ => [] end) cells))
          as [more ->].
        now rewrite (col_index_app_l _ _ more _ E).
      * change (map VStr met ++ [VStr s]) with (map VStr met ++ map VStr [s]).
        rewrite <- map_app, length_map, IH by assumption.
        rewrite <- app_assoc. simpl.
        destruct (gathered_prefix (met ++ [s])
                    (flat_map (fun v => match v with VStr s => [s] | _ => [] end) cells))
          as [more ->].
        rewrite <- app_assoc. simpl. now rewrite (col_index_app_r _ _ _ E).
Qed.

Lemma traverse_map {A B} (f : A -> result B) (g : A -> B) l :
  (forall x, In x l -> f x = Ok (g x)) -> traverse f l = Ok (map g l).
Proof.
  induction l as [|x l IH]; intros Hf; simpl; [reflexivity|].
  rewrite (Hf x) by now left. rewrite IH; [reflexivity|].
  intros y Hy. apply Hf. now right.
Qed.

Lemma as_number_cells cells :
  forallb is_number_or_na cells = true ->
  traverse as_number cells = Ok (map number_of cells).
Proof.
  intros Hnum. apply traverse_map. intros v Hin.
  rewrite forallb_forall in Hnum. specialize (Hnum v Hin).
  destruct v; try discriminate; reflexivity.
Qed.

(** The pass of [group_mean]: each group ends with the sum of its
    summands, added in the order of the rows, and with their number. *)
Lemma group_mean_pass coded :
  forall sumx nobs g,
    let acc := fold_left group_mean_step coded (sumx, nobs) in
    fst acc !! g = (fun s => fold_left Qplus (selected g coded) s) <$> sumx !! g
    /\ snd acc !! g = (fun n => n + length (selected g coded)) <$> nobs !! g.
Proof.
  induction coded as [|[code number] coded IH]; intros sumx nobs g; simpl.
  - split.
    + now destruct (sumx !! g).
    + destruct (nobs !! g); simpl; [f_equal; lia|reflexivity].
  - destruct code as [g'|], number as [q|]; simpl; try apply IH.
    destruct (IH (alter (fun s => (s + q)%Q) g' sumx) (alter S g' nobs) g)
      as [Hs Hn].
    simpl in Hs, Hn. rewrite Hs, Hn. clear Hs Hn.
    destruct (Nat.eqb_spec g' g) as [->|Hne].
    + rewrite !list_lookup_alter_eq. split.
      * now destruct (sumx !! g).
      * destruct (nobs !! g); simpl; [f_equal; lia|reflexivity].
    + rewrite !list_lookup_alter_ne by assumption. now rewrite app_nil_l.
Qed.

Lemma mean_of_selected qs :
  mean_of (fold_left Qplus qs 0%Q) (length qs) = arithmetic_mean qs.
Proof. now destruct qs. Qed.

Lemma lookup_repeat_lt {A} (x : A) n g : g < n -> repeat x n !! g = Some x.
Proof.
  revert g. induction n as [|n IH]; intros [|g] Hg; simpl; try lia; auto.
  apply IH. lia.
Qed.

(** [group_mean] computes, for every group, the arithmetic mean of the
    group's summands. *)
Lemma group_mean_selected ngroups codes cells :
  forallb is_number_or_na cells = true ->
  group_mean ngroups codes cells
  = Ok (map (fun g => arithmetic_mean
                        (selected g (combine codes (map number_of cells))))
            (seq 0 ngroups)).
Proof.
  intros Hnum. unfold group_mean. rewrite (as_number_cells _ Hnum).
  set (coded := combine codes (map number_of cells)).
  destruct (fold_left group_mean_step coded (repeat 0%Q ngroups, repeat 0 ngroups))
    as [sumx nobs] eqn:E.
  f_equal. apply map_ext_in. intros g Hg. apply in_seq in Hg.
  destruct (group_mean_pass coded (repeat 0%Q ngroups) (repeat 0 ngroups) g)
    as [Hs Hn].
  rewrite E in Hs, Hn. simpl in Hs, Hn.
  rewrite lookup_repeat_lt in Hs by lia. rewrite lookup_repeat_lt in Hn by lia.
  simpl in Hs, Hn.
  rewrite (nth_lookup_Some _ _ _ _ Hs), (nth_lookup_Some _ _ _ _ Hn).
  apply mean_of_selected.
Qed.

(** The summands of a group are the numbers the field has in the rows of
    the group's asset. *)
Lemma selected_rows_of_asset d names g s c :
  col_index s names = Some g ->
  selected g (combine (map (code_of names) (column "name" d))
                      (map number_of (column c d)))
  = numbers_of (columns d) c (rows_of_asset d s).
Proof.
  intros Hg. unfold column, numbers_of, rows_of_asset, selected.
  rewrite !map_map. generalize (rows d) as rs.
  induction rs as [|r rs IH]; simpl; [reflexivity|].
  rewrite IH. clear IH. unfold asset_of, code_of.
  destruct (cell (columns d) r "name") as [| | |s'| |]; simpl; try reflexivity.
  destruct (String.eqb_spec s' s) as [->|Hne].
  - rewrite Hg. simpl.
    destruct (cell (columns d) r c); simpl; try reflexivity.
    now rewrite Nat.eqb_refl.
  - destruct (col_index s' names) as [g'|] eqn:E'; simpl; [|reflexivity].
    destruct (number_of (cell (columns d) r c)); [|reflexivity].
    destruct (Nat.eqb_spec g' g) as [->|]; [|reflexivity].
    exfalso. apply Hne.
    destruct (col_index_Some _ _ _ E') as [_ <-].
    destruct (col_index_Some _ _ _ Hg) as [_ <-]. reflexivity.
Qed.

Lemma In_filter_neq (s x : string) l :
  In x (List.filter (fun s' => negb (String.eqb s' s)) l) <-> In x l /\ x <> s.
Proof.
  rewrite filter_In. split; intros [Hin Hne]; split; auto.
  - intros ->. now rewrite String.eqb_refl in Hne.
  - destruct (String.eqb_spec x s); [contradiction|reflexivity].
Qed.

Lemma NoDup_filter_neq (s : string) l :
  NoDup l -> NoDup (List.filter (fun s' => negb (String.eqb s' s)) l).
Proof.
  induction 1 as [|x l Hnin _ IH]; simpl; [constructor|].
  destruct (negb (String.eqb x s)); [|exact IH].
  constructor; [|exact IH].
  rewrite list_elem_of_In, In_filter_neq. rewrite list_elem_of_In in Hnin. tauto.
Qed.

Lemma NoDup_distinct_in_order names : NoDup (distinct_in_order names).
Proof.
  induction names as [|s names IH]; simpl; constructor.
  - rewrite list_elem_of_In, In_filter_neq. tauto.
  - now apply NoDup_filter_neq.
Qed.

Lemma gathered_nil names : gathered [] names = distinct_in_order names.
Proof.
  rewrite gathered_distinct. simpl.
  induction (distinct_in_order names) as [|x l IH]; simpl; [reflexivity|].
  now rewrite IH.
Qed.

Lemma texts_of_name_column d :
  flat_map (fun v => match v with VStr s => [s] | _ => [] end) (column "name" d)
  = names_of (columns d) (rows d).
Proof.
  unfold column, names_of, asset_of.
  induction (rows d) as [|r rs IH]; simpl; [reflexivity|].
  rewrite IH. now destruct (cell (columns d) r "name").
Qed.

Lemma factorize_name_column d :
  forallb is_text_or_na (column "name" d) = true ->
  factorize (column "name" d)
  = Ok (map VStr (asset_names d),
        map (code_of (asset_names d)) (column "name" d)).
Proof.
  intros Htext. unfold factorize.
  change (@nil value) with (map VStr []) at 1.
  rewrite (factorize_names _ Htext [] []).
  now rewrite texts_of_name_column, gathered_nil.
Qed.

Lemma nth_map_seq {A} (f : nat -> A) n g d :
  g < n -> nth g (map f (seq 0 n)) d = f g.
Proof.
  intros Hg. rewrite (nth_indep _ d (f 0)) by now rewrite length_map, length_seq.
  rewrite (map_nth f). now rewrite seq_nth.
Qed.

Lemma map_seq_nth {A B} (f : A -> B) (h : nat -> B) (l : list A) (d : A) :
  (forall g, g < length l -> h g = f (nth g l d)) ->
  map h (seq 0 (length l)) = map f l.
Proof.
  intros Hh. apply (nth_ext _ _ (h 0) (f d)).
  - now rewrite !length_map, length_seq.
  - rewrite length_map, length_seq. intros g Hg.
    rewrite (map_nth f), nth_map_seq by assumption. now apply Hh.
Qed.

(** The grouped mean of a dataset of quotes: one row per distinct asset
    name, in first-seen order, holding under each of the fields the
    arithmetic mean of the field over the rows of that asset. *)
Lemma groupby_mean_trends d cols :
  has_column "name" d = true ->
  forallb is_text_or_na (column "name" d) = true ->
  (forall c, In c cols -> forallb is_number_or_na (column c d) = true) ->
  groupby_mean "name" cols d
  = Ok (mkGroupedFrame (map VStr (asset_names d)) cols
          (map (fun s => map (trend_of d s) cols) (asset_names d))).
Proof.
  intros Hname Htext Hnum. unfold groupby_mean.
  unfold has_column in Hname.
  destruct (col_index "name" (columns d)); [clear Hname|discriminate].
  rewrite (factorize_name_column _ Htext).
  set (names := asset_names d).
  set (codes := map (code_of names) (column "name" d)).
  rewrite (traverse_map _
             (fun c => map (fun g => arithmetic_mean
                                       (selected g (combine codes
                                                      (map number_of (column c d)))))
                           (seq 0 (length (map VStr names))))).
  2:{ intros c Hc. now apply group_mean_selected, Hnum. }
  f_equal. f_equal. rewrite length_map.
  apply (map_seq_nth _ _ _ ""). intros g Hg.
  rewrite map_map. apply map_ext. intros c.
  rewrite nth_map_seq by assumption.
  unfold trend_of. f_equal. apply selected_rows_of_asset.
  apply col_index_nth; [apply NoDup_distinct_in_order|assumption].
Qed.

Lemma filter_neq_notin (s : string) l :
  ~ In s l -> List.filter (fun s' => negb (String.eqb s' s)) l = l.
Proof.
  induction l as [|x l IH]; intros Hnin; simpl; [reflexivity|].
  destruct (String.eqb_spec x s) as [->|_]; simpl.
  - exfalso. apply Hnin. now left.
  - rewrite IH; [reflexivity|]. intros Hin. apply Hnin. now right.
Qed.

Lemma distinct_in_order_NoDup names :
  NoDup names -> distinct_in_order names = names.
Proof.
  induction 1 as [|s names Hnin _ IH]; simpl; [reflexivity|].
  rewrite IH, filter_neq_notin; [reflexivity|]. now rewrite <- list_elem_of_In.
Qed.

(** The mean of one number is that number. *)
Lemma arithmetic_mean_single q : arithmetic_mean [q] = VNum q.
Proof.
  destruct q as [n p]. unfold arithmetic_mean, Qdiv, Qmult, Qinv, Qplus. simpl.
  f_equal. f_equal; lia.
Qed.

Lemma rows_of_asset_absent cols s rs :
  ~ In s (names_of cols rs) ->
  List.filter (fun r => match asset_of cols r with
                        | Some s' => String.eqb s' s
                        | None => false
                        end) rs = [].
Proof.
  induction rs as [|r rs IH]; simpl; [reflexivity|]. intros Hnin.
  rewrite in_app_iff in Hnin.
  destruct (asset_of cols r) as [s'|]; simpl in *.
  - destruct (String.eqb_spec s' s) as [->|_]; [exfalso; tauto|]. apply IH. tauto.
  - apply IH. tauto.
Qed.

(** When no two rows name the same asset, the rows of an asset are the
    one row that names it. *)
Lemma rows_of_asset_single cols s r rs :
  NoDup (names_of cols rs) -> In r rs -> asset_of cols r = Some s ->
  List.filter (fun r' => match asset_of cols r' with
                         | Some s' => String.eqb s' s
                         | None => false
                         end) rs = [r].
Proof.
  induction rs as [|x rs IH]; simpl; [contradiction|].
  intros Hnd [->|Hin] Hr.
  - rewrite Hr in *. simpl in *. rewrite String.eqb_refl.
    apply NoDup_cons in Hnd as [Hnin _]. rewrite list_elem_of_In in Hnin.
    now rewrite rows_of_asset_absent.
  - destruct (asset_of cols x) as [s'|] eqn:Ex; simpl in Hnd.
    + apply NoDup_cons in Hnd as [Hnin Hnd]. rewrite list_elem_of_In in Hnin.
      destruct (String.eqb_spec s' s) as [->|_]; [|now apply IH].
      exfalso. apply Hnin. unfold names_of. apply in_flat_map.
      exists r. split; [assumption|]. rewrite Hr. now left.
    + now apply IH.
Qed.

Lemma map_names_of {B} cols rs (f : string -> B) (h : list value -> B) :
  (forall r s, In r rs -> asset_of cols r = Some s -> f s = h r) ->
  map f (names_of cols rs)
  = map h (List.filter (fun r => match asset_of cols r with
                                 | Some _ => true
                                 | None => false
                                 end) rs).
Proof.
  induction rs as [|r rs IH]; intros Hfh; simpl; [reflexivity|].
  rewrite map_app, IH by (intros r' s' Hin; apply Hfh; now right).
  destruct (asset_of cols r) as [s|] eqn:E; simpl; [|reflexivity].
  f_equal. apply Hfh; [now left|assumption].
Qed.

Lemma column_In d c r : In r (rows d) -> In (cell (columns d) r c) (column c d).
Proof. intros Hin. unfold column. now apply (in_map (fun r => cell (columns d) r c)). Qed.

(** With one record per asset, the trend of an asset under a field is the
    cell of its record. *)
Lemma trend_of_single d r s c :
  NoDup (names_of (columns d) (rows d)) ->
  forallb is_number_or_na (column c d) = true ->
  In r (rows d) -> asset_of (columns d) r = Some s ->
  trend_of d s c = cell (columns d) r c.
Proof.
  intros Hnd Hnum Hin Hr. unfold trend_of, rows_of_asset.
  rewrite (rows_of_asset_single _ _ r) by assumption.
  rewrite forallb_forall in Hnum. specialize (Hnum _ (column_In d c r Hin)).
  unfold numbers_of. simpl.
  destruct (cell (columns d) r c); try discriminate; simpl;
    [reflexivity|apply arithmetic_mean_single].
Qed.

Lemma available_columns_trend d c :
  In c (available_columns d) -> In c trend_columns.
Proof. unfold available_columns. rewrite filter_In. tauto. Qed.

Lemma has_column_existsb c d :
  has_column c d = existsb (String.eqb c) (columns d).
Proof.
  unfold has_column. induction (columns d) as [|c' cols IH]; simpl; [reflexivity|].
  destruct (String.eqb c c'); [reflexivity|].
  destruct (col_index c cols); simpl in *; congruence.
Qed.

(** The fields the analysis takes are those of the six that are labels
    of the dataset. *)
Lemma available_columns_present d : available_columns d = present_fields d.
Proof.
  unfold available_columns, present_fields.
  change trend_columns with percent_change_fields.
  apply filter_ext. intros c. apply has_column_existsb.
Qed.

Lemma filter_none {A} (p : A -> bool) l :
  (forall x, In x l -> p x = false) -> List.filter p l = [].
Proof.
  induction l as [|x l IH]; intros Hp; simpl; [reflexivity|].
  rewrite (Hp x) by now left. apply IH. intros y Hy. apply Hp. now right.
Qed.

Lemma present_fields_none d :
  (forall c, In c percent_change_fields -> ~ In c (columns d)) ->
  present_fields d = [].
Proof.
  intros Hnone. unfold present_fields.
  apply filter_none. intros c Hc. destruct (existsb (String.eqb c) (columns d)) eqn:E; [|reflexivity].
  apply existsb_exists in E as (c' & Hc' & Ec). apply String.eqb_eq in Ec as <-.
  now contradiction (Hnone c Hc).
Qed.

(** The claim of C3 fails as stated: there are datasets that are not
    empty on which [analyze_price_trends] returns nothing. Without a
    column ['name'] the grouping raises [KeyError], and a text in a
    percent-change field makes the mean raise [TypeError]. *)
Lemma trend_aggregation_raises :
  (empty nameless = false
   /\ fst (analyze_price_trends (with_df nameless online))
      = Raise (KeyError "name"))
  /\ (empty textual = false
      /\ fst (analyze_price_trends (with_df textual online))
         = Raise (TypeError "Could not convert string to numeric")).
Proof. repeat split; vm_compute; reflexivity. Qed.

(** C3, amended: on a dataset of quote records (a column ['name'] of
    names, percent-change fields of numbers, cells possibly missing)
    that is not empty and has some of the six percent-change fields
    among its labels, [analyze_price_trends] returns one row per
    distinct asset name, in the order in which the names first appear,
    whose columns are those of the six fields that are labels of the
    dataset, in the order of the six, and whose cells are the arithmetic
    means of the numbers the field has in the rows of the asset (a
    missing cell is not counted); when every asset has exactly one
    record the rows returned are the percent-change cells of the
    records, unchanged; on an empty dataset, and when none of the six
    fields is a label, the result is the empty frame. In all these cases
    the world stays as it is but for the line printed with an empty
    result. *)
Theorem trend_aggregation (w : World) :
  (empty (df w) = false -> quotes (df w) -> present_fields (df w) <> [] ->
   analyze_price_trends w
   = (Ok (mkGroupedFrame
            (map VStr (asset_names (df w)))
            (present_fields (df w))
            (map (fun s => map (trend_of (df w) s) (present_fields (df w)))
                 (asset_names (df w)))),
      w))
  /\ (empty (df w) = false -> quotes (df w) -> present_fields (df w) <> [] ->
      NoDup (names_of (columns (df w)) (rows (df w))) ->
      exists G,
        analyze_price_trends w = (Ok G, w)
        /\ g_index G = map VStr (names_of (columns (df w)) (rows (df w)))
        /\ g_columns G = present_fields (df w)
        /\ g_rows G
           = map (fun r => map (cell (columns (df w)) r) (present_fields (df w)))
                 (named_rows (df w)))
  /\ (empty (df w) = true ->
      analyze_price_trends w
      = (Ok GroupedFrame_new,
         with_stdout (stdout w ++ ["No data available for analysis"]) w))
  /\ (empty (df w) = false ->
      (forall c, In c percent_change_fields -> ~ In c (columns (df w))) ->
      analyze_price_trends w
      = (Ok GroupedFrame_new,
         with_stdout (stdout w ++ ["No trend data available"]) w)).
Proof.
  rewrite <- (available_columns_present (df w)).
  assert (Hmain : empty (df w) = false -> quotes (df w) ->
                  available_columns (df w) <> [] ->
                  analyze_price_trends w
                  = (Ok (mkGroupedFrame
                           (map VStr (asset_names (df w)))
                           (available_columns (df w))
                           (map (fun s => map (trend_of (df w) s)
                                              (available_columns (df w)))
                                (asset_names (df w)))),
                     w)).
  { intros Hne (Hname & Htext & Hnum) Hav.
    unfold analyze_price_trends, bind, get_df, lift. rewrite Hne.
    destruct (available_columns (df w)) as [|c cs] eqn:E; [contradiction|].
    rewrite <- E. rewrite groupby_mean_trends; auto.
    intros c' Hc'. apply Hnum. now apply (available_columns_trend (df w)). }
  split; [exact Hmain|]. split; [|split].
  - intros Hne Hq Hav Hnd. eexists. split; [now apply Hmain|]. simpl.
    unfold asset_names. rewrite (distinct_in_order_NoDup _ Hnd).
    split; [reflexivity|]. split; [reflexivity|].
    unfold named_rows. apply map_names_of.
    intros r s Hin Hr. apply map_ext_in. intros c Hc.
    apply (trend_of_single _ r); auto.
    destruct Hq as (_ & _ & Hnum). apply Hnum.
    now apply (available_columns_trend (df w)).
  - intros He. unfold analyze_price_trends, bind, get_df, print, ret.
    now rewrite He.
  - intros Hne Hnone. unfold analyze_price_trends, bind, get_df, print, ret.
    rewrite Hne, available_columns_present, (present_fields_none _ Hnone).
    reflexivity.
Qed.

(** The trends of the sample process after two iterations: Bitcoin's
    changes were 0 and 1 over one hour, 0 and 2 over a day. *)
Example trends_after_two_iterations :
  match fst (analyze_price_trends collected_twice) with
  | Ok G =>
      g_index G = [VStr "Bitcoin"; VStr "Ethereum"; VStr "Tether"]
      /\ g_columns G = ["quote.USD.percent_change_1h";
                        "quote.USD.percent_change_24h"]
      /\ Forall2 (Forall2 (fun v q => match v with
                                      | VNum x => Qeq x q
                                      | _ => False
                                      end))
           (g_rows G) [[1 # 2; 1]; [3 # 2; 3]; [0; 0]]%Q
  | Raise _ => False
  end.
Proof.
  vm_compute. repeat split; repeat constructor; vm_compute; reflexivity.
Qed.

Lemma trend_aggregation_witness :
  analyze_price_trends collected_twice
  = (Ok (mkGroupedFrame
           (map VStr (asset_names (df collected_twice)))
           (present_fields (df collected_twice))
           (map (fun s => map (trend_of (df collected_twice) s)
                              (present_fields (df collected_twice)))
                (asset_names (df collected_twice)))),
     collected_twice)
  /\ exists G,
       analyze_price_trends collected_once = (Ok G, collected_once)
       /\ g_index G
          = map VStr (names_of (columns (df collected_once))
                               (rows (df collected_once)))
       /\ g_columns G = present_fields (df collected_once)
       /\ g_rows G
          = map (fun r => map (cell (columns (df collected_once)) r)
                              (present_fields (df collected_once)))
                (named_rows (df collected_once)).
Proof.
  split.
  - apply (proj1 (trend_aggregation collected_twice)).
    + vm_compute. reflexivity.
    + repeat split; try (vm_compute; reflexivity).
      intros c Hc. simpl in Hc.
      repeat (destruct Hc as [<-|Hc]; [vm_compute; reflexivity|]).
      contradiction.
    + vm_compute. discriminate.
  - apply (proj1 (proj2 (trend_aggregation collected_once))).
    + vm_compute. reflexivity.
    + repeat split; try (vm_compute; reflexivity).
      intros c Hc. simpl in Hc.
      repeat (destruct Hc as [<-|Hc]; [vm_compute; reflexivity|]).
      contradiction.
    + vm_compute. discriminate.
    + apply (bool_decide_unpack _). vm_compute. exact I.
Defined.

(** ** Timestamps written and read back *)

Lemma append_String c (a b : string) : String c a +:+ b = String c (a +:+ b).
Proof. reflexivity. Qed.

Lemma append_empty (b : string) : "" +:+ b = b.
Proof. reflexivity. Qed.

Lemma append_assoc (a b c : string) : (a +:+ b) +:+ c = a +:+ (b +:+ c).
Proof.
  induction a as [|x a IH]; [reflexivity|].
  now rewrite !append_String, IH.
Qed.





























(** ** Columns written and read back *)





Section Columns.
Context `{PyText} (exact : Q -> bool) `{!ExactText exact}.





End Columns.

Section Inference.
Context `{PyText}.


End Inference.

(** ** A frame written and read back *)


Lemma combine_map_same {A B C} (f : A -> B) (g : A -> C) l :
  combine (map f l) (map g l) = map (fun x => (f x, g x)) l.
Proof. induction l as [|x l IH]; simpl; [reflexivity|now rewrite IH]. Qed.





(** *** Labels that need no renaming *)

Lemma has_duplicate_NoDup l : has_duplicate l = false <-> NoDup l.
Proof.
  induction l as [|x l IH]; simpl.
  - split; [constructor|reflexivity].
  - rewrite orb_false_iff, IH, NoDup_cons. split.
    + intros [Hx Hl]. split; [|assumption]. intros Hin.
      apply list_elem_of_In in Hin.
      assert (existsb (String.eqb x) l = true)
        by (apply existsb_exists; exists x; split; [assumption|apply String.eqb_refl]).
      congruence.
    + intros [Hx Hl]. split; [|assumption].
      destruct (existsb (String.eqb x) l) eqn:E; [|reflexivity].
      apply existsb_exists in E as (y & Hy & Exy). apply String.eqb_eq in Exy as <-.
      exfalso. apply Hx. now apply list_elem_of_In.
Qed.

Lemma no_empty_label l :
  existsb (String.eqb "") l = false <-> ~ In "" l.
Proof.
  split.
  - intros E Hin.
    assert (existsb (String.eqb "") l = true)
      by (apply existsb_exists; exists ""; split; [assumption|reflexivity]).
    congruence.
  - intros Hnin. destruct (existsb (String.eqb "") l) eqn:E; [|reflexivity].
    apply existsb_exists in E as (y & Hy & Ey). apply String.eqb_eq in Ey as <-.
    contradiction.
Qed.

Lemma get_set_eq {V} (k : string) (v : V) d : Dict.get k (Dict.set k v d) = Some v.
Proof.
  induction d as [|[k' v'] d IH]; simpl.
  - now rewrite String.eqb_refl.
  - destruct (String.eqb_spec k k') as [->|Hne]; simpl.
    + now rewrite String.eqb_refl.
    + apply String.eqb_neq in Hne. now rewrite Hne.
Qed.

Lemma get_set_ne {V} (k c : string) (v : V) d :
  c <> k -> Dict.get c (Dict.set k v d) = Dict.get c d.
Proof.
  intros Hne. induction d as [|[k' v'] d IH]; simpl.
  - apply String.eqb_neq in Hne. now rewrite Hne.
  - destruct (String.eqb_spec k k') as [->|Hkk]; simpl.
    + apply String.eqb_neq in Hne. now rewrite Hne.
    + now rewrite IH.
Qed.

Lemma list_set_nth {A} i (l : list A) d : list_set i (nth i l d) l = l.
Proof.
  revert i. induction l as [|x l IH]; intros [|i]; simpl; auto.
  now rewrite IH.
Qed.

Lemma fill_unnamed_given header :
  ~ In "" header -> fill_unnamed header = header.
Proof.
  unfold fill_unnamed. generalize 0 as a.
  induction header as [|c header IH]; intros a Hnin; [reflexivity|].
  cbn [length seq combine map fst snd].
  destruct (String.eqb_spec c "") as [->|_]; [exfalso; apply Hnin; now left|].
  f_equal. apply IH. intros Hin. apply Hnin. now right.
Qed.

Lemma filter_positions (p : nat -> bool) l b :
  (forall i, In i l -> p i = b) ->
  List.filter p l = if b then l else [].
Proof.
  intros Hp. induction l as [|i l IH]; simpl; [now destruct b|].
  rewrite (Hp i) by now left. rewrite IH by (intros; apply Hp; now right).
  now destruct b.
Qed.

(** Going through positions whose labels have not been met leaves the
    header as it is. *)
Lemma dedup_unmet header :
  NoDup header ->
  forall m k counts,
    k + m = length header ->
    (forall c, count_of counts c <> 0 -> In c (firstn k header)) ->
    fst (fold_left dedup_step (seq k m) (header, counts)) = header.
Proof.
  intros Hnd. induction m as [|m IH]; intros k counts Hlen Hcounts; [reflexivity|].
  cbn [seq fold_left]. unfold dedup_step at 2.
  assert (Hk : k < length header) by lia.
  destruct (lookup_lt_is_Some_2 header k Hk) as [x Hx].
  rewrite (nth_lookup_Some _ _ "" _ Hx).
  assert (Hsplit : header = firstn k header ++ x :: skipn (S k) header)
    by (symmetry; now apply take_drop_middle).
  assert (Hzero : count_of counts x = 0).
  { destruct (count_of counts x) eqn:E; [reflexivity|].
    exfalso. assert (Hin : In x (firstn k header))
      by (apply Hcounts; congruence).
    rewrite Hsplit in Hnd. apply NoDup_app in Hnd as (_ & Hdis & _).
    apply list_elem_of_In in Hin. apply (Hdis _ Hin). left. }
  rewrite Hzero. cbn [fresh_label].
  rewrite <- (nth_lookup_Some _ _ "" _ Hx) at 1. rewrite list_set_nth.
  apply IH; [lia|]. intros c Hc.
  rewrite (take_S_r _ _ _ Hx). apply in_or_app.
  destruct (String.eqb_spec c x) as [->|Hne]; [right; now left|].
  left. apply Hcounts. unfold count_of in *. now rewrite get_set_ne in Hc.
Qed.

(** Labels that are distinct and not empty are the labels of the frame
    read. *)
Lemma mangle_header_given header :
  existsb (String.eqb "") header = false ->
  has_duplicate header = false ->
  mangle_header header = header.
Proof.
  intros Hempty Hdup. apply no_empty_label in Hempty. apply has_duplicate_NoDup in Hdup.
  unfold mangle_header. rewrite (fill_unnamed_given _ Hempty).
  assert (Hpos : forall i, In i (seq 0 (length header)) ->
                           String.eqb (nth i header "") "" = false).
  { intros i Hi. apply in_seq in Hi. apply String.eqb_neq. intros E.
    apply Hempty. rewrite <- E. apply nth_In. lia. }
  rewrite (filter_positions _ _ false Hpos).
  rewrite (filter_positions _ _ true) by (intros i Hi; now rewrite (Hpos i Hi)).
  rewrite app_nil_r. apply (dedup_unmet _ Hdup); [lia|]. intros c Hc. now contradiction Hc.
Qed.

(** Paths as [pathlib] writes them. *)
Example paths :
  map (absolute "/home/demo")
      ["crypto_data.csv"; "./x.csv"; ""; "."; "a//b/./c.csv"; "/tmp/x.csv";
       "//srv/x"; "///srv/x"; "../x.csv"; "a/"]
  = ["/home/demo/crypto_data.csv"; "/home/demo/x.csv"; "/home/demo";
     "/home/demo"; "/home/demo/a/b/c.csv"; "/tmp/x.csv"; "//srv/x"; "/srv/x";
     "/home/demo/../x.csv"; "/home/demo/a"]
  /\ map str_parent ["x.csv"; "a/b/x.csv"; "/x.csv"; ""; "/"]
     = ["."; "a/b"; "/"; "."; "/"]
  /\ absolute "/" "x" = "/x".
Proof. repeat split; vm_compute; reflexivity. Qed.

(** Labels as the reader renames them. *)
Example renamed_labels :
  mangle_header ["a"; ""; "a"; "b"; "a"; ""]
  = ["a"; "Unnamed: 1"; "a.1"; "b"; "a.2"; "Unnamed: 5"]
  /\ mangle_header ["a"; "a"; "a.1"] = ["a"; "a.2"; "a.1"]
  /\ mangle_header [""; "Unnamed: 0"] = ["Unnamed: 0.1"; "Unnamed: 0"]
  /\ mangle_header ["a.1"; "a"; "a"] = ["a.1"; "a"; "a.2"].
Proof. repeat split; vm_compute; reflexivity. Qed.

Section RoundTrip.
Context `{PyText} (exact : Q -> bool) `{!ExactText exact}.




End RoundTrip.

(** ** The text of whole numbers *)

Lemma uint_of_string_nondigit s1 c s2 :
  is_digit c = false -> NilEmpty.uint_of_string (s1 +:+ String c s2) = None.
Proof.
  intros Hc. induction s1 as [|a s1 IH].
  - rewrite append_empty. cbn [NilEmpty.uint_of_string].
    destruct (NilEmpty.uint_of_string s2); [|reflexivity].
    destruct c as [[] [] [] [] [] [] [] []]; try reflexivity; discriminate.
  - rewrite append_String. cbn [NilEmpty.uint_of_string]. now rewrite IH.
Qed.

Lemma whole_parse_nondigit s1 c s2 :
  is_digit c = false -> whole_parse (s1 +:+ String c s2) = None.
Proof.
  intros Hc. unfold whole_parse. rewrite (uint_of_string_nondigit _ _ _ Hc).
  now destruct (s1 +:+ String c s2).
Qed.

Lemma whole_text_digits q :
  exists u, u <> Decimal.Nil /\ whole_text q = NilEmpty.string_of_uint u
            /\ N.of_uint u = Z.to_N (Qnum q).
Proof.
  unfold whole_text. exists (N.to_uint (Z.to_N (Qnum q))).
  split; [|split; [reflexivity|apply DecimalN.Unsigned.of_to]].
  destruct (Z.to_N (Qnum q)); [discriminate|apply DecimalPos.Unsigned.to_uint_nonnil].
Qed.

Lemma whole_parse_text q : whole q = true -> whole_parse (whole_text q) = Some q.
Proof.
  unfold whole. intros Hq. apply andb_prop in Hq as [Hnum Hden].
  apply Z.leb_le in Hnum. apply Pos.eqb_eq in Hden.
  destruct (whole_text_digits q) as (u & Hu & -> & Hn).
  unfold whole_parse. rewrite NilEmpty.usu, Hn, Z2N.id by assumption.
  destruct q as [n d]. cbn [Qnum Qden] in *. subst d.
  destruct u; [contradiction| | | | | | | | | |]; reflexivity.
Qed.

(** A text that is read as a whole number is neither a marker of a
    missing cell nor a boolean. *)
Lemma whole_parse_not_na s : is_some (whole_parse s) = true -> is_na_text s = false.
Proof.
  destruct (is_na_text s) eqn:E; [|reflexivity]. intros Hs. exfalso.
  unfold is_na_text, na_values in E. cbn [existsb] in E.
  repeat (apply orb_prop in E as [E|E];
          [apply String.eqb_eq in E; subst s; discriminate Hs|]).
  discriminate.
Qed.

Lemma whole_parse_not_bool s : is_bool_text s = true -> whole_parse s = None.
Proof.
  unfold is_bool_text, true_values, false_values. cbn [existsb]. intros E.
  repeat (apply orb_prop in E as [E|E]);
    try discriminate; apply String.eqb_eq in E; subst s; reflexivity.
Qed.

Lemma whole_parse_timestamp r t : whole_parse (format_timestamp r t) = None.
Proof.
  assert (Hdate : forall rest,
             whole_parse (format_date t +:+ rest) = None).
  { intros rest. unfold format_date. rewrite !append_assoc.
    rewrite (append_String "-" ""), append_empty.
    now apply whole_parse_nondigit. }
  destruct r; unfold format_timestamp, format_seconds;
    rewrite ?append_assoc; apply Hdate.
Qed.

#[export] Instance whole_exact : ExactText whole.
Proof.
  split.
  - apply whole_parse_text.
  - intros q Hq. apply whole_parse_not_na.
    cbn [num_parse num_text whole_numbers]. now rewrite (whole_parse_text q Hq).
  - apply whole_parse_not_bool.
  - apply whole_parse_timestamp.
Qed.

(** ** Saving and loading *)

Section Saving.
Context `{PyText}.

(** What [save_to_csv] does with a dataset that is not empty. *)
Lemma save_nonempty w filename :
  empty (df w) = false ->
  save_to_csv filename w
  = match files w !! absolute (cwd w) (str_parent filename) with
    | Some Dir =>
        match files w !! absolute (cwd w) filename with
        | Some Dir => (Raise (IsADirectoryError (str_path filename)), w)
        | _ =>
            (Ok tt,
             with_stdout
               (stdout w ++ ["Data saved to " +:+ absolute (cwd w) filename])
               (with_files (<[absolute (cwd w) filename := File (to_csv (df w))]>
                              (files w)) w))
        end
    | _ =>
        (Raise (OSError ("Cannot save file into a non-existent directory: '"
                         +:+ str_parent filename +:+ "'")), w)
    end.
Proof.
  intros Hne.
  unfold save_to_csv, to_csv_at, bind, get_df, get_cwd, is_dir, lift, write_file,
    print.
  rewrite Hne.
  destruct (files w !! absolute (cwd w) (str_parent filename)) as [[|]|] eqn:Ep;
    cbn [negb]; try reflexivity.
  destruct (files w !! absolute (cwd w) filename) as [[|]|] eqn:Et;
    cbn [negb]; reflexivity.
Qed.



End Saving.



(** The file of the sample process after one iteration. *)
Example saved_file :
  to_csv (df collected_once)
  = [["id"; "name"; "quote.USD.price"; "quote.USD.percent_change_1h";
      "quote.USD.percent_change_24h"; "timestamp"];
     ["1"; "Bitcoin"; "100"; "0"; "0"; "2024-05-01 12:00:00.250"];
     ["2"; "Ethereum"; "200"; "0"; "0"; "2024-05-01 12:00:00.250"];
     ["3"; "Tether"; "300"; "0"; "0"; "2024-05-01 12:00:00.250"]].
Proof. vm_compute. reflexivity. Qed.


(** ** What a fetch consumes *)

(** Whatever the request meets, [fetch_crypto_data] returns a body and
    changes nothing of the world but the count of requests, the output
    and the count of draws. *)
Lemma fetch_cases start limit convert w :
  exists body w',
    fetch_crypto_data start limit convert w = (Ok body, w')
    /\ df w' = df w /\ files w' = files w /\ cwd w' = cwd w
    /\ http w' = http w /\ base_url w' = base_url w
    /\ clock w' = clock w /\ ticks w' = ticks w
    /\ normal_draws w' = normal_draws w
    /\ requests w' = S (requests w)
    /\ match fetch_outcome start limit convert w with
       | Replied data =>
           body = data /\ stdout w' = stdout w /\ drawn w' = drawn w
       | RequestException e | JSONDecodeError e =>
           body = mock_listing (fun k => normal_draws w (k + drawn w))
           /\ stdout w' = stdout w ++ ["API request failed: " +:+ e]
           /\ drawn w' = 21 + drawn w
       end.
Proof.
  unfold fetch_outcome, fetch_crypto_data, bind, session_get.
  cbv beta iota.
  destruct (http w (requests w) _) as [data|e|e].
  - do 2 eexists. split; [reflexivity|]. repeat split.
  - unfold print. cbv beta iota. rewrite mock_data_eq.
    do 2 eexists. split; [reflexivity|]. repeat split.
  - unfold print. cbv beta iota. rewrite mock_data_eq.
    do 2 eexists. split; [reflexivity|]. repeat split.
Qed.

(** X1: a call of [fetch_crypto_data] makes exactly one request, there is
    no second attempt; it returns a body whatever the request meets, and
    it touches neither the dataset, nor the files, nor the clock. When
    the request is answered it returns the body as it is, consumes no
    draw of the random generator and prints nothing; when the request
    fails, in transport or in decoding, it consumes twenty-one draws and
    prints one line, the same for both kinds of failure: it is the
    first handler that takes a body that is not JSON, and the line of
    the second one is never printed. *)
Theorem fetch_one_attempt (w : World) (start limit : Z) (convert : string) :
  exists body w',
    fetch_crypto_data start limit convert w = (Ok body, w')
    /\ requests w' = S (requests w)
    /\ df w' = df w /\ files w' = files w /\ ticks w' = ticks w
    /\ match fetch_outcome start limit convert w with
       | Replied data =>
           body = data /\ drawn w' = drawn w /\ stdout w' = stdout w
       | RequestException e | JSONDecodeError e =>
           drawn w' = 21 + drawn w
           /\ stdout w' = stdout w ++ ["API request failed: " +:+ e]
       end.
Proof.
  destruct (fetch_cases start limit convert w)
    as (body & w' & E & Hdf & Hfiles & _ & _ & _ & _ & Htick & _ & Hreq & Hout).
  exists body, w'. repeat (split; [assumption|]).
  destruct (fetch_outcome start limit convert w);
    destruct Hout as (Hbody & Hstdout & Hdrawn); auto.
Qed.

(** ** What [process_data] refuses and what it keeps *)

(** X2: bodies [process_data] raises on, each time leaving the world as
    it was, the clock unread: a number that is not zero and [True] are
    not containers ([TypeError]); a list holding the string ['data'] and
    a string containing it pass the test for the key and cannot be
    indexed by it ([TypeError]); an object whose ['data'] is neither an
    array nor an object cannot be normalized
    ([NotImplementedError]). *)
Theorem process_data_rejects (w : World) :
  (forall q, Qeq_bool q 0 = false ->
     exists msg, process_data (JNum q) w = (Raise (TypeError msg), w))
  /\ (exists msg, process_data (JBool true) w = (Raise (TypeError msg), w))
  /\ (forall l, existsb (json_is_str "data") l = true ->
        exists msg, process_data (JList l) w = (Raise (TypeError msg), w))
  /\ (forall s, is_substring "data" s = true ->
        exists msg, process_data (JStr s) w = (Raise (TypeError msg), w))
  /\ (forall d v,
        Dict.get "data" d = Some v -> is_list v = false -> is_dict v = false ->
        process_data (JDict d) w = (Raise NotImplementedError, w)).
Proof.
  unfold process_data, bind, lift. split; [|split; [|split; [|split]]].
  - intros q Hq. cbn [truthy]. rewrite Hq. eexists. reflexivity.
  - eexists. reflexivity.
  - intros l Hl. assert (Ht : truthy (JList l) = true)
      by (destruct l; [discriminate|reflexivity]).
    rewrite Ht. cbn [negb py_contains]. rewrite Hl. eexists. reflexivity.
  - intros s Hs. assert (Ht : truthy (JStr s) = true)
      by (destruct s; [discriminate|reflexivity]).
    rewrite Ht. cbn [negb py_contains]. rewrite Hs. eexists. reflexivity.
  - intros d v Hget Hl Hd.
    assert (Ht : truthy (JDict d) = true) by (destruct d; [discriminate|reflexivity]).
    rewrite Ht. unfold py_contains, py_getitem, Dict.mem. rewrite Hget.
    destruct v; try discriminate; reflexivity.
Qed.

Lemma process_data_rejects_witness :
  process_data (JDict [("data", JStr "rate limit exceeded")]) online
  = (Raise NotImplementedError, online).
Proof.
  apply (proj2 (proj2 (proj2 (proj2 (process_data_rejects online))))
           [("data", JStr "rate limit exceeded")] (JStr "rate limit exceeded"));
    reflexivity.
Defined.

Lemma column_set_column_other c c' v d :
  rectangular d -> c' <> c -> column c' (set_column c v d) = column c' d.
Proof.
  intros Hrect Hne. unfold column, set_column.
  destruct (col_index c (columns d)) as [i|] eqn:E; cbn [columns rows];
    rewrite map_map; apply map_ext_in; intros r Hr; unfold cell.
  - destruct (col_index c' (columns d)) as [j|] eqn:E'; [|reflexivity].
    apply nth_list_set_ne. intros ->.
    apply col_index_Some in E as [_ E]. apply col_index_Some in E' as [_ E'].
    congruence.
  - destruct (col_index c' (columns d)) as [j|] eqn:E'.
    + rewrite (col_index_app_l _ _ _ _ E').
      apply col_index_Some in E' as [Hj _].
      unfold rectangular in Hrect. rewrite Forall_forall in Hrect.
      apply list_elem_of_In in Hr. specialize (Hrect r Hr).
      apply app_nth1. lia.
    + assert (En : col_index c' (columns d ++ [c]) = None).
      { apply col_index_None. intros Hin. apply in_app_iff in Hin as [Hin|[->|[]]].
        - now apply col_index_None in E'.
        - contradiction. }
      now rewrite En.
Qed.

(** X3: of a body whose ['data'] is an array of records, [process_data]
    keeps every normalized field as it is, under its label and in its
    place; only the column ['timestamp'] is its own: it is added last
    when the records have no such field, and a field of that name sent
    by the server is overwritten with the reading of the clock. *)
Theorem process_data_keeps_fields (w : World) (d : list (string * json))
    (entries : list json) :
  Dict.get "data" d = Some (JList entries) ->
  Forall (fun e => is_list e = false) entries ->
  exists normalized df_new,
    json_normalize (JList entries) = Ok normalized
    /\ fst (process_data (JDict d) w) = Ok df_new
    /\ columns df_new
       = (if has_column "timestamp" normalized then columns normalized
          else columns normalized ++ ["timestamp"])
    /\ (forall c, c <> "timestamp" -> column c df_new = column c normalized)
    /\ column "timestamp" df_new = repeat (VTime (clock w (ticks w))) (len normalized).
Proof.
  intros Hget Hent.
  destruct (json_normalize_rows _ Hent) as (dn & Hn & Hlen & Hrect).
  exists dn, (set_column "timestamp" (VTime (clock w (ticks w))) dn).
  split; [assumption|]. split.
  - assert (Ht : truthy (JDict d) = true) by (destruct d; [discriminate|reflexivity]).
    unfold process_data, bind, lift. rewrite Ht.
    unfold py_contains, py_getitem, Dict.mem. rewrite Hget. cbn [negb].
    rewrite Hn. reflexivity.
  - split; [|split].
    + unfold set_column, has_column.
      destruct (col_index "timestamp" (columns dn)); reflexivity.
    + intros c Hc. now apply column_set_column_other.
    + now apply column_set_column.
Qed.

Lemma process_data_keeps_fields_witness :
  exists normalized df_new,
    json_normalize
      (JList [JDict [("name", JStr "Bitcoin"); ("timestamp", JStr "2020-01-01")]])
    = Ok normalized
    /\ fst (process_data
              (JDict [("data",
                       JList [JDict [("name", JStr "Bitcoin");
                                     ("timestamp", JStr "2020-01-01")]])])
              online) = Ok df_new
    /\ columns df_new
       = (if has_column "timestamp" normalized then columns normalized
          else columns normalized ++ ["timestamp"])
    /\ (forall c, c <> "timestamp" -> column c df_new = column c normalized)
    /\ column "timestamp" df_new
       = repeat (VTime (clock online (ticks online))) (len normalized).
Proof.
  apply (process_data_keeps_fields online
           [("data", JList [JDict [("name", JStr "Bitcoin");
                                   ("timestamp", JStr "2020-01-01")]])]
           [JDict [("name", JStr "Bitcoin"); ("timestamp", JStr "2020-01-01")]]).
  - reflexivity.
  - repeat constructor.
Defined.

(** ** Every leaf under its path *)

(** [_normalise_json] stores the leaves one after the other. *)
Lemma normalise_leaves :
  forall data key_string acc,
    _normalise_json data key_string acc
    = fold_left set_item (leaves data key_string) acc.
Proof.
  fix IH 1. intros [| b | q | s | l | d] key_string acc; try reflexivity.
  simpl. revert acc. induction d as [|[k v] d IHd]; intros acc; [reflexivity|].
  rewrite fold_left_app, <- IH. apply IHd.
Qed.

Lemma set_fresh (k : string) (v : value) acc :
  ~ In k (Dict.keys acc) -> Dict.set k v acc = acc ++ [(k, v)].
Proof.
  induction acc as [|[k' v'] acc IH]; simpl; intros Hnin; [reflexivity|].
  destruct (String.eqb_spec k k') as [->|_]; [tauto|].
  rewrite IH by tauto. reflexivity.
Qed.

Lemma fold_set_fresh l :
  forall acc, NoDup (Dict.keys acc ++ map fst l) ->
              fold_left set_item l acc = acc ++ l.
Proof.
  induction l as [|[k v] l IH]; intros acc Hnd; simpl.
  - now rewrite app_nil_r.
  - unfold set_item at 2. cbn [fst snd].
    assert (Hk : ~ In k (Dict.keys acc)).
    { apply NoDup_app in Hnd as (_ & Hdisj & _). intros Hin.
      apply (Hdisj k); [now apply list_elem_of_In|]. simpl. left. }
    rewrite (set_fresh _ _ _ Hk), IH.
    + now rewrite <- app_assoc.
    + unfold Dict.keys in *. rewrite map_app, <- app_assoc. exact Hnd.
Qed.

(** A record whose fields come under distinct paths is flattened into
    these fields, the scalar ones first. *)
Lemma normalise_ordered_fields d :
  distinct_paths d -> _normalise_json_ordered d = flat_fields d.
Proof.
  unfold distinct_paths, flat_fields, _normalise_json_ordered, Dict.merge.
  set (scalars := List.filter (fun kv => negb (is_dict (snd kv))) d).
  set (nested := List.filter (fun kv => is_dict (snd kv)) d).
  intros Hnd. rewrite map_app in Hnd.
  assert (Htop : fold_left (fun acc kv => Dict.set (fst kv) (leaf_value (snd kv)) acc)
                   scalars []
                 = map (fun kv => (fst kv, leaf_value (snd kv))) scalars).
  { transitivity (fold_left set_item
                    (map (fun kv => (fst kv, leaf_value (snd kv))) scalars) []).
    - clear Hnd. clearbody scalars. generalize (@nil (string * value)).
      induction scalars as [|kv l IH]; intros acc; [reflexivity|]. simpl. apply IH.
    - rewrite fold_set_fresh; [reflexivity|].
      apply NoDup_app in Hnd as (Hnd & _). exact Hnd. }
  rewrite Htop, normalise_leaves.
  rewrite (fold_set_fresh _ []).
  - change (fold_left (fun acc kv => Dict.set (fst kv) (snd kv) acc))
      with (fold_left set_item).
    rewrite fold_set_fresh; [reflexivity|exact Hnd].
  - apply NoDup_app in Hnd as (_ & _ & Hnd). exact Hnd.
Qed.

Lemma get_distinct (k : string) (v : value) l :
  NoDup (map fst l) -> In (k, v) l -> Dict.get k l = Some v.
Proof.
  induction l as [|[k' v'] l IH]; simpl; intros Hnd Hin; [contradiction|].
  apply NoDup_cons in Hnd as [Hk' Hnd].
  destruct Hin as [[= -> ->]|Hin]; [now rewrite String.eqb_refl|].
  destruct (String.eqb_spec k k') as [->|_]; [|now apply IH].
  exfalso. apply Hk'. apply list_elem_of_In.
  apply (in_map fst) in Hin. exact Hin.
Qed.

Lemma from_records_label ds d c :
  In d ds -> In c (Dict.keys d) -> In c (columns (from_records ds)).
Proof.
  unfold from_records. cbn [columns].
  assert (G : forall acc,
            (In c acc \/ exists d, In d ds /\ In c (Dict.keys d)) ->
            In c (fold_left (fun acc d => union_columns acc (Dict.keys d)) ds acc)).
  { induction ds as [|d' ds IH]; intros acc [Hacc|(d0 & Hd0 & Hc)]; simpl; auto.
    - contradiction.
    - apply IH. left. apply In_union_columns. now left.
    - destruct Hd0 as [->|Hd0].
      + apply IH. left. apply In_union_columns. now right.
      + apply IH. right. eauto. }
  intros Hd Hc. apply G. right. eauto.
Qed.

Lemma nth_from_records ds i d :
  nth_error ds i = Some d ->
  nth i (rows (from_records ds)) []
  = map (fun c => match Dict.get c d with
                  | Some v => v
                  | None => VNA
                  end) (columns (from_records ds)).
Proof.
  intros Hi. unfold from_records. cbn [rows columns].
  apply nth_error_nth.
  apply (map_nth_error (fun d => map (fun c => match Dict.get c d with
                                                | Some v => v
                                                | None => VNA
                                                end) _)).
  exact Hi.
Qed.

(** X4: normalizing an array of records whose fields come under distinct
    dotted paths gives one row per record, and every leaf of a record,
    however deeply nested, is the cell of its row under its dotted path
    (['quote.USD.price'] for the price inside ['USD'] inside
    ['quote']). *)
Theorem normalized_cells (records : list (list (string * json))) :
  Forall distinct_paths records ->
  exists frame,
    json_normalize (JList (map JDict records)) = Ok frame
    /\ len frame = length records
    /\ forall i d path v,
         nth_error records i = Some d ->
         In (path, v) (flat_fields d) ->
         cell (columns frame) (nth i (rows frame) []) path = v.
Proof.
  intros Hdistinct.
  assert (Hnorm : normalize_entries (map JDict records) = Ok (map flat_fields records)).
  { induction Hdistinct as [|d ds Hd _ IH]; [reflexivity|].
    cbn [map normalize_entries normalize_entry].
    now rewrite IH, normalise_ordered_fields. }
  exists (from_records (map flat_fields records)). split; [|split].
  - unfold json_normalize. destruct records as [|d ds]; [reflexivity|].
    now rewrite Hnorm.
  - now rewrite len_from_records, length_map.
  - intros i d path v Hi Hin.
    assert (Hd : distinct_paths d).
    { rewrite Forall_forall in Hdistinct. apply Hdistinct, list_elem_of_In.
      eapply nth_error_In. exact Hi. }
    assert (Hlabel : In path (columns (from_records (map flat_fields records)))).
    { apply (from_records_label _ (flat_fields d)).
      - apply in_map. eapply nth_error_In. exact Hi.
      - apply (in_map fst) in Hin. exact Hin. }
    destruct (col_index_In _ _ Hlabel) as [j Hj].
    unfold cell. rewrite Hj. destruct (col_index_Some _ _ _ Hj) as [Hlt Hnth].
    rewrite (nth_from_records _ _ (flat_fields d)) by now apply map_nth_error.
    rewrite (nth_indep _ VNA (match Dict.get "" (flat_fields d) with
                              | Some v => v
                              | None => VNA
                              end)) by now rewrite length_map.
    rewrite (map_nth (fun c => match Dict.get c (flat_fields d) with
                               | Some v => v
                               | None => VNA
                               end)).
    rewrite Hnth, (get_distinct _ _ _ Hd Hin). reflexivity.
Qed.

Lemma normalized_cells_witness :
  exists frame,
    json_normalize (JList (map JDict [[("name", JStr "Bitcoin");
                                       ("quote", JDict [("USD", JDict [("price", JNum 100)])])]]))
    = Ok frame
    /\ len frame = 1
    /\ cell (columns frame) (nth 0 (rows frame) []) "quote.USD.price" = VNum 100.
Proof.
  destruct (normalized_cells [[("name", JStr "Bitcoin");
                               ("quote", JDict [("USD", JDict [("price", JNum 100)])])]])
    as (frame & E & Hlen & Hcell).
  - constructor; [|constructor]. apply (bool_decide_unpack _). vm_compute. exact I.
  - exists frame. split; [exact E|]. split; [exact Hlen|].
    apply (Hcell 0 [("name", JStr "Bitcoin");
                    ("quote", JDict [("USD", JDict [("price", JNum 100)])])]).
    + reflexivity.
    + right. left. reflexivity.
Defined.

(** ** What every collection run preserves *)

(** An iteration, step by step. *)
Lemma iteration_unfold iterations sleep_interval i w :
  iteration iterations sleep_interval i w
  = match fetch_crypto_data 1 15 "USD"
            (with_stdout (stdout w ++ [iteration_header iterations i]) w) with
    | (Ok raw_data, w2) =>
        if truthy raw_data then
          match process_data raw_data w2 with
          | (Ok processed_data, w3) =>
              let w4 := snd (append_data processed_data w3) in
              (Ok tt,
               with_stdout
                 (stdout w4
                  ++ collected_messages (len processed_data) (len (df w4))
                  ++ sleep_messages iterations sleep_interval i) w4)
          | (Raise e, w3) => (Raise e, w3)
          end
        else
          (Ok tt,
           with_stdout
             (stdout w2 ++ ["  - Failed to collect data"]
              ++ sleep_messages iterations sleep_interval i) w2)
    | (Raise e, w2) => (Raise e, w2)
    end.
Proof.
  unfold iteration, bind, print at 1. fold (iteration_header iterations i).
  destruct (fetch_crypto_data _ _ _ _) as [[raw_data|e] w2]; [|reflexivity].
  destruct (truthy raw_data).
  - destruct (process_data raw_data w2) as [[P|e] w3]; [|reflexivity].
    unfold append_data, bind, get_df, set_df, ret, print, sleep,
      sleep_messages, collected_messages.
    destruct (empty P); [|destruct (empty (df w3))];
      destruct (i <? iterations - 1); cbn [snd];
      world_fields; rewrite <- ?app_assoc; reflexivity.
  - unfold print, sleep, ret, sleep_messages.
    destruct (i <? iterations - 1); world_fields;
      rewrite <- ?app_assoc; reflexivity.
Qed.

Lemma NoDup_snoc (c : string) cols :
  NoDup cols -> ~ In c cols -> NoDup (cols ++ [c]).
Proof.
  intros Hnd Hnin. apply NoDup_app. split; [assumption|]. split.
  - intros x Hx Hx'. apply list_elem_of_In in Hx.
    apply list_elem_of_In in Hx'. destruct Hx' as [<-|[]]. contradiction.
  - apply NoDup_singleton.
Qed.

Lemma NoDup_union_columns cols extra :
  NoDup cols -> NoDup (union_columns cols extra).
Proof.
  unfold union_columns. revert cols.
  induction extra as [|c extra IH]; intros cols Hnd; simpl; [assumption|].
  apply IH. destruct (col_index c cols) eqn:E; [assumption|].
  apply NoDup_snoc; [assumption|]. now apply col_index_None.
Qed.

Lemma NoDup_from_records ds : NoDup (columns (from_records ds)).
Proof.
  unfold from_records. cbn [columns].
  assert (G : forall acc, NoDup acc ->
            NoDup (fold_left (fun acc d => union_columns acc (Dict.keys d)) ds acc)).
  { induction ds as [|d ds IH]; intros acc Hacc; simpl; [assumption|].
    apply IH. now apply NoDup_union_columns. }
  apply G. apply NoDup_nil_2.
Qed.

Lemma json_normalize_well_formed data d :
  json_normalize data = Ok d -> well_formed d.
Proof.
  unfold json_normalize, well_formed. intros Hn.
  assert (Hnew : rectangular DataFrame_new /\ NoDup (columns DataFrame_new))
    by (split; [constructor|apply NoDup_nil_2]).
  destruct data as [| | | |l|o]; try discriminate.
  - destruct l as [|e es]; [injection Hn as <-; exact Hnew|].
    destruct (normalize_entries (e :: es)); [|discriminate].
    injection Hn as <-. split; [apply rectangular_from_records|apply NoDup_from_records].
  - destruct (normalize_entries [JDict o]); [|discriminate].
    injection Hn as <-. split; [apply rectangular_from_records|apply NoDup_from_records].
Qed.

Lemma well_formed_set_column c v d :
  well_formed d -> well_formed (set_column c v d).
Proof.
  intros [Hrect Hnd]. split; [now apply rectangular_set_column|].
  unfold set_column. destruct (col_index c (columns d)) eqn:E; cbn [columns].
  - assumption.
  - apply NoDup_snoc; [assumption|]. now apply col_index_None.
Qed.

Lemma well_formed_concat a b : NoDup (columns a) -> well_formed (concat a b).
Proof.
  intros Hnd. split; [apply rectangular_concat|].
  unfold concat. cbn [columns]. now apply NoDup_union_columns.
Qed.

(** The three ways [process_data] can go: it raises and leaves the world
    as it was, it returns the empty frame and leaves the world as it
    was, or it normalizes the entries and reads the clock once. *)
Lemma process_data_cases data w :
  (exists e, process_data data w = (Raise e, w))
  \/ process_data data w = (Ok DataFrame_new, w)
  \/ exists entries df_new,
       py_getitem "data" data = Ok entries
       /\ json_normalize entries = Ok df_new
       /\ process_data data w
          = (Ok (set_column "timestamp" (VTime (clock w (ticks w))) df_new),
             with_ticks (S (ticks w)) w).
Proof.
  unfold process_data, bind, lift, ret, to_datetime_now.
  destruct (negb (truthy data)); [right; left; reflexivity|].
  destruct (py_contains "data" data) as [b|e]; [|left; eexists; reflexivity].
  destruct b; cbn [negb]; [|right; left; reflexivity].
  destruct (py_getitem "data" data) as [entries|e]; [|left; eexists; reflexivity].
  destruct (json_normalize entries) as [df_new|e] eqn:En;
    [|left; eexists; reflexivity].
  right; right. exists entries, df_new. repeat split. exact En.
Qed.

(** What holds before a loop and is kept by its body, whether the body
    returns or raises, holds after the loop. *)
Lemma for_each_invariant {A} (I : World -> Prop) (body : A -> M unit) l :
  (forall x w, I w -> I (snd (body x w))) ->
  forall w, I w -> I (snd (for_each l body w)).
Proof.
  intros Hbody. induction l as [|x l IH]; intros w Hw; simpl; [assumption|].
  unfold bind. specialize (Hbody x w Hw).
  destruct (body x w) as [[[]|e] w1]; simpl in Hbody; [now apply IH|assumption].
Qed.

Lemma run_data_collection_invariant (I : World -> Prop) iterations sleep_interval :
  (forall o w, I w -> I (with_stdout o w)) ->
  (forall i w, I w -> I (snd (iteration iterations sleep_interval i w))) ->
  forall w, I w -> I (snd (run_data_collection iterations sleep_interval w)).
Proof.
  intros Hout Hiter w Hw. unfold run_data_collection, bind, print at 1.
  match goal with
  | |- context [for_each ?l ?b ?w0] =>
      pose proof (for_each_invariant I b l Hiter w0 (Hout _ _ Hw)) as H
  end.
  destruct (for_each _ _ _) as [[[]|e] w1]; simpl in H; [|assumption].
  unfold print. cbn [snd]. now apply Hout.
Qed.

Lemma append_data_df B w :
  df (snd (append_data B w))
  = if empty B then df w else if empty (df w) then B else concat (df w) B.
Proof.
  unfold append_data, bind, get_df, set_df, ret.
  destruct (empty B); [|destruct (empty (df w))]; reflexivity.
Qed.

Lemma append_data_rest B w :
  let w' := snd (append_data B w) in
  fst (append_data B w) = Ok tt
  /\ clock w' = clock w /\ ticks w' = ticks w /\ stdout w' = stdout w
  /\ http w' = http w /\ base_url w' = base_url w /\ requests w' = requests w
  /\ files w' = files w /\ drawn w' = drawn w.
Proof.
  unfold append_data, bind, get_df, set_df, ret.
  destruct (empty B); [|destruct (empty (df w))]; repeat split.
Qed.

(** An iteration changes the dataset by appending what [process_data]
    made of the body, or not at all. *)
Lemma iteration_dataset iterations sleep_interval i w :
  let w' := snd (iteration iterations sleep_interval i w) in
  clock w' = clock w
  /\ ((df w' = df w /\ ticks w' = ticks w)
      \/ exists df_new,
           well_formed df_new
           /\ ticks w' = S (ticks w)
           /\ df w' = df (snd (append_data
                                 (set_column "timestamp" (VTime (clock w (ticks w))) df_new)
                                 w))).
Proof.
  rewrite iteration_unfold.
  destruct (fetch_cases 1 15 "USD"
              (with_stdout (stdout w ++ [iteration_header iterations i]) w))
    as (body & w2 & -> & Hdf & _ & _ & _ & _ & Hclk & Htick & _).
  world_fields.
  destruct (truthy body); [|cbn [snd]; world_fields; auto].
  destruct (process_data_cases body w2) as [[e E]|[E|(entries & dn & _ & Hn & E)]];
    rewrite E; cbn [snd]; world_fields; auto.
  match goal with
  | |- context [append_data ?B ?w0] =>
      destruct (append_data_rest B w0) as (_ & Hc & Ht & _);
      rewrite Hc, Ht, (append_data_df B w0)
  end.
  world_fields. split; [assumption|]. right. exists dn.
  split; [eapply json_normalize_well_formed; eassumption|].
  split; [now rewrite Htick|].
  now rewrite append_data_df, Hdf, Hclk, Htick.
Qed.

(** ** Which branch an iteration takes *)

(** The claim of C10 fails as stated: a server that answers with the body
    [null] makes [fetch_crypto_data] return [None], and the collection
    then takes the branch that prints the failure. *)
Lemma fetch_returns_falsy :
  fst (fetch_crypto_data 1 15 "USD" answering_null) = Ok JNull
  /\ truthy JNull = false
  /\ stdout (snd (run_data_collection 1 0 answering_null))
     = ["Starting automated data collection for 1 iterations...";
        "Iteration 1/1";
        "  - Failed to collect data";
        "Data collection completed!"].
Proof. repeat split; vm_compute; reflexivity. Qed.

(** The line of the failure is none of the other lines of an iteration. *)
Lemma failure_line_apart iterations sleep_interval i e processed total :
  ~ In "  - Failed to collect data"
       ([iteration_header iterations i; "API request failed: " +:+ e]
        ++ collected_messages processed total
        ++ sleep_messages iterations sleep_interval i).
Proof.
  unfold iteration_header, collected_messages, sleep_messages.
  destruct (i <? iterations - 1); cbn [app In]; rewrite !append_String;
    intros H; repeat (destruct H as [H|H]; [discriminate H|]); exact H.
Qed.

(** What an iteration prints: its header, then the line of a failed
    request if the request failed, then either the line of the failure,
    or the two lines of a collection, or nothing when the processing
    raised; and last the line about sleeping. *)
Lemma iteration_lines iterations sleep_interval i w :
  let w' := snd (iteration iterations sleep_interval i w) in
  match fetch_outcome 1 15 "USD" w with
  | Replied body =>
      if truthy body then
        exists lines,
          stdout w' = stdout w ++ iteration_header iterations i :: lines
          /\ (lines = []
              \/ exists processed total,
                   lines = collected_messages processed total
                           ++ sleep_messages iterations sleep_interval i)
      else
        stdout w' = stdout w ++ failure_messages iterations sleep_interval i
  | RequestException e | JSONDecodeError e =>
      exists total,
        stdout w'
        = stdout w
          ++ [iteration_header iterations i; "API request failed: " +:+ e]
          ++ collected_messages 3 total
          ++ sleep_messages iterations sleep_interval i
  end.
Proof.
  cbv zeta. rewrite iteration_unfold.
  set (w1 := with_stdout (stdout w ++ [iteration_header iterations i]) w).
  destruct (fetch_cases 1 15 "USD" w1)
    as (body & w2 & -> & Hdf & _ & _ & _ & _ & _ & _ & _ & _ & Hout).
  change (fetch_outcome 1 15 "USD" w1) with (fetch_outcome 1 15 "USD" w) in Hout.
  unfold w1 in Hout. world_fields.
  assert (Hquiet : forall data,
             stdout (snd (process_data data w2)) = stdout w2).
  { intros data.
    destruct (process_data_cases data w2) as [[e E]|[E|(? & ? & _ & _ & E)]];
      now rewrite E. }
  assert (Hmock : forall e,
             stdout w2 = (stdout w ++ [iteration_header iterations i])
                         ++ ["API request failed: " +:+ e] ->
             exists total,
               stdout (snd (if truthy (mock_listing
                                         (fun k => normal_draws w (k + drawn w)))
                            then
                              match process_data
                                      (mock_listing
                                         (fun k => normal_draws w (k + drawn w)))
                                      w2 with
                              | (Ok processed_data, w3) =>
                                  let w4 := snd (append_data processed_data w3) in
                                  (Ok tt,
                                   with_stdout
                                     (stdout w4
                                      ++ collected_messages (len processed_data)
                                           (len (df w4))
                                      ++ sleep_messages iterations sleep_interval i)
                                     w4)
                              | (Raise e, w3) => (Raise e, w3)
                              end
                            else
                              (Ok tt,
                               with_stdout
                                 (stdout w2 ++ ["  - Failed to collect data"]
                                  ++ sleep_messages iterations sleep_interval i)
                                 w2)))
               = stdout w
                 ++ [iteration_header iterations i; "API request failed: " +:+ e]
                 ++ collected_messages 3 total
                 ++ sleep_messages iterations sleep_interval i).
  { intros e Hs. set (z := fun k => normal_draws w (k + drawn w)).
    assert (Ht : truthy (mock_listing z) = true) by reflexivity.
    rewrite Ht. destruct (mock_listing_frame z w2) as (P & EP & HlenP & _).
    rewrite EP. cbv zeta. cbn [snd]. world_fields.
    destruct (append_data_rest P (with_ticks (S (ticks w2)) w2))
      as (_ & _ & _ & Hs4 & _).
    rewrite Hs4, HlenP. world_fields. rewrite Hs, <- !app_assoc.
    eexists. reflexivity. }
  destruct (fetch_outcome 1 15 "USD" w) as [data|e|e].
  - destruct Hout as (-> & Hs & _). destruct (truthy data).
    + specialize (Hquiet data).
      destruct (process_data data w2) as [[P|e] w3]; cbn [snd] in *.
      * cbv zeta. world_fields.
        destruct (append_data_rest P w3) as (_ & _ & _ & Hs4 & _).
        rewrite Hs4, Hquiet, Hs, <- app_assoc. eexists. split; [reflexivity|].
        right. eauto.
      * rewrite Hquiet, Hs. exists []. split; [reflexivity|now left].
    + cbn [snd]. world_fields. rewrite Hs, <- app_assoc. reflexivity.
  - destruct Hout as (-> & Hs & _). now apply Hmock.
  - destruct Hout as (-> & Hs & _). now apply Hmock.
Qed.

(** C10, amended: after a transport or decoding failure
    [fetch_crypto_data] returns the mock listing, an object whose
    ['data'] holds three records, and the iteration takes the collecting
    branch; on an answered request it returns the decoded body as it is,
    whatever the server sent; and the iteration prints the line of the
    failure exactly when the request was answered with a body that is
    falsy. *)
Theorem fetch_returns (w : World) :
  (forall start limit convert,
      failed (fetch_outcome start limit convert w) = true ->
      exists d entries w',
        fetch_crypto_data start limit convert w = (Ok (JDict d), w')
        /\ Dict.get "data" d = Some (JList entries)
        /\ length entries = 3
        /\ truthy (JDict d) = true /\ py_contains "data" (JDict d) = Ok true)
  /\ (forall start limit convert body,
        fetch_outcome start limit convert w = Replied body ->
        fetch_crypto_data start limit convert w
        = (Ok body, with_requests (S (requests w)) w))
  /\ (forall iterations sleep_interval i,
        failed (fetch_outcome 1 15 "USD" w) = true ->
        exists w' msg (total : nat),
          iteration iterations sleep_interval i w = (Ok tt, w')
          /\ stdout w'
             = stdout w
               ++ ["Iteration " +:+ pretty (i + 1) +:+ "/" +:+ pretty iterations;
                   msg;
                   "  - Collected data for 3 cryptocurrencies";
                   "  - Total dataset size: " +:+ pretty total +:+ " records"]
               ++ sleep_messages iterations sleep_interval i)
  /\ (forall iterations sleep_interval i body,
        fetch_outcome 1 15 "USD" w = Replied body ->
        truthy body = false ->
        exists w',
          iteration iterations sleep_interval i w = (Ok tt, w')
          /\ df w' = df w
          /\ stdout w'
             = stdout w
               ++ ["Iteration " +:+ pretty (i + 1) +:+ "/" +:+ pretty iterations;
                   "  - Failed to collect data"]
               ++ sleep_messages iterations sleep_interval i)
  /\ (forall iterations sleep_interval i,
        exists lines,
          stdout (snd (iteration iterations sleep_interval i w))
          = stdout w ++ lines
          /\ (In "  - Failed to collect data" lines
              <-> exists body,
                    fetch_outcome 1 15 "USD" w = Replied body
                    /\ truthy body = false)).
Proof.
  split; [|split; [|split; [|split]]].
  - intros start limit convert Hfail.
    destruct (fetch_failed_mock _ _ _ _ Hfail) as (msg & w' & -> & _ & _).
    do 3 eexists. split; [reflexivity|]. repeat split.
  - intros start limit convert body. apply fetch_replied.
  - intros iterations sleep_interval i Hfail.
    unfold iteration, sleep_messages, bind, print at 1.
    set (w1 := with_stdout _ w).
    assert (Hfail1 : failed (fetch_outcome 1 15 "USD" w1) = true) by exact Hfail.
    destruct (fetch_failed_mock _ _ _ _ Hfail1) as (msg & w2 & -> & Hout2 & Hdf2).
    set (z := fun k => normal_draws w1 (k + drawn w1)).
    assert (Ht : truthy (mock_listing z) = true) by reflexivity.
    rewrite Ht.
    destruct (mock_listing_frame z w2) as (P & HP & HlenP & [_ HtsP] & _).
    rewrite HP.
    assert (EP : empty P = false).
    { unfold empty. unfold len in HlenP.
      destruct (rows P) as [|r rs] eqn:Hrows; [discriminate|].
      specialize (HtsP ltac:(discriminate)). unfold has_column in HtsP.
      destruct (columns P); [discriminate|reflexivity]. }
    unfold append_data, bind, get_df, set_df, ret, print, sleep.
    rewrite EP, HlenP.
    destruct (empty (df (with_ticks (S (ticks w2)) w2)));
      destruct (i <? iterations - 1);
      do 3 eexists; (split; [reflexivity|]);
      cbn [stdout with_stdout with_df with_ticks];
      rewrite Hout2; unfold w1; cbn [stdout with_stdout];
      rewrite <- !app_assoc; reflexivity.
  - intros iterations sleep_interval i body Hrep Hfalsy.
    unfold iteration, sleep_messages, bind, print at 1.
    set (w1 := with_stdout _ w).
    assert (Hrep1 : fetch_outcome 1 15 "USD" w1 = Replied body) by exact Hrep.
    rewrite (fetch_replied _ _ _ _ _ Hrep1), Hfalsy.
    unfold print, sleep, ret.
    destruct (i <? iterations - 1);
      eexists; (split; [reflexivity|]); split; try reflexivity;
      cbn [stdout with_stdout with_requests w1]; unfold w1;
      cbn [stdout with_stdout with_requests];
      rewrite <- !app_assoc; reflexivity.
  - intros iterations sleep_interval i.
    pose proof (iteration_lines iterations sleep_interval i w) as Hlines.
    cbv zeta in Hlines.
    pose proof (failure_line_apart iterations sleep_interval i) as Hapart.
    destruct (fetch_outcome 1 15 "USD" w) as [body|e|e].
    + destruct (truthy body) eqn:Ht.
      * destruct Hlines as (lines & E & Hl). eexists. split; [exact E|]. split.
        -- intros Hin. exfalso.
           destruct Hl as [->|(processed & total & ->)].
           ++ apply (Hapart "" 0 0). cbn [app In] in *.
              destruct Hin as [Hin|[]]. now left.
           ++ apply (Hapart "" processed total). cbn [app In] in *.
              destruct Hin as [Hin|Hin]; [now left|now right; right].
        -- intros (body' & [= <-] & Hf). congruence.
      * eexists. split; [exact Hlines|]. split; [eauto|].
        intros _. unfold failure_messages. cbn [app In]. right. now left.
    + destruct Hlines as (total & E). eexists. split; [exact E|]. split.
      * intros Hin. now contradiction (Hapart e 3 total).
      * intros (body & Hb & _). discriminate Hb.
    + destruct Hlines as (total & E). eexists. split; [exact E|]. split.
      * intros Hin. now contradiction (Hapart e 3 total).
      * intros (body & Hb & _). discriminate Hb.
Qed.

Lemma fetch_returns_witness :
  (exists d entries w',
      fetch_crypto_data 1 15 "USD" offline = (Ok (JDict d), w')
      /\ Dict.get "data" d = Some (JList entries)
      /\ length entries = 3
      /\ truthy (JDict d) = true /\ py_contains "data" (JDict d) = Ok true)
  /\ fetch_crypto_data 1 15 "USD" answering_null
     = (Ok JNull, with_requests 1 answering_null)
  /\ (exists w' msg (total : nat),
        iteration 3 2 0 offline = (Ok tt, w')
        /\ stdout w'
           = [] ++ ["Iteration " +:+ pretty (0 + 1) +:+ "/" +:+ pretty 3;
                    msg;
                    "  - Collected data for 3 cryptocurrencies";
                    "  - Total dataset size: " +:+ pretty total +:+ " records"]
                ++ sleep_messages 3 2 0)
  /\ (exists w',
        iteration 3 2 0 answering_null = (Ok tt, w')
        /\ df w' = DataFrame_new
        /\ stdout w'
           = [] ++ ["Iteration " +:+ pretty (0 + 1) +:+ "/" +:+ pretty 3;
                    "  - Failed to collect data"]
                ++ sleep_messages 3 2 0).
Proof.
  split; [|split; [|split]].
  - apply (proj1 (fetch_returns offline) 1%Z 15%Z "USD"). reflexivity.
  - apply (proj1 (proj2 (fetch_returns answering_null)) 1%Z 15%Z "USD" JNull).
    reflexivity.
  - apply (proj1 (proj2 (proj2 (fetch_returns offline))) 3 2 0). reflexivity.
  - apply (proj1 (proj2 (proj2 (proj2 (fetch_returns answering_null)))) 3 2 0 JNull);
      reflexivity.
Defined.

(** ** What every collection run keeps well formed *)

(** X5: whatever the requests of a collection run meet, and whether the
    run ends normally or with an exception, it leaves a dataset in which
    every row has a cell for every label and no label occurs twice, if
    it started from such a dataset. *)
Theorem collection_keeps_well_formed (w : World) (iterations sleep_interval : nat) :
  well_formed (df w) ->
  well_formed (df (snd (run_data_collection iterations sleep_interval w))).
Proof.
  apply (run_data_collection_invariant (fun w => well_formed (df w))).
  - intros o w0 Hw0. exact Hw0.
  - intros i w0 Hw0.
    destruct (iteration_dataset iterations sleep_interval i w0)
      as [_ [[-> _]|(dn & Hdn & _ & ->)]]; [assumption|].
    rewrite append_data_df.
    destruct (empty _); [assumption|].
    destruct (empty (df w0)).
    + now apply well_formed_set_column.
    + apply well_formed_concat, Hw0.
Qed.

Lemma collection_keeps_well_formed_witness :
  well_formed (df (snd (run_data_collection 2 0 offline))).
Proof.
  apply (collection_keeps_well_formed offline 2 0).
  split; [constructor|apply NoDup_nil_2].
Defined.

Lemma lex_leb_trans a :
  forall b c, lex_leb a b = true -> lex_leb b c = true -> lex_leb a c = true.
Proof.
  induction a as [|x a IH]; intros [|y b] [|z c]; simpl; try easy.
  intros Hab Hbc.
  apply orb_true_iff in Hab. apply orb_true_iff in Hbc. apply orb_true_iff.
  destruct Hab as [Hxy|Hxy], Hbc as [Hyz|Hyz].
  - left. apply N.ltb_lt. apply N.ltb_lt in Hxy, Hyz. lia.
  - apply andb_true_iff in Hyz as [Hyz _]. apply N.eqb_eq in Hyz. subst z.
    now left.
  - apply andb_true_iff in Hxy as [Hxy _]. apply N.eqb_eq in Hxy. subst y.
    now left.
  - apply andb_true_iff in Hxy as [Hxy Hab]. apply andb_true_iff in Hyz as [Hyz Hbc].
    apply N.eqb_eq in Hxy, Hyz. subst y z. right.
    rewrite N.eqb_refl. simpl. eapply IH; eassumption.
Qed.

Lemma ts_le_trans a b c : ts_le a b -> ts_le b c -> ts_le a c.
Proof. unfold ts_le, ts_leb. apply lex_leb_trans. Qed.

Lemma nondecreasing_repeat t k : nondecreasing (repeat t k) = true.
Proof.
  induction k as [|k IH]; [reflexivity|].
  cbn [repeat]. destruct k as [|k]; [reflexivity|].
  cbn [repeat nondecreasing] in *. now rewrite ts_leb_refl, IH.
Qed.

Lemma nondecreasing_app_repeat ts t k :
  nondecreasing ts = true -> Forall (fun x => ts_le x t) ts ->
  nondecreasing (ts ++ repeat t k) = true.
Proof.
  induction ts as [|x ts IH]; intros Hs Hb; [apply nondecreasing_repeat|].
  apply Forall_cons in Hb as [Hx Hb].
  destruct ts as [|y ts].
  - cbn [app]. destruct k as [|k]; [reflexivity|].
    change (nondecreasing (x :: repeat t (S k)))
      with (ts_leb x t && nondecreasing (repeat t (S k))).
    now rewrite Hx, nondecreasing_repeat.
  - change (nondecreasing ((x :: y :: ts) ++ repeat t k))
      with (ts_leb x y && nondecreasing ((y :: ts) ++ repeat t k)).
    change (nondecreasing (x :: y :: ts))
      with (ts_leb x y && nondecreasing (y :: ts)) in Hs.
    apply andb_true_iff in Hs as [Hxy Hs]. now rewrite Hxy, IH.
Qed.

Lemma Forall_repeat {A} (P : A -> Prop) x k : P x -> Forall P (repeat x k).
Proof. intros Hx. induction k; simpl; constructor; auto. Qed.

(** Appending a batch stamped with the reading [now] keeps a dataset
    whose stamps are in order and not later than [now] in order, with
    stamps not later than any [later] reading. *)
Lemma chronological_append D df_new now later :
  ts_le now later ->
  chronological D now ->
  well_formed df_new ->
  chronological
    (let P := set_column "timestamp" (VTime now) df_new in
     if empty P then D else if empty D then P else concat D P)
    later.
Proof.
  intros Hlater [Hcoll (ts & Hts & Hsorted & Hbound)] [Hrect _].
  set (P := set_column "timestamp" (VTime now) df_new). cbv zeta.
  assert (Hbound' : Forall (fun t => ts_le t later) ts).
  { eapply Forall_impl; [exact Hbound|]. intros t Ht. simpl in Ht.
    eapply ts_le_trans; eassumption. }
  assert (HP : collected P).
  { split; [now apply rectangular_set_column|].
    intros _. apply has_column_set_column. }
  assert (HcolP : column "timestamp" P = repeat (VTime now) (len df_new))
    by now apply column_set_column.
  destruct (empty P) eqn:EP.
  - split; [assumption|]. exists ts. auto.
  - destruct (empty D) eqn:ED.
    + split; [assumption|]. exists (repeat now (len df_new)).
      rewrite HcolP, timestamps_of_repeat.
      split; [reflexivity|]. split; [apply nondecreasing_repeat|].
      now apply Forall_repeat.
    + split.
      * destruct Hcoll as [HrD HtsD]. split; [apply rectangular_concat|].
        intros _. apply has_column_concat_l, HtsD.
        intros Hnil. unfold empty in ED. rewrite Hnil in ED.
        simpl in ED. now rewrite orb_true_r in ED.
      * exists (ts ++ repeat now (len df_new)).
        rewrite column_concat, timestamps_of_app, Hts, HcolP, timestamps_of_repeat.
        split; [reflexivity|].
        split; [now apply nondecreasing_app_repeat|].
        apply Forall_app. split; [assumption|].
        now apply Forall_repeat.
Qed.

(** X6: if the clock never goes back, a collection run of any length
    keeps the dataset in the order of time, whatever its requests meet
    and whether it ends normally or with an exception: the collection
    timestamps never decrease from a row to the next, and none is later
    than the next reading of the clock. *)
Theorem collection_stays_chronological (w : World)
    (iterations sleep_interval : nat) :
  (forall i, ts_le (clock w i) (clock w (S i))) ->
  chronological (df w) (clock w (ticks w)) ->
  let w' := snd (run_data_collection iterations sleep_interval w) in
  chronological (df w') (clock w' (ticks w')).
Proof.
  intros Hmono Hw.
  enough (H : clock (snd (run_data_collection iterations sleep_interval w)) = clock w
              /\ chronological
                   (df (snd (run_data_collection iterations sleep_interval w)))
                   (clock w (ticks (snd (run_data_collection iterations sleep_interval w)))))
    by (destruct H as [Hc H]; cbv zeta; now rewrite Hc).
  apply (run_data_collection_invariant
           (fun w' => clock w' = clock w
                      /\ chronological (df w') (clock w (ticks w')))).
  - intros o w0 Hw0. exact Hw0.
  - intros i w0 [Hclk Hw0].
    destruct (iteration_dataset iterations sleep_interval i w0)
      as [Hc [[-> ->]|(dn & Hdn & -> & ->)]].
    + split; [congruence|assumption].
    + split; [congruence|]. rewrite append_data_df, Hclk.
      apply chronological_append; auto.
  - split; [reflexivity|assumption].
Qed.

Lemma collection_stays_chronological_witness :
  chronological (df (snd (run_data_collection 2 0 offline)))
    (clock (snd (run_data_collection 2 0 offline))
       (ticks (snd (run_data_collection 2 0 offline)))).
Proof.
  apply (collection_stays_chronological offline 2 0).
  - intros i. apply sample_clock_monotone.
  - split; [apply collected_new|]. exists []. repeat split. constructor.
Defined.

(** X21: a collection run never touches the file system, whatever its
    requests meet and whether it ends normally or with an exception:
    the files and the working directory are as before, and so is the
    address it sends its requests to. What it collects is in memory
    only. *)
Theorem collection_writes_no_file (w : World) (iterations sleep_interval : nat) :
  let w' := snd (run_data_collection iterations sleep_interval w) in
  files w' = files w /\ cwd w' = cwd w /\ base_url w' = base_url w.
Proof.
  cbv zeta.
  apply (run_data_collection_invariant
           (fun w' => files w' = files w /\ cwd w' = cwd w /\ base_url w' = base_url w)).
  - intros o w0 Hw0. exact Hw0.
  - intros i w0 (Hf & Hc & Hu). rewrite iteration_unfold.
    destruct (fetch_cases 1 15 "USD"
                (with_stdout (stdout w0 ++ [iteration_header iterations i]) w0))
      as (body & w2 & -> & _ & Hf2 & Hc2 & _ & Hu2 & _).
    world_fields.
    destruct (truthy body); [|cbn [snd]; world_fields; repeat split; congruence].
    destruct (process_data_cases body w2) as [[e E]|[E|(entries & dn & _ & _ & E)]];
      rewrite E; cbn [snd]; world_fields; try (repeat split; congruence).
    + unfold append_data. cbn [empty DataFrame_new columns rows length Nat.eqb orb].
      unfold ret. cbn [snd]. repeat split; congruence.
    + unfold append_data, bind, get_df, set_df, ret.
      destruct (empty _); [|destruct (empty _)]; cbn [snd]; world_fields;
        repeat split; congruence.
  - repeat split.
Qed.

(** ** What a collection run adds up to *)

Lemma collected_not_empty d : collected d -> len d <> 0 -> empty d = false.
Proof.
  intros [_ Hts] Hlen. unfold empty, len in *.
  destruct (rows d) as [|r rs]; [contradiction|].
  specialize (Hts ltac:(discriminate)). unfold has_column in Hts.
  destruct (columns d); [discriminate|reflexivity].
Qed.

(** Appending a batch to a dataset, both of them frames as a run builds
    them: the rows add up and the stamps follow each other. *)
Lemma append_collected B w :
  collected (df w) -> collected B ->
  let w' := snd (append_data B w) in
  collected (df w')
  /\ len (df w') = len (df w) + len B
  /\ column "timestamp" (df w') = column "timestamp" (df w) ++ column "timestamp" B.
Proof.
  intros HD HB. cbv zeta. rewrite append_data_df.
  destruct (empty B) eqn:EB.
  - pose proof (collected_empty B HB EB) as Hrows.
    unfold len at 3, column at 3. rewrite Hrows. simpl.
    now rewrite Nat.add_0_r, app_nil_r.
  - destruct (empty (df w)) eqn:ED.
    + pose proof (collected_empty _ HD ED) as Hrows.
      unfold len at 2, column at 2. rewrite Hrows. simpl. auto.
    + rewrite len_concat, column_concat.
      split; [|auto]. destruct HD as [Hrect Hts].
      split; [apply rectangular_concat|]. intros _.
      apply has_column_concat_l, Hts. intros Hnil.
      unfold empty in ED. rewrite Hnil in ED. simpl in ED.
      now rewrite orb_true_r in ED.
Qed.

Lemma append_collected_columns B w :
  collected (df w) -> collected B ->
  forall c, column c (df (snd (append_data B w))) = column c (df w) ++ column c B.
Proof.
  intros HD HB c. rewrite append_data_df.
  destruct (empty B) eqn:EB.
  - unfold column at 3. rewrite (collected_empty B HB EB). simpl.
    now rewrite app_nil_r.
  - destruct (empty (df w)) eqn:ED.
    + unfold column at 2. now rewrite (collected_empty _ HD ED).
    + apply column_concat.
Qed.

(** One iteration whose request is answered with [K] records, or fails
    and falls back to the three mock records, adds as many rows, stamped
    with the one reading of the clock it makes. *)
Lemma iteration_delivers K iterations sleep_interval i w :
  delivers K (outcome_after 0 w) ->
  collected (df w) ->
  exists w',
    iteration iterations sleep_interval i w = (Ok tt, w')
    /\ collected (df w')
    /\ len (df w') = len (df w) + K
    /\ column "timestamp" (df w')
       = column "timestamp" (df w) ++ repeat (VTime (clock w (ticks w))) K
    /\ http w' = http w /\ base_url w' = base_url w /\ clock w' = clock w
    /\ requests w' = S (requests w) /\ ticks w' = S (ticks w).
Proof.
  intros Hdel Hcoll. rewrite iteration_unfold.
  set (w1 := with_stdout (stdout w ++ [iteration_header iterations i]) w).
  destruct (fetch_cases 1 15 "USD" w1)
    as (body & w2 & -> & Hdf & _ & _ & Hhttp & Hurl & Hclk & Htick & _ & Hreq & Hout).
  assert (Hbody : exists d entries,
             body = JDict d /\ Dict.get "data" d = Some (JList entries)
             /\ length entries = K
             /\ Forall (fun e => is_list e = false) entries).
  { unfold outcome_after in Hdel. rewrite Nat.add_0_r in Hdel.
    change (fetch_outcome 1 15 "USD" (with_requests (requests w) w))
      with (fetch_outcome 1 15 "USD" w1) in Hdel.
    destruct Hdel as [(d & entries & Ho & Hget & Hlen & Hent)|[Hfail ->]].
    - rewrite Ho in Hout. destruct Hout as [-> _]. now exists d, entries.
    - destruct (fetch_outcome 1 15 "USD" w1); [discriminate| |];
        destruct Hout as [-> _];
        destruct (mock_listing_shape (fun k => normal_draws w1 (k + drawn w1)))
          as (entries & E & Hlen & Hent & _);
        exists [("data", JList entries)], entries; rewrite E; auto. }
  destruct Hbody as (d & entries & -> & Hget & Hlen & Hent).
  assert (Ht : truthy (JDict d) = true) by (destruct d; [discriminate|reflexivity]).
  rewrite Ht.
  destruct (process_data_array w2 d entries Hget Hent)
    as (P & -> & HlenP & HrectP & HhasP & HcolP).
  cbv zeta.
  set (w3 := with_ticks (S (ticks w2)) w2).
  destruct (append_data_rest P w3) as (_ & Hc4 & Ht4 & _ & Hh4 & Hu4 & Hr4 & _).
  destruct (append_collected P w3) as (Hcoll4 & Hlen4 & Hcol4).
  { unfold w3. world_fields. now rewrite Hdf. }
  { split; auto. }
  eexists. split; [reflexivity|].
  unfold w3, w1 in *. world_fields. split; [exact Hcoll4|].
  rewrite Hlen4, Hcol4, HlenP, HcolP, Hlen, Hdf, Hclk, Htick.
  repeat split; congruence.
Qed.

Lemma outcome_after_next w w' i :
  http w' = http w -> base_url w' = base_url w -> requests w' = S (requests w) ->
  outcome_after i w' = outcome_after (S i) w.
Proof.
  intros Hh Hu Hr. unfold outcome_after, fetch_outcome. world_fields.
  rewrite Hh, Hu, Hr. now replace (S (requests w) + i) with (requests w + S i) by lia.
Qed.

Lemma flat_map_seq_shift {A} (f : nat -> list A) m :
  flat_map f (seq 1 m) = flat_map (fun i => f (S i)) (seq 0 m).
Proof.
  rewrite <- seq_shift, flat_map_concat_map, map_map, <- flat_map_concat_map.
  reflexivity.
Qed.

Lemma loop_delivers iterations sleep_interval m :
  forall a w (k : nat -> nat),
    (forall i, i < m -> delivers (k i) (outcome_after i w)) ->
    collected (df w) ->
    exists w',
      for_each (seq a m) (iteration iterations sleep_interval) w = (Ok tt, w')
      /\ collected (df w')
      /\ len (df w') = len (df w) + list_sum (map k (seq 0 m))
      /\ column "timestamp" (df w')
         = column "timestamp" (df w)
           ++ flat_map (fun i => repeat (VTime (clock w (ticks w + i))) (k i))
                       (seq 0 m)
      /\ requests w' = requests w + m /\ ticks w' = ticks w + m
      /\ http w' = http w /\ base_url w' = base_url w.
Proof.
  induction m as [|m IH]; intros a w k Hout Hcoll.
  - exists w. simpl. rewrite app_nil_r, !Nat.add_0_r. repeat split; auto; apply Hcoll.
  - destruct (iteration_delivers (k 0) iterations sleep_interval a w
                (Hout 0 ltac:(lia)) Hcoll)
      as (w1 & E1 & Hcoll1 & Hlen1 & Hcol1 & Hhttp & Hurl & Hclk & Hreq & Htick).
    destruct (IH (S a) w1 (fun i => k (S i)))
      as (w' & E' & Hcoll' & Hlen' & Hcol' & Hreq' & Htick' & Hhttp' & Hurl');
      [|assumption|].
    { intros i Hi. rewrite (outcome_after_next w w1) by assumption.
      apply Hout. lia. }
    exists w'. split; [|split; [assumption|split; [|split; [|split; [|split]]]]].
    + cbn [seq for_each]. unfold bind at 1. now rewrite E1.
    + rewrite Hlen', Hlen1. unfold list_sum. cbn [seq map fold_right].
      rewrite <- seq_shift, map_map. lia.
    + rewrite Hcol', Hcol1, Hclk, Htick. cbn [seq flat_map].
      rewrite Nat.add_0_r, <- app_assoc, flat_map_seq_shift. f_equal. f_equal.
      apply flat_map_ext. intros i. now rewrite Nat.add_succ_r.
    + lia.
    + lia.
    + split; congruence.
Qed.

(** X7: a collection run of any number of iterations, each of whose
    requests is answered with an array of records or fails, raises
    nothing; it makes one request and one reading of the clock per
    iteration, the dataset grows by the number of records of every
    answer and by three for every failure, and the rows of an iteration
    carry that iteration's reading of the clock. *)
Theorem collection_totals (w : World) (iterations sleep_interval : nat)
    (k : nat -> nat) :
  (forall i, i < iterations -> delivers (k i) (outcome_after i w)) ->
  collected (df w) ->
  exists w',
    run_data_collection iterations sleep_interval w = (Ok tt, w')
    /\ len (df w') = len (df w) + list_sum (map k (seq 0 iterations))
    /\ column "timestamp" (df w')
       = column "timestamp" (df w)
         ++ flat_map (fun i => repeat (VTime (clock w (ticks w + i))) (k i))
                     (seq 0 iterations)
    /\ requests w' = requests w + iterations
    /\ ticks w' = ticks w + iterations.
Proof.
  intros Hout Hcoll.
  unfold run_data_collection, bind, print at 1.
  set (w0 := with_stdout _ w).
  destruct (loop_delivers iterations sleep_interval iterations 0 w0 k)
    as (w1 & E & _ & Hlen & Hcol & Hreq & Htick & _); [exact Hout|exact Hcoll|].
  rewrite E. unfold print. eexists. split; [reflexivity|].
  subst w0. world_fields. auto.
Qed.

Lemma collection_totals_witness :
  exists w',
    run_data_collection 4 1 flaky = (Ok tt, w')
    /\ len (df w') = len (df flaky) + list_sum (map (fun _ => 3) (seq 0 4))
    /\ column "timestamp" (df w')
       = column "timestamp" (df flaky)
         ++ flat_map (fun i => repeat (VTime (clock flaky (ticks flaky + i))) 3)
                     (seq 0 4)
    /\ requests w' = requests flaky + 4
    /\ ticks w' = ticks flaky + 4.
Proof.
  apply (collection_totals flaky 4 1 (fun _ => 3)).
  - intros i Hi. destruct i as [|[|[|[|i]]]]; try lia.
    + left. do 2 eexists. split; [reflexivity|]. split; [reflexivity|].
      split; [reflexivity|]. repeat constructor.
    + right. split; reflexivity.
    + left. do 2 eexists. split; [reflexivity|]. split; [reflexivity|].
      split; [reflexivity|]. repeat constructor.
    + right. split; reflexivity.
  - apply collected_new.
Defined.

Lemma iteration_falsy iterations sleep_interval i w body :
  outcome_after 0 w = Replied body ->
  truthy body = false ->
  iteration iterations sleep_interval i w
  = (Ok tt,
     with_stdout (stdout w ++ failure_messages iterations sleep_interval i)
       (with_requests (S (requests w)) w)).
Proof.
  intros Hout Hfalsy. rewrite iteration_unfold.
  unfold outcome_after in Hout. rewrite Nat.add_0_r in Hout.
  set (w1 := with_stdout (stdout w ++ [iteration_header iterations i]) w).
  assert (Hout1 : fetch_outcome 1 15 "USD" w1 = Replied body) by exact Hout.
  rewrite (fetch_replied _ _ _ _ _ Hout1), Hfalsy.
  unfold w1, failure_messages. world_fields.
  rewrite <- app_assoc. reflexivity.
Qed.

Lemma loop_falsy iterations sleep_interval m :
  forall a w,
    (forall i, i < m ->
       exists body, outcome_after i w = Replied body /\ truthy body = false) ->
    for_each (seq a m) (iteration iterations sleep_interval) w
    = (Ok tt,
       with_stdout
         (stdout w
          ++ flat_map (failure_messages iterations sleep_interval) (seq a m))
         (with_requests (requests w + m) w)).
Proof.
  induction m as [|m IH]; intros a w Hout.
  - simpl. rewrite app_nil_r, Nat.add_0_r. destruct w. reflexivity.
  - destruct (Hout 0 ltac:(lia)) as (body & Hb & Hf).
    cbn [seq for_each flat_map]. unfold bind at 1.
    rewrite (iteration_falsy _ _ _ _ _ Hb Hf).
    rewrite IH.
    + world_fields. rewrite <- app_assoc.
      replace (S (requests w) + m) with (requests w + S m) by lia. reflexivity.
    + intros i Hi. erewrite outcome_after_next; [apply Hout; lia| | |]; reflexivity.
Qed.

(** X8: a collection run whose requests are all answered with falsy
    bodies collects nothing and raises nothing: it makes one request per
    iteration, leaves the dataset, the clock and the random generator
    alone, and prints, between its first and its last line, for every
    iteration its header and the line of the failure, followed by the
    line about sleeping for every iteration except the last. *)
Theorem collection_of_falsy_replies (w : World) (iterations sleep_interval : nat) :
  (forall i, i < iterations ->
     exists body, outcome_after i w = Replied body /\ truthy body = false) ->
  run_data_collection iterations sleep_interval w
  = (Ok tt,
     with_stdout
       (stdout w
        ++ ["Starting automated data collection for " +:+ pretty iterations
            +:+ " iterations..."]
        ++ flat_map (failure_messages iterations sleep_interval) (seq 0 iterations)
        ++ ["Data collection completed!"])
       (with_requests (requests w + iterations) w)).
Proof.
  intros Hout. unfold run_data_collection, bind, print at 1.
  rewrite loop_falsy by exact Hout.
  unfold print. world_fields. rewrite <- !app_assoc. reflexivity.
Qed.

Lemma collection_of_falsy_replies_witness :
  run_data_collection 3 2 answering_null
  = (Ok tt,
     with_stdout
       (stdout answering_null
        ++ ["Starting automated data collection for " +:+ pretty 3
            +:+ " iterations..."]
        ++ flat_map (failure_messages 3 2) (seq 0 3)
        ++ ["Data collection completed!"])
       (with_requests (requests answering_null + 3) answering_null)).
Proof.
  apply (collection_of_falsy_replies answering_null 3 2).
  intros i _. exists JNull. split; reflexivity.
Defined.

Lemma for_each_app {A} (l1 l2 : list A) (body : A -> M unit) w :
  for_each (l1 ++ l2) body w
  = match for_each l1 body w with
    | (Ok _, w1) => for_each l2 body w1
    | (Raise e, w1) => (Raise e, w1)
    end.
Proof.
  revert w. induction l1 as [|x l1 IH]; intros w; [reflexivity|].
  cbn [app for_each]. unfold bind.
  destruct (body x w) as [[[]|e] w1]; [apply IH|reflexivity].
Qed.

Lemma seq_split j n : j < n -> seq 0 n = seq 0 j ++ j :: seq (S j) (n - S j).
Proof.
  intros Hj.
  assert (H : seq 0 (j + S (n - S j)) = seq 0 j ++ j :: seq (S j) (n - S j))
    by (rewrite seq_app; reflexivity).
  now replace (j + S (n - S j)) with n in H by lia.
Qed.

(** An iteration whose body is truthy and refused by [process_data]
    raises what [process_data] raises, after its header was printed and
    its request made. *)
Lemma iteration_raises iterations sleep_interval i w body e :
  outcome_after 0 w = Replied body ->
  truthy body = true ->
  (forall w0, process_data body w0 = (Raise e, w0)) ->
  iteration iterations sleep_interval i w
  = (Raise e,
     with_requests (S (requests w))
       (with_stdout (stdout w ++ [iteration_header iterations i]) w)).
Proof.
  intros Hout Ht Hraise. rewrite iteration_unfold.
  unfold outcome_after in Hout. rewrite Nat.add_0_r in Hout.
  set (w1 := with_stdout (stdout w ++ [iteration_header iterations i]) w).
  assert (Hout1 : fetch_outcome 1 15 "USD" w1 = Replied body) by exact Hout.
  rewrite (fetch_replied _ _ _ _ _ Hout1), Ht, Hraise. reflexivity.
Qed.

Lemma outcome_after_later w w' j :
  http w' = http w -> base_url w' = base_url w -> requests w' = requests w + j ->
  outcome_after 0 w' = outcome_after j w.
Proof.
  intros Hh Hu Hr. unfold outcome_after, fetch_outcome. world_fields.
  now rewrite Hh, Hu, Hr, Nat.add_0_r.
Qed.

(** X20: a body that [process_data] raises on aborts the whole collection
    run. When the first [j] requests are answered with records or fail,
    and the next one is answered with a truthy body on which
    [process_data] raises, [run_data_collection] raises that exception:
    the later iterations are not run, the dataset holds what the first
    [j] iterations collected, and the last line printed is the header of
    the iteration that failed. *)
Theorem collection_aborts (w : World) (iterations sleep_interval j : nat)
    (k : nat -> nat) (body : json) (e : exn) :
  j < iterations ->
  (forall i, i < j -> delivers (k i) (outcome_after i w)) ->
  collected (df w) ->
  outcome_after j w = Replied body ->
  truthy body = true ->
  (forall w0, process_data body w0 = (Raise e, w0)) ->
  exists w' out,
    run_data_collection iterations sleep_interval w = (Raise e, w')
    /\ len (df w') = len (df w) + list_sum (map k (seq 0 j))
    /\ requests w' = requests w + S j
    /\ stdout w' = out ++ [iteration_header iterations j].
Proof.
  intros Hj Hgood Hcoll Hout Ht Hraise.
  unfold run_data_collection, bind, print at 1.
  set (w0 := with_stdout _ w).
  rewrite (seq_split j iterations Hj), for_each_app.
  destruct (loop_delivers iterations sleep_interval j 0 w0 k)
    as (w1 & E & _ & Hlen & _ & Hreq & _ & Hhttp & Hurl);
    [exact Hgood|exact Hcoll|].
  rewrite E. cbn [for_each]. unfold bind at 1.
  rewrite (iteration_raises iterations sleep_interval j w1 body e); try assumption.
  - do 2 eexists. split; [reflexivity|]. subst w0. world_fields.
    repeat split; [assumption|lia].
  - rewrite (outcome_after_later w w1 j); try assumption.
Qed.

Lemma collection_aborts_witness :
  exists w' out,
    run_data_collection 3 2 answering_message = (Raise NotImplementedError, w')
    /\ len (df w') = len (df answering_message) + list_sum (map (fun _ => 3) (seq 0 1))
    /\ requests w' = requests answering_message + 2
    /\ stdout w' = out ++ [iteration_header 3 1].
Proof.
  apply (collection_aborts answering_message 3 2 1 (fun _ => 3)
           (JDict [("data", JStr "rate limit exceeded")]) NotImplementedError).
  - lia.
  - intros i Hi. assert (i = 0) as -> by lia.
    left. do 2 eexists. split; [reflexivity|]. split; [reflexivity|].
    split; [reflexivity|]. repeat constructor.
  - apply collected_new.
  - reflexivity.
  - reflexivity.
  - intros w0. reflexivity.
Defined.

(** ** What appending does to the trends *)

Lemma gathered_app met x y :
  gathered met (x ++ y) = gathered (gathered met x) y.
Proof.
  revert met. induction x as [|s x IH]; intros met; [reflexivity|].
  simpl. destruct (col_index s met); apply IH.
Qed.

Lemma distinct_in_order_app x y :
  distinct_in_order (x ++ y)
  = distinct_in_order x
    ++ List.filter (unmet (distinct_in_order x)) (distinct_in_order y).
Proof.
  rewrite <- !gathered_nil, gathered_app, gathered_distinct.
  now rewrite !gathered_nil.
Qed.

Lemma names_of_app cols a b :
  names_of cols (a ++ b) = names_of cols a ++ names_of cols b.
Proof. unfold names_of. apply flat_map_app. Qed.

Lemma asset_of_reindex cols cols' r :
  (In "name" cols -> In "name" cols') ->
  asset_of cols' (reindex cols cols' r) = asset_of cols r.
Proof. intros Hsub. unfold asset_of. now rewrite cell_reindex. Qed.

Lemma names_of_reindex cols cols' rs :
  (In "name" cols -> In "name" cols') ->
  names_of cols' (map (reindex cols cols') rs) = names_of cols rs.
Proof.
  intros Hsub. unfold names_of. rewrite flat_map_concat_map, map_map,
    <- flat_map_concat_map.
  apply flat_map_ext. intros r. now rewrite asset_of_reindex.
Qed.

Lemma numbers_of_app cols c a b :
  numbers_of cols c (a ++ b) = numbers_of cols c a ++ numbers_of cols c b.
Proof. unfold numbers_of. apply flat_map_app. Qed.

Lemma filter_map_commute {A B} (p : B -> bool) (f : A -> B) l :
  List.filter p (map f l) = map f (List.filter (fun x => p (f x)) l).
Proof.
  induction l as [|x l IH]; [reflexivity|]. simpl.
  destruct (p (f x)); simpl; now rewrite IH.
Qed.

(** The observations of an asset among rows laid out under more
    labels. *)
Lemma observations_reindex cols cols' rs s c :
  (forall l, In l cols -> In l cols') ->
  numbers_of cols' c
    (List.filter (fun r => match asset_of cols' r with
                           | Some s' => String.eqb s' s
                           | None => false
                           end) (map (reindex cols cols') rs))
  = numbers_of cols c
      (List.filter (fun r => match asset_of cols r with
                             | Some s' => String.eqb s' s
                             | None => false
                             end) rs).
Proof.
  intros Hsub. rewrite filter_map_commute.
  unfold numbers_of. rewrite flat_map_concat_map, map_map, <- flat_map_concat_map.
  rewrite (filter_ext _ (fun r => match asset_of cols r with
                                  | Some s' => String.eqb s' s
                                  | None => false
                                  end)).
  - apply flat_map_ext. intros r. rewrite cell_reindex; [reflexivity|apply Hsub].
  - intros r. rewrite asset_of_reindex; [reflexivity|apply Hsub].
Qed.

Lemma concat_pools a b :
  asset_names (concat a b)
  = asset_names a ++ List.filter (unmet (asset_names a)) (asset_names b)
  /\ forall s c,
       observations (concat a b) s c = observations a s c ++ observations b s c.
Proof.
  assert (Ha : forall l, In l (columns a) -> In l (union_columns (columns a) (columns b)))
    by (intros l Hl; apply In_union_columns; now left).
  assert (Hb : forall l, In l (columns b) -> In l (union_columns (columns a) (columns b)))
    by (intros l Hl; apply In_union_columns; now right).
  split.
  - unfold asset_names, concat. cbn [columns rows].
    rewrite names_of_app, !names_of_reindex by auto.
    apply distinct_in_order_app.
  - intros s c. unfold observations, rows_of_asset, concat. cbn [columns rows].
    rewrite List.filter_app, numbers_of_app, !observations_reindex by assumption.
    reflexivity.
Qed.

Lemma empty_no_observations d s c :
  empty d = true -> asset_names d = [] /\ observations d s c = [].
Proof.
  unfold empty. intros He. apply orb_true_iff in He as [Hc|Hr].
  - apply Nat.eqb_eq, length_zero_iff_nil in Hc.
    unfold asset_names, observations, rows_of_asset, names_of, asset_of, cell.
    rewrite Hc. cbn [col_index]. split.
    + induction (rows d) as [|r rs IH]; [reflexivity|]. simpl. exact IH.
    + induction (rows d) as [|r rs IH]; [reflexivity|]. simpl. exact IH.
  - apply Nat.eqb_eq, length_zero_iff_nil in Hr.
    unfold asset_names, observations, rows_of_asset, names_of. rewrite Hr.
    split; reflexivity.
Qed.

(** X19: appending a batch pools the records of every asset. Whatever
    the dataset and the batch are, empty or not, after [append_data]
    the assets are those of the dataset in their order, followed by the
    new ones of the batch in theirs; the numbers a field has in the
    records of an asset are those it had in the dataset followed by
    those it has in the batch; and so the trend of the asset is the mean
    over both together, not a mean of the two means. *)
Theorem append_pools_observations (w : World) (B : DataFrame) :
  let d' := df (snd (append_data B w)) in
  asset_names d'
  = asset_names (df w) ++ List.filter (unmet (asset_names (df w))) (asset_names B)
  /\ forall s c,
       observations d' s c = observations (df w) s c ++ observations B s c
       /\ trend_of d' s c
          = arithmetic_mean (observations (df w) s c ++ observations B s c).
Proof.
  cbv zeta. rewrite append_data_df.
  assert (G : forall d,
            asset_names d
            = asset_names (df w)
              ++ List.filter (unmet (asset_names (df w))) (asset_names B)
            /\ (forall s c,
                  observations d s c = observations (df w) s c ++ observations B s c) ->
            asset_names d
            = asset_names (df w)
              ++ List.filter (unmet (asset_names (df w))) (asset_names B)
            /\ forall s c,
                 observations d s c = observations (df w) s c ++ observations B s c
                 /\ trend_of d s c
                    = arithmetic_mean (observations (df w) s c ++ observations B s c)).
  { intros d [Hn Ho]. split; [exact Hn|]. intros s c. split; [apply Ho|].
    unfold trend_of. fold (observations d s c). now rewrite Ho. }
  apply G. clear G.
  destruct (empty B) eqn:EB.
  - split.
    + destruct (empty_no_observations B "" "" EB) as [-> _].
      now rewrite app_nil_r.
    + intros s c. destruct (empty_no_observations B s c EB) as [_ ->].
      now rewrite app_nil_r.
  - destruct (empty (df w)) eqn:ED.
    + split.
      * destruct (empty_no_observations (df w) "" "" ED) as [-> _]. cbn [app].
        symmetry. apply forallb_filter_id. apply forallb_forall. reflexivity.
      * intros s c. destruct (empty_no_observations (df w) s c ED) as [_ ->].
        reflexivity.
    + apply concat_pools.
Qed.

(** ** Files written and read *)

Lemma length_traverse {A B} (f : A -> result B) l ys :
  traverse f l = Ok ys -> length ys = length l.
Proof.
  revert ys. induction l as [|x l IH]; intros ys; simpl.
  - now intros [= <-].
  - destruct (f x); [|discriminate]. destruct (traverse f l); [|discriminate].
    intros [= <-]. simpl. now rewrite (IH _ eq_refl).
Qed.

Lemma len_set_column_values i values d :
  length values = len d -> len (set_column_values i values d) = len d.
Proof.
  intros Hlen. unfold len, set_column_values in *. cbn [rows].
  rewrite length_map, length_combine. lia.
Qed.

Lemma to_datetime_cells cells converted :
  to_datetime cells = Ok converted -> is_datetime_column converted = true.
Proof.
  unfold to_datetime, is_datetime_column. revert converted.
  induction cells as [|v cells IH]; intros converted; simpl.
  - now intros [= <-].
  - destruct (to_datetime_cell v) as [v'|] eqn:Ev; [|discriminate].
    destruct (traverse to_datetime_cell cells) as [vs|]; [|discriminate].
    intros [= <-]. simpl. rewrite (IH _ eq_refl), andb_true_r.
    destruct v; simpl in Ev; try discriminate.
    + now injection Ev as <-.
    + destruct (parse_timestamp s); [|discriminate]. now injection Ev as <-.
    + now injection Ev as <-.
Qed.

Lemma column_set_column_values c i values d :
  col_index c (columns d) = Some i ->
  rectangular d -> length values = len d ->
  column c (set_column_values i values d) = values.
Proof.
  intros Hi Hrect Hlen. unfold column, set_column_values, cell, len in *.
  cbn [columns rows]. rewrite Hi. rewrite map_map.
  destruct (col_index_Some _ _ _ Hi) as [Hlt _].
  unfold rectangular in Hrect. revert values Hlen.
  induction Hrect as [|r rs Hr _ IH]; intros [|v values] Hlen; simpl in *;
    try discriminate; [reflexivity|].
  rewrite nth_list_set_eq by lia. f_equal. apply IH. lia.
Qed.

Section Files.
Context `{PyText}.

(** What [load_from_csv] does with a file that exists. *)
Lemma load_existing w filename grid :
  files w !! absolute (cwd w) filename = Some (File grid) ->
  load_from_csv filename w
  = match read_csv grid with
    | Raise e => (Raise e, w)
    | Ok loaded =>
        match col_index "timestamp" (columns loaded) with
        | None => (Raise (KeyError "timestamp"), with_df loaded w)
        | Some i =>
            match to_datetime (column "timestamp" loaded) with
            | Raise e => (Raise e, with_df loaded w)
            | Ok converted =>
                let d := set_column_values i converted loaded in
                (Ok tt,
                 with_stdout
                   (stdout w
                    ++ ["Data loaded from " +:+ absolute (cwd w) filename;
                        "Dataset shape: (" +:+ pretty (fst (shape d)) +:+ ", "
                        +:+ pretty (snd (shape d)) +:+ ")"])
                   (with_df d w))
            end
        end
    end.
Proof.
  intros Hfile.
  unfold load_from_csv, bind, get_cwd, read_file, lift, set_df, get_df, print.
  rewrite Hfile. destruct (read_csv grid) as [loaded|e]; [|reflexivity].
  world_fields.
  destruct (col_index "timestamp" (columns loaded)) as [i|]; [|reflexivity].
  destruct (to_datetime (column "timestamp" loaded)) as [converted|e];
    [|reflexivity].
  world_fields. cbv zeta. rewrite <- app_assoc. reflexivity.
Qed.

Lemma length_dedup_step st i :
  length (fst (dedup_step st i)) = length (fst st).
Proof.
  destruct st as [this_header counts]. unfold dedup_step.
  destruct (fresh_label _ _ _ _ _ _) as [[col cur_count] counts'].
  cbn [fst]. apply length_list_set.
Qed.

(** The reader gives every field of the first line a label. *)
Lemma length_mangle_header header :
  length (mangle_header header) = length header.
Proof.
  unfold mangle_header.
  assert (Hfold : forall order st,
             length (fst (fold_left dedup_step order st)) = length (fst st)).
  { induction order as [|i order IH]; intros st; [reflexivity|].
    cbn [fold_left]. now rewrite IH, length_dedup_step. }
  rewrite Hfold. cbn [fst]. unfold fill_unnamed.
  now rewrite length_map, length_combine, length_seq, Nat.min_id.
Qed.

Lemma read_csv_shape grid loaded :
  read_csv grid = Ok loaded ->
  exists header lines,
    grid = header :: lines /\ columns loaded = mangle_header header
    /\ len loaded = length lines /\ rectangular loaded.
Proof.
  unfold read_csv. destruct grid as [|header lines]; [discriminate|].
  destruct (match lines with [] => _ | _ => _ end); [discriminate|].
  destruct (existsb _ _); [discriminate|].
  intros [= <-]. exists header, lines. split; [reflexivity|].
  split; [reflexivity|]. split.
  - unfold len. cbn [rows]. now rewrite length_map, length_seq.
  - unfold rectangular. cbn [rows columns]. apply Forall_forall. intros r Hr.
    apply list_elem_of_In, in_map_iff in Hr as (i & <- & _).
    now rewrite !length_map, length_seq, length_mangle_header.
Qed.

(** X9: what [save_to_csv] does to the world. Whatever happens, the
    dataset in memory and every path but the target stay as they are.
    On an empty dataset it writes nothing and prints that there is
    nothing to save. Otherwise, when the directory of the target does
    not exist it raises [OSError], and when the target is a directory it
    raises [IsADirectoryError], having written and printed nothing; and
    when the target can be written it returns normally, prints where the
    data went, and the file holds the labels as its first line and one
    line per record, each with as many fields as there are labels. *)
Theorem save_to_csv_effect (w : World) (filename : string) :
  let path := absolute (cwd w) filename in
  let w' := snd (save_to_csv filename w) in
  df w' = df w
  /\ (forall p, p <> path -> files w' !! p = files w !! p)
  /\ (empty (df w) = true ->
      fst (save_to_csv filename w) = Ok tt
      /\ files w' = files w /\ stdout w' = stdout w ++ ["No data to save"])
  /\ (empty (df w) = false ->
      files w !! absolute (cwd w) (str_parent filename) <> Some Dir ->
      save_to_csv filename w
      = (Raise (OSError ("Cannot save file into a non-existent directory: '"
                         +:+ str_parent filename +:+ "'")), w))
  /\ (empty (df w) = false ->
      files w !! absolute (cwd w) (str_parent filename) = Some Dir ->
      files w !! path = Some Dir ->
      save_to_csv filename w = (Raise (IsADirectoryError (str_path filename)), w))
  /\ (empty (df w) = false ->
      can_write filename w = true ->
      fst (save_to_csv filename w) = Ok tt
      /\ stdout w' = stdout w ++ ["Data saved to " +:+ path]
      /\ exists lines,
           files w' !! path = Some (File (columns (df w) :: lines))
           /\ length lines = len (df w)
           /\ Forall (fun l => length l = length (columns (df w))) lines).
Proof.
  cbv zeta. destruct (empty (df w)) eqn:He.
  - assert (Es : save_to_csv filename w
                 = (Ok tt, with_stdout (stdout w ++ ["No data to save"]) w))
      by (unfold save_to_csv, bind, get_df, print; now rewrite He).
    rewrite Es. repeat split; discriminate.
  - rewrite (save_nonempty _ _ He). unfold can_write.
    destruct (files w !! absolute (cwd w) (str_parent filename)) as [[|]|] eqn:Ep;
      [|destruct (files w !! absolute (cwd w) filename) as [[|]|] eqn:Et|];
      cbn [fst snd]; world_fields;
      repeat split; try discriminate; try congruence;
      try (intros p Hp; now apply lookup_insert_ne).
    all: eexists; (split; [apply lookup_insert_eq|]); split;
      [unfold len; now rewrite length_map
      |apply Forall_forall; intros l Hl; apply list_elem_of_In in Hl;
       apply in_map_iff in Hl as (r & <- & _);
       now rewrite length_map, length_seq].
Qed.

(** X10: how loading an existing file fails. A file without any line
    raises [EmptyDataError], and any error of the reader leaves the
    dataset in memory as it was; but a file that is read and has no
    column ['timestamp'] raises [KeyError], and one whose timestamps
    cannot be converted raises the error of the conversion, after the
    dataset in memory has been replaced by what was read: the previous
    dataset is lost although the call failed. *)
Theorem load_failures (w : World) (filename : string) (grid : list (list string)) :
  files w !! absolute (cwd w) filename = Some (File grid) ->
  (grid = [] -> load_from_csv filename w = (Raise EmptyDataError, w))
  /\ (forall e, read_csv grid = Raise e ->
        load_from_csv filename w = (Raise e, w))
  /\ (forall loaded,
        read_csv grid = Ok loaded ->
        has_column "timestamp" loaded = false ->
        load_from_csv filename w
        = (Raise (KeyError "timestamp"), with_df loaded w))
  /\ (forall loaded e,
        read_csv grid = Ok loaded ->
        has_column "timestamp" loaded = true ->
        to_datetime (column "timestamp" loaded) = Raise e ->
        load_from_csv filename w = (Raise e, with_df loaded w)).
Proof.
  intros Hfile. rewrite (load_existing _ _ _ Hfile).
  split; [|split; [|split]].
  - now intros ->.
  - now intros e ->.
  - intros loaded -> Hno. unfold has_column in Hno.
    now destruct (col_index "timestamp" (columns loaded)).
  - intros loaded e -> Hhas Hconv. unfold has_column in Hhas.
    destruct (col_index "timestamp" (columns loaded)); [|discriminate].
    now rewrite Hconv.
Qed.


(** X12: when [load_from_csv] finds the file and returns normally, the
    dataset in memory has a label for every field of the file's first
    line, and exactly the labels of that line when they are distinct and
    not empty (the reader renames the others); it has one record per
    further line, and a column ['timestamp'] holding nothing but
    timestamps and missing cells. *)
Theorem load_postcondition (w w' : World) (filename : string)
    (grid : list (list string)) :
  files w !! absolute (cwd w) filename = Some (File grid) ->
  load_from_csv filename w = (Ok tt, w') ->
  exists header lines,
    grid = header :: lines
    /\ length (columns (df w')) = length header
    /\ (NoDup header -> ~ In "" header -> columns (df w') = header)
    /\ len (df w') = length lines
    /\ has_column "timestamp" (df w') = true
    /\ is_datetime_column (column "timestamp" (df w')) = true.
Proof.
  intros Hfile. rewrite (load_existing _ _ _ Hfile).
  destruct (read_csv grid) as [loaded|] eqn:Er; [|discriminate].
  destruct (read_csv_shape _ _ Er) as (header & lines & -> & Hcols & Hlen & Hrect).
  destruct (col_index "timestamp" (columns loaded)) as [i|] eqn:Ei; [|discriminate].
  destruct (to_datetime (column "timestamp" loaded)) as [converted|] eqn:Ec;
    [|discriminate].
  cbv zeta. intros [= <-]. world_fields.
  assert (Hlc : length converted = len loaded).
  { rewrite (length_traverse _ _ _ Ec). unfold column, len. now rewrite length_map. }
  exists header, lines. split; [reflexivity|].
  assert (Hc : columns (set_column_values i converted loaded)
               = mangle_header header) by exact Hcols.
  rewrite Hc. split; [apply length_mangle_header|]. split.
  { intros Hnd Hne. apply mangle_header_given.
    - now apply no_empty_label.
    - now apply has_duplicate_NoDup. }
  split; [now rewrite len_set_column_values|]. split.
  - unfold has_column, set_column_values. cbn [columns]. now rewrite Ei.
  - rewrite column_set_column_values; try assumption.
    eapply to_datetime_cells. exact Ec.
Qed.

End Files.

Lemma save_to_csv_effect_witness :
  save_to_csv "no/such/dir/out.csv" collected_once
  = (Raise (OSError
              "Cannot save file into a non-existent directory: 'no/such/dir'"),
     collected_once)
  /\ save_to_csv "" collected_once
     = (Raise (IsADirectoryError "."), collected_once)
  /\ fst (save_to_csv "crypto_data.csv" collected_once) = Ok tt.
Proof.
  destruct (save_to_csv_effect collected_once "no/such/dir/out.csv")
    as (_ & _ & _ & Hmissing & _).
  destruct (save_to_csv_effect collected_once "") as (_ & _ & _ & _ & Hdir & _).
  destruct (save_to_csv_effect collected_once "crypto_data.csv")
    as (_ & _ & _ & _ & _ & Hok).
  split; [|split].
  - apply Hmissing; [vm_compute; reflexivity|vm_compute; discriminate].
  - apply Hdir; vm_compute; reflexivity.
  - apply Hok; vm_compute; reflexivity.
Defined.

Lemma load_failures_witness :
  load_from_csv "prices.csv" with_foreign_file
  = (Raise (KeyError "timestamp"),
     with_df (mkDataFrame ["name"; "price"]
                [[VStr "Bitcoin"; VNum 45000]; [VStr "Ethereum"; VNum 3200]])
       with_foreign_file).
Proof.
  apply (proj1 (proj2 (proj2 (load_failures with_foreign_file "prices.csv"
                                [["name"; "price"]; ["Bitcoin"; "45000"];
                                 ["Ethereum"; "3200"]] eq_refl)))).
  - vm_compute. reflexivity.
  - reflexivity.
Defined.


(** A list does not come back from a file as a list: it is read as the
    text that was written for it. *)
Example tags_read_back :
  column "tags"
    (df (snd ((save_to_csv "tagged.csv" ;;; load_from_csv "tagged.csv") tagged)))
  = [VStr "['mineable', 'pow']"].
Proof. vm_compute. reflexivity. Qed.

Lemma load_postcondition_witness :
  exists header lines,
    to_csv tagged_batch = header :: lines
    /\ length (columns (df (snd (load_from_csv "tagged.csv" with_tagged_file))))
       = length header
    /\ (NoDup header -> ~ In "" header ->
        columns (df (snd (load_from_csv "tagged.csv" with_tagged_file))) = header)
    /\ len (df (snd (load_from_csv "tagged.csv" with_tagged_file))) = length lines
    /\ has_column "timestamp"
         (df (snd (load_from_csv "tagged.csv" with_tagged_file))) = true
    /\ is_datetime_column
         (column "timestamp"
            (df (snd (load_from_csv "tagged.csv" with_tagged_file)))) = true.
Proof.
  apply (load_postcondition with_tagged_file _ "tagged.csv" (to_csv tagged_batch)).
  - vm_compute. reflexivity.
  - vm_compute. reflexivity.
Defined.

(** ** Errors of the trend analysis *)






(** ** The summary of a dataset *)

Lemma lex_leb_total a :
  forall b, length a = length b -> lex_leb a b = false -> lex_leb b a = true.
Proof.
  induction a as [|x a IH]; intros [|y b]; simpl; try easy.
  intros [= Hlen] H. apply orb_false_iff in H as [Hlt H].
  apply N.ltb_ge in Hlt. apply andb_false_iff in H as [Hne|Hrest].
  - apply N.eqb_neq in Hne. apply orb_true_iff. left. apply N.ltb_lt. lia.
  - destruct (N.eqb_spec y x) as [->|Hne].
    + rewrite (IH b Hlen Hrest). now rewrite orb_true_r.
    + apply orb_true_iff. left. apply N.ltb_lt. lia.
Qed.

Lemma ts_leb_total a b : ts_leb a b = false -> ts_leb b a = true.
Proof. unfold ts_leb. now apply lex_leb_total. Qed.

Lemma ts_min_le a b : ts_le (ts_min a b) a /\ ts_le (ts_min a b) b.
Proof.
  unfold ts_min, ts_le. destruct (ts_leb a b) eqn:E.
  - split; [apply ts_leb_refl|assumption].
  - split; [now apply ts_leb_total|apply ts_leb_refl].
Qed.

Lemma ts_max_ge a b : ts_le a (ts_max a b) /\ ts_le b (ts_max a b).
Proof.
  unfold ts_max, ts_le. destruct (ts_leb a b) eqn:E.
  - split; [assumption|apply ts_leb_refl].
  - split; [apply ts_leb_refl|now apply ts_leb_total].
Qed.

Lemma fold_min_spec ts : forall t0,
  In (fold_left ts_min ts t0) (t0 :: ts)
  /\ forall t, In t (t0 :: ts) -> ts_le (fold_left ts_min ts t0) t.
Proof.
  induction ts as [|x ts IH]; intros t0; cbn [fold_left].
  - split; [now left|]. intros t [<-|[]]. apply ts_leb_refl.
  - destruct (IH (ts_min t0 x)) as [Hin Hle]. split.
    + destruct Hin as [Hin|Hin]; [|right; now right].
      rewrite <- Hin. unfold ts_min. destruct (ts_leb t0 x); [now left|right; now left].
    + pose proof (Hle _ (or_introl eq_refl)) as Hm.
      destruct (ts_min_le t0 x) as [H0 Hx].
      intros t [<-|[<-|Ht]].
      * eapply ts_le_trans; eassumption.
      * eapply ts_le_trans; eassumption.
      * apply Hle. now right.
Qed.

Lemma fold_max_spec ts : forall t0,
  In (fold_left ts_max ts t0) (t0 :: ts)
  /\ forall t, In t (t0 :: ts) -> ts_le t (fold_left ts_max ts t0).
Proof.
  induction ts as [|x ts IH]; intros t0; cbn [fold_left].
  - split; [now left|]. intros t [<-|[]]. apply ts_leb_refl.
  - destruct (IH (ts_max t0 x)) as [Hin Hle]. split.
    + destruct Hin as [Hin|Hin]; [|right; now right].
      rewrite <- Hin. unfold ts_max. destruct (ts_leb t0 x); [right; now left|now left].
    + pose proof (Hle _ (or_introl eq_refl)) as Hm.
      destruct (ts_max_ge t0 x) as [H0 Hx].
      intros t [<-|[<-|Ht]].
      * eapply ts_le_trans; eassumption.
      * eapply ts_le_trans; eassumption.
      * apply Hle. now right.
Qed.

Lemma column_absent c d :
  has_column c d = false -> column c d = repeat VNA (len d).
Proof.
  unfold has_column, column, len, cell.
  destruct (col_index c (columns d)); [discriminate|]. intros _.
  induction (rows d) as [|r rs IH]; simpl; [reflexivity|now rewrite IH].
Qed.

Lemma timestamps_of_missing k : timestamps_of (repeat VNA k) = Some [].
Proof. induction k; simpl; auto. Qed.

Lemma asset_names_absent d : has_column "name" d = false -> asset_names d = [].
Proof.
  intros Hno. unfold asset_names. rewrite <- texts_of_name_column.
  rewrite (column_absent _ _ Hno).
  induction (len d) as [|k IH]; simpl; auto.
Qed.

Lemma count_code_rows d names g s :
  col_index s names = Some g ->
  count_code g (map (code_of names) (column "name" d))
  = length (rows_of_asset d s).
Proof.
  intros Hs. unfold count_code, rows_of_asset, column.
  induction (rows d) as [|r rs IH]; [reflexivity|].
  cbn [map List.filter]. unfold asset_of at 1.
  destruct (cell (columns d) r "name") as [| | |s'| |]; cbn [code_of]; try exact IH.
  assert (E : match col_index s' names with
              | Some g' => g' =? g
              | None => false
              end = String.eqb s' s).
  { destruct (String.eqb_spec s' s) as [->|Hne].
    - rewrite Hs. apply Nat.eqb_refl.
    - destruct (col_index s' names) as [g'|] eqn:E'; [|reflexivity].
      apply Nat.eqb_neq. intros ->.
      apply col_index_Some in E' as [_ E']. apply col_index_Some in Hs as [_ Hs].
      congruence. }
  rewrite E. destruct (String.eqb s' s); simpl; now rewrite IH.
Qed.

Lemma map_combine_seq {A B} (F : nat -> A -> B) (G : A -> B) (l : list A) (d : A) :
  (forall g, g < length l -> F g (nth g l d) = G (nth g l d)) ->
  map (fun gu => F (fst gu) (snd gu)) (combine (seq 0 (length l)) l) = map G l.
Proof.
  intros HFG.
  assert (Gen : forall a l',
            (forall g, g < length l' -> F (a + g) (nth g l' d) = G (nth g l' d)) ->
            map (fun gu => F (fst gu) (snd gu)) (combine (seq a (length l')) l')
            = map G l').
  { intros a l'. revert a. induction l' as [|x l' IH]; intros a H; [reflexivity|].
    cbn [length seq combine map fst snd]. f_equal.
    - specialize (H 0 ltac:(simpl; lia)). now rewrite Nat.add_0_r in H.
    - apply IH. intros g Hg. specialize (H (S g) ltac:(simpl; lia)).
      now rewrite Nat.add_succ_r in H. }
  apply Gen. exact HFG.
Qed.

Lemma value_counts_names d :
  forallb is_text_or_na (column "name" d) = true ->
  value_counts (column "name" d)
  = Ok (fold_right insert_by_count [] (record_counts d)).
Proof.
  intros Htext. unfold value_counts. rewrite (factorize_name_column _ Htext).
  f_equal. f_equal. unfold record_counts.
  rewrite (map_combine_seq
             (fun g u => (u, count_code g (map (code_of (asset_names d))
                                             (column "name" d))))
             (fun u => (u, match u with
                           | VStr s => length (rows_of_asset d s)
                           | _ => 0
                           end))
             (map VStr (asset_names d)) VNA).
  - now rewrite map_map.
  - rewrite length_map. intros g Hg.
    rewrite (nth_indep _ VNA (VStr "")) by now rewrite length_map.
    rewrite (map_nth VStr). f_equal. apply count_code_rows.
    apply col_index_nth; [apply NoDup_distinct_in_order|assumption].
Qed.

Lemma insert_by_count_perm x l : Permutation (insert_by_count x l) (x :: l).
Proof.
  induction l as [|y l IH]; simpl; [reflexivity|].
  destruct (snd y <=? snd x); [reflexivity|].
  rewrite IH. apply perm_swap.
Qed.

Lemma sorted_counts_perm l : Permutation (fold_right insert_by_count [] l) l.
Proof.
  induction l as [|x l IH]; simpl; [reflexivity|].
  rewrite insert_by_count_perm. now constructor.
Qed.

Lemma insert_by_count_sorted x l :
  StronglySorted by_count l -> StronglySorted by_count (insert_by_count x l).
Proof.
  induction 1 as [|y l Hs IH Hy]; simpl; [repeat constructor|].
  destruct (snd y <=? snd x) eqn:E.
  - apply Nat.leb_le in E. constructor; [now constructor|].
    constructor; [exact E|].
    eapply Forall_impl; [exact Hy|]. unfold by_count. simpl. intros z Hz. lia.
  - apply Nat.leb_gt in E. constructor; [assumption|].
    rewrite insert_by_count_perm. constructor; [unfold by_count; lia|assumption].
Qed.

Lemma sorted_counts_sorted l :
  StronglySorted by_count (fold_right insert_by_count [] l).
Proof.
  induction l as [|x l IH]; simpl; [constructor|now apply insert_by_count_sorted].
Qed.

Lemma StronglySorted_firstn {A} (R : A -> A -> Prop) k l :
  StronglySorted R l -> StronglySorted R (firstn k l).
Proof.
  intros Hs. revert k. induction Hs as [|x l Hs IH Hx]; intros [|k]; simpl;
    try constructor; auto.
  rewrite Forall_forall in *. intros y Hy. apply Hx.
  apply list_elem_of_In. apply list_elem_of_In in Hy.
  rewrite <- (firstn_skipn k l). apply in_or_app. now left.
Qed.

Lemma StronglySorted_split {A} (R : A -> A -> Prop) l1 l2 :
  StronglySorted R (l1 ++ l2) ->
  forall a b, In a l1 -> In b l2 -> R a b.
Proof.
  induction l1 as [|x l1 IH]; simpl; intros Hs a b Ha Hb; [contradiction|].
  apply StronglySorted_inv in Hs as [Hs Hx].
  destruct Ha as [<-|Ha]; [|now apply IH].
  rewrite Forall_forall in Hx. apply Hx, list_elem_of_In, in_or_app. now right.
Qed.

(** The summary of a dataset with names and at least one timestamp. *)
Lemma summary_stats_eq w t0 ts :
  empty (df w) = false ->
  forallb is_text_or_na (column "name" (df w)) = true ->
  timestamps_of (column "timestamp" (df w)) = Some (t0 :: ts) ->
  get_summary_stats w
  = (Ok (Stats (len (df w)) (length (asset_names (df w)))
           (strftime (fold_left ts_min ts t0))
           (strftime (fold_left ts_max ts t0))
           (firstn 5 (fold_right insert_by_count [] (record_counts (df w))))),
     w).
Proof.
  intros Hne Htext Hts.
  unfold get_summary_stats, bind, get_df, lift. rewrite Hne.
  assert (Hhas : has_column "timestamp" (df w) = true).
  { destruct (has_column "timestamp" (df w)) eqn:E; [reflexivity|].
    rewrite (column_absent _ _ E), timestamps_of_missing in Hts. discriminate. }
  rewrite Hhas. unfold extreme_strftime. rewrite Hts.
  destruct (has_column "name" (df w)) eqn:En.
  - unfold nunique. rewrite (factorize_name_column _ Htext), length_map.
    rewrite (value_counts_names _ Htext). reflexivity.
  - unfold record_counts. rewrite (asset_names_absent _ En). reflexivity.
Qed.

(** X14: on a dataset that is not empty, whose names are texts and whose
    column ['timestamp'] holds at least one timestamp, the summary
    reports the number of rows as the total, and as the start and the
    end of the period two timestamps of the dataset such that no
    timestamp of the dataset is earlier than the start or later than the
    end. *)
Theorem summary_period (w : World) (t0 : Timestamp) (ts : list Timestamp) :
  empty (df w) = false ->
  forallb is_text_or_na (column "name" (df w)) = true ->
  timestamps_of (column "timestamp" (df w)) = Some (t0 :: ts) ->
  exists lo hi unique top,
    get_summary_stats w
    = (Ok (Stats (len (df w)) unique (strftime lo) (strftime hi) top), w)
    /\ In lo (t0 :: ts) /\ In hi (t0 :: ts)
    /\ forall t, In t (t0 :: ts) -> ts_le lo t /\ ts_le t hi.
Proof.
  intros Hne Htext Hts. rewrite (summary_stats_eq w t0 ts Hne Htext Hts).
  destruct (fold_min_spec ts t0) as [Hlo Hmin].
  destruct (fold_max_spec ts t0) as [Hhi Hmax].
  do 4 eexists. split; [reflexivity|]. auto.
Qed.

Lemma summary_period_witness :
  exists lo hi unique top,
    get_summary_stats collected_twice
    = (Ok (Stats (len (df collected_twice)) unique (strftime lo) (strftime hi) top),
       collected_twice)
    /\ In lo (sample_clock 0 :: repeat (sample_clock 0) 2 ++ repeat (sample_clock 1) 3)
    /\ In hi (sample_clock 0 :: repeat (sample_clock 0) 2 ++ repeat (sample_clock 1) 3)
    /\ forall t,
         In t (sample_clock 0 :: repeat (sample_clock 0) 2 ++ repeat (sample_clock 1) 3) ->
         ts_le lo t /\ ts_le t hi.
Proof.
  apply (summary_period collected_twice (sample_clock 0)
           (repeat (sample_clock 0) 2 ++ repeat (sample_clock 1) 3));
    vm_compute; reflexivity.
Defined.

(** X15: on such a dataset the summary reports the number of distinct
    names, and as top cryptocurrencies at most five of them, each with
    the number of its records, in the order of decreasing counts; a name
    that is left out has no more records than any name listed. *)
Theorem summary_top (w : World) (t0 : Timestamp) (ts : list Timestamp) :
  empty (df w) = false ->
  forallb is_text_or_na (column "name" (df w)) = true ->
  timestamps_of (column "timestamp" (df w)) = Some (t0 :: ts) ->
  exists start finish top,
    get_summary_stats w
    = (Ok (Stats (len (df w)) (length (asset_names (df w))) start finish top), w)
    /\ length top = Nat.min 5 (length (asset_names (df w)))
    /\ StronglySorted by_count top
    /\ (forall entry, In entry top ->
          exists s, In s (asset_names (df w))
                    /\ entry = (VStr s, length (rows_of_asset (df w) s)))
    /\ (forall s, In s (asset_names (df w)) ->
          In (VStr s, length (rows_of_asset (df w) s)) top
          \/ forall entry, In entry top ->
               length (rows_of_asset (df w) s) <= snd entry).
Proof.
  intros Hne Htext Hts. rewrite (summary_stats_eq w t0 ts Hne Htext Hts).
  set (sorted := fold_right insert_by_count [] (record_counts (df w))).
  assert (Hperm : Permutation sorted (record_counts (df w)))
    by apply sorted_counts_perm.
  assert (Hsorted : StronglySorted by_count sorted) by apply sorted_counts_sorted.
  do 3 eexists. split; [reflexivity|]. split; [|split; [|split]].
  - rewrite length_firstn, (Permutation_length Hperm).
    unfold record_counts. now rewrite length_map.
  - now apply StronglySorted_firstn.
  - intros entry Hin.
    assert (Hin' : In entry (record_counts (df w))).
    { eapply Permutation_in; [exact Hperm|].
      rewrite <- (firstn_skipn 5 sorted). apply in_or_app. now left. }
    unfold record_counts in Hin'. apply in_map_iff in Hin' as (s & <- & Hs). eauto.
  - intros s Hs.
    assert (Hin : In (VStr s, length (rows_of_asset (df w) s)) sorted).
    { eapply Permutation_in; [symmetry; exact Hperm|].
      unfold record_counts.
      apply (in_map (fun s => (VStr s, length (rows_of_asset (df w) s)))), Hs. }
    rewrite <- (firstn_skipn 5 sorted) in Hin, Hsorted.
    apply in_app_or in Hin as [Hin|Hin]; [now left|right].
    intros entry He.
    exact (StronglySorted_split by_count _ _ Hsorted _ _ He Hin).
Qed.

Lemma summary_top_witness :
  exists start finish top,
    get_summary_stats collected_twice
    = (Ok (Stats (len (df collected_twice))
             (length (asset_names (df collected_twice))) start finish top),
       collected_twice)
    /\ length top = Nat.min 5 (length (asset_names (df collected_twice)))
    /\ StronglySorted by_count top
    /\ (forall entry, In entry top ->
          exists s, In s (asset_names (df collected_twice))
                    /\ entry = (VStr s, length (rows_of_asset (df collected_twice) s)))
    /\ (forall s, In s (asset_names (df collected_twice)) ->
          In (VStr s, length (rows_of_asset (df collected_twice) s)) top
          \/ forall entry, In entry top ->
               length (rows_of_asset (df collected_twice) s) <= snd entry).
Proof.
  apply (summary_top collected_twice (sample_clock 0)
           (repeat (sample_clock 0) 2 ++ repeat (sample_clock 1) 3));
    vm_compute; reflexivity.
Defined.

Lemma mock_listing_changes z w period :
  period < 6 ->
  column (nth period trend_columns "")
         (frame_of (fst (process_data (mock_listing z) w)))
  = mock_changes z period.
Proof.
  intros Hp. destruct w.
  destruct period as [|[|[|[|[|[|period]]]]]]; try lia; vm_compute; reflexivity.
Qed.

Lemma mock_change_ext z1 z2 asset period :
  (forall k, z1 k = z2 k) -> mock_change z1 asset period = mock_change z2 asset period.
Proof. intros Hz. unfold mock_change, normal_at. now rewrite Hz. Qed.

Lemma draws_of_next w w1 i k :
  normal_draws w1 = normal_draws w -> drawn w1 = 21 + drawn w ->
  draws_of w1 i k = draws_of w (S i) k.
Proof. unfold draws_of. intros -> ->. f_equal. lia. Qed.

Lemma append_data_draws B w :
  normal_draws (snd (append_data B w)) = normal_draws w.
Proof.
  unfold append_data, bind, get_df, set_df, ret.
  destruct (empty B); [|destruct (empty (df w))]; reflexivity.
Qed.

(** One iteration whose request fails appends the three mock records. *)
Lemma iteration_fallback iterations sleep_interval i w :
  failed (outcome_after 0 w) = true ->
  collected (df w) ->
  exists w',
    iteration iterations sleep_interval i w = (Ok tt, w')
    /\ collected (df w')
    /\ len (df w') = len (df w) + 3
    /\ column "name" (df w') = column "name" (df w) ++ mock_names
    /\ column "timestamp" (df w')
       = column "timestamp" (df w) ++ repeat (VTime (clock w (ticks w))) 3
    /\ http w' = http w /\ base_url w' = base_url w /\ clock w' = clock w
    /\ requests w' = S (requests w) /\ ticks w' = S (ticks w)
    /\ normal_draws w' = normal_draws w /\ drawn w' = 21 + drawn w
    /\ forall period, period < 6 ->
         column (nth period trend_columns "") (df w')
         = column (nth period trend_columns "") (df w)
           ++ mock_changes (draws_of w 0) period.
Proof.
  intros Hfail Hcoll. rewrite iteration_unfold.
  set (w1 := with_stdout (stdout w ++ [iteration_header iterations i]) w).
  destruct (fetch_cases 1 15 "USD" w1)
    as (body & w2 & -> & Hdf & _ & _ & Hhttp & Hurl & Hclk & Htick & Hnd & Hreq & Hout).
  unfold outcome_after in Hfail. rewrite Nat.add_0_r in Hfail.
  change (fetch_outcome 1 15 "USD" (with_requests (requests w) w))
    with (fetch_outcome 1 15 "USD" w1) in Hfail.
  assert (Hbody : body = mock_listing (fun k => normal_draws w1 (k + drawn w1))
                  /\ drawn w2 = 21 + drawn w1)
    by (destruct (fetch_outcome 1 15 "USD" w1); [discriminate| |];
        split; apply Hout).
  destruct Hbody as [-> Hdrawn].
  rewrite (mock_listing_ext _ (draws_of w 0)).
  2:{ intros k _. unfold draws_of, w1. world_fields. f_equal. lia. }
  set (z := draws_of w 0).
  assert (Ht : truthy (mock_listing z) = true) by reflexivity.
  rewrite Ht.
  pose proof (mock_listing_changes z w2) as Hchanges.
  destruct (mock_listing_frame z w2) as (P & EP & HlenP & HcollP & HtsP & HnameP & _).
  rewrite EP in *. cbn [fst frame_of] in Hchanges.
  cbv zeta. set (w3 := with_ticks (S (ticks w2)) w2).
  destruct (append_data_rest P w3) as (_ & Hc4 & Ht4 & Hn4 & Hh4 & Hu4 & Hr4 & _ & Hd4).
  pose proof (append_data_draws P w3) as Hnd4.
  assert (Hcoll3 : collected (df w3)) by (unfold w3; world_fields; now rewrite Hdf).
  destruct (append_collected P w3 Hcoll3 HcollP) as (Hcoll4 & Hlen4 & _).
  pose proof (append_collected_columns P w3 Hcoll3 HcollP) as Hcols.
  eexists. split; [reflexivity|].
  unfold w3, w1 in *. world_fields. split; [exact Hcoll4|].
  rewrite Hlen4, !Hcols, HlenP, HtsP, HnameP, Hdf, Hclk.
  repeat split; try congruence.
  intros period Hp. now rewrite Hcols, Hchanges, Hdf.
Qed.

Lemma loop_fallback iterations sleep_interval m :
  forall a w,
    (forall i, i < m -> failed (outcome_after i w) = true) ->
    collected (df w) ->
    exists w',
      for_each (seq a m) (iteration iterations sleep_interval) w = (Ok tt, w')
      /\ collected (df w')
      /\ len (df w') = len (df w) + 3 * m
      /\ column "name" (df w')
         = column "name" (df w) ++ List.concat (repeat mock_names m)
      /\ column "timestamp" (df w')
         = column "timestamp" (df w)
           ++ flat_map (fun i => repeat (VTime (clock w (ticks w + i))) 3) (seq 0 m)
      /\ forall period, period < 6 ->
           column (nth period trend_columns "") (df w')
           = column (nth period trend_columns "") (df w)
             ++ flat_map (fun i => mock_changes (draws_of w i) period) (seq 0 m).
Proof.
  induction m as [|m IH]; intros a w Hout Hcoll.
  - exists w. simpl. rewrite !app_nil_r, Nat.add_0_r.
    repeat split; auto; try apply Hcoll. intros. now rewrite app_nil_r.
  - destruct (iteration_fallback iterations sleep_interval a w
                (Hout 0 ltac:(lia)) Hcoll)
      as (w1 & E1 & Hcoll1 & Hlen1 & Hname1 & Hcol1 & Hhttp & Hurl & Hclk & Hreq
          & Htick & Hnd & Hdrawn & Hch1).
    destruct (IH (S a) w1) as (w' & E' & Hcoll' & Hlen' & Hname' & Hcol' & Hch');
      [|assumption|].
    { intros i Hi. rewrite (outcome_after_next w w1) by assumption.
      apply Hout. lia. }
    exists w'. split; [|split; [assumption|split; [|split; [|split]]]].
    + cbn [seq for_each]. unfold bind at 1. now rewrite E1.
    + lia.
    + rewrite Hname', Hname1. cbn [repeat List.concat].
      now rewrite <- app_assoc.
    + rewrite Hcol', Hcol1, Hclk, Htick, stamps_shift, <- app_assoc. reflexivity.
    + intros period Hp. rewrite (Hch' period Hp), (Hch1 period Hp), <- app_assoc.
      f_equal. cbn [seq flat_map]. f_equal.
      rewrite flat_map_seq_shift. apply flat_map_ext. intros i.
      unfold mock_changes. apply map_ext. intros asset. f_equal.
      apply mock_change_ext. intros k. now apply draws_of_next.
Qed.

Lemma clock_monotone (clk : nat -> Timestamp) :
  (forall i, ts_le (clk i) (clk (S i))) ->
  forall a b, a <= b -> ts_le (clk a) (clk b).
Proof.
  intros Hstep a b Hab. induction Hab as [|b _ IH]; [apply ts_leb_refl|].
  eapply ts_le_trans; [exact IH|apply Hstep].
Qed.

Lemma fold_min_first ts t0 :
  Forall (ts_le t0) ts -> fold_left ts_min ts t0 = t0.
Proof.
  induction 1 as [|x ts Hx _ IH]; [reflexivity|].
  cbn [fold_left]. unfold ts_min at 2. unfold ts_le in Hx. now rewrite Hx.
Qed.

Lemma fold_max_last t0 ts pre hi :
  t0 :: ts = pre ++ [hi] ->
  Forall (fun t => ts_le t hi) pre ->
  fold_left ts_max ts t0 = hi.
Proof.
  intros Hsplit Hpre. destruct pre as [|p pre].
  - injection Hsplit as -> ->. reflexivity.
  - injection Hsplit as -> ->. rewrite fold_left_app. cbn [fold_left].
    destruct (fold_max_spec pre p) as [Hin _].
    rewrite Forall_forall in Hpre.
    specialize (Hpre _ (proj2 (list_elem_of_In _ _) Hin)).
    unfold ts_max at 1. unfold ts_le in Hpre. now rewrite Hpre.
Qed.

Lemma texts_of_mock_names m :
  flat_map (fun v => match v with VStr s => [s] | _ => [] end)
    (List.concat (repeat mock_names m))
  = List.concat (repeat ["Bitcoin"; "Ethereum"; "Tether"] m).
Proof. induction m as [|m IH]; [reflexivity|]. cbn. now rewrite IH. Qed.

Lemma distinct_mock_names m :
  distinct_in_order (List.concat (repeat ["Bitcoin"; "Ethereum"; "Tether"] (S m)))
  = ["Bitcoin"; "Ethereum"; "Tether"].
Proof.
  induction m as [|m IH]; [reflexivity|].
  change (List.concat (repeat ["Bitcoin"; "Ethereum"; "Tether"] (S (S m))))
    with ("Bitcoin" :: "Ethereum" :: "Tether"
          :: List.concat (repeat ["Bitcoin"; "Ethereum"; "Tether"] (S m))).
  cbn [distinct_in_order]. rewrite IH. reflexivity.
Qed.

Lemma count_mock_names g m :
  g < 3 ->
  count_code g (map (code_of ["Bitcoin"; "Ethereum"; "Tether"])
                    (List.concat (repeat mock_names m))) = m.
Proof.
  intros Hg. unfold count_code. induction m as [|m IH]; [reflexivity|].
  cbn [repeat List.concat]. rewrite map_app, List.filter_app, length_app, IH.
  destruct g as [|[|[|g]]]; try lia; reflexivity.
Qed.

(** X16: without network, a fresh pipeline whose clock never goes back
    collects three mock records per iteration, and after a run of
    [iterations] iterations the summary reports three times as many
    records, three distinct names, the first and the last reading of the
    clock as the period, and Bitcoin, Ethereum and Tether with
    [iterations] records each. *)
Theorem offline_collection_summary (w : World) (iterations sleep_interval : nat) :
  0 < iterations ->
  df w = DataFrame_new ->
  (forall i, i < iterations -> failed (outcome_after i w) = true) ->
  (forall i, ts_le (clock w i) (clock w (S i))) ->
  exists w',
    run_data_collection iterations sleep_interval w = (Ok tt, w')
    /\ get_summary_stats w'
       = (Ok (Stats (3 * iterations) 3
                (strftime (clock w (ticks w)))
                (strftime (clock w (ticks w + iterations - 1)))
                [(VStr "Bitcoin", iterations); (VStr "Ethereum", iterations);
                 (VStr "Tether", iterations)]),
          w').
Proof.
  intros Hpos Hnew Hfail Hmono.
  unfold run_data_collection, bind, print at 1.
  set (w0 := with_stdout _ w).
  destruct (loop_fallback iterations sleep_interval iterations 0 w0)
    as (w1 & E & Hcoll & Hlen & Hname & Hts & _).
  { exact Hfail. }
  { unfold w0. world_fields. rewrite Hnew. apply collected_new. }
  rewrite E. unfold print. eexists. split; [reflexivity|].
  set (w2 := with_stdout _ w1).
  subst w0. world_fields. rewrite Hnew in Hlen, Hname, Hts.
  cbn [column rows DataFrame_new map app len length Nat.add] in Hlen, Hname, Hts.
  destruct iterations as [|m]; [lia|].
  set (t := ticks w) in *. set (clk := clock w) in *.
  assert (Hne : empty (df w2) = false).
  { apply collected_not_empty; [exact Hcoll|]. unfold w2. world_fields. lia. }
  assert (Htext : forallb is_text_or_na (column "name" (df w2)) = true).
  { unfold w2. world_fields. rewrite Hname. clear.
    induction (S m) as [|k IH]; [reflexivity|]. cbn. exact IH. }
  assert (Hnames : asset_names (df w2) = ["Bitcoin"; "Ethereum"; "Tether"]).
  { unfold asset_names. rewrite <- texts_of_name_column.
    unfold w2. world_fields. rewrite Hname, texts_of_mock_names.
    apply distinct_mock_names. }
  (* the stamps, first one apart, and last one apart *)
  set (stamps := fun k => flat_map (fun i => repeat (clk (t + i)) 3) (seq 0 k)).
  assert (Hstamps : forall k,
             timestamps_of
               (flat_map (fun i => repeat (VTime (clk (t + i))) 3) (seq 0 k))
             = Some (stamps k)).
  { intros k. unfold stamps. induction k as [|k IH]; [reflexivity|].
    rewrite !seq_S, !flat_map_app, timestamps_of_app, IH. cbn [flat_map].
    rewrite !app_nil_r, timestamps_of_repeat. reflexivity. }
  assert (Hbound : forall k x, In x (stamps k) -> exists i, i < k /\ x = clk (t + i)).
  { intros k x Hx. unfold stamps in Hx. apply in_flat_map in Hx as (i & Hi & Hx).
    apply in_seq in Hi. apply repeat_spec in Hx. exists i. split; [lia|assumption]. }
  assert (Hfirst : stamps (S m)
                   = clk t :: ([clk t; clk t]
                               ++ flat_map (fun i => repeat (clk (S t + i)) 3) (seq 0 m))).
  { unfold stamps. cbn [seq flat_map]. rewrite Nat.add_0_r.
    cbn [repeat app]. do 3 f_equal.
    rewrite flat_map_seq_shift. apply flat_map_ext. intros i.
    now rewrite Nat.add_succ_r. }
  assert (Hlast : stamps (S m)
                  = (stamps m ++ [clk (t + m); clk (t + m)]) ++ [clk (t + m)]).
  { unfold stamps. rewrite seq_S, flat_map_app. cbn [flat_map repeat Nat.add].
    rewrite app_nil_r, <- app_assoc. reflexivity. }
  assert (Htimes : timestamps_of (column "timestamp" (df w2)) = Some (stamps (S m))).
  { unfold w2. world_fields. rewrite Hts. apply Hstamps. }
  rewrite Hfirst in Htimes.
  rewrite (summary_stats_eq w2 _ _ Hne Htext Htimes).
  assert (Hmin : fold_left ts_min
                   ([clk t; clk t]
                    ++ flat_map (fun i => repeat (clk (S t + i)) 3) (seq 0 m))
                   (clk t) = clk t).
  { apply fold_min_first. apply Forall_forall. intros x Hx.
    apply list_elem_of_In in Hx.
    assert (Hx' : In x (stamps (S m))) by (rewrite Hfirst; now right).
    apply Hbound in Hx' as (i & _ & ->).
    apply clock_monotone; [exact Hmono|lia]. }
  assert (Hmax : fold_left ts_max
                   ([clk t; clk t]
                    ++ flat_map (fun i => repeat (clk (S t + i)) 3) (seq 0 m))
                   (clk t) = clk (t + m)).
  { apply (fold_max_last _ _ (stamps m ++ [clk (t + m); clk (t + m)])).
    - now rewrite <- Hfirst, Hlast.
    - apply Forall_app. split.
      + apply Forall_forall. intros x Hx. apply list_elem_of_In in Hx.
        apply Hbound in Hx as (i & Hi & ->).
        apply clock_monotone; [exact Hmono|lia].
      + repeat constructor; apply ts_leb_refl. }
  rewrite Hmin, Hmax.
  replace (t + S m - 1) with (t + m) by lia.
  unfold record_counts. rewrite Hnames.
  assert (Hcount : forall g s,
             col_index s ["Bitcoin"; "Ethereum"; "Tether"] = Some g ->
             length (rows_of_asset (df w2) s) = S m).
  { intros g s Hs. rewrite <- (count_code_rows _ _ _ _ Hs).
    unfold w2. world_fields. rewrite Hname. apply count_mock_names.
    apply col_index_Some in Hs as [Hg _]. exact Hg. }
  cbn [map]. rewrite (Hcount 0 "Bitcoin" eq_refl), (Hcount 1 "Ethereum" eq_refl),
    (Hcount 2 "Tether" eq_refl).
  unfold w2. world_fields. rewrite Hlen.
  cbn [fold_right insert_by_count snd]. rewrite Nat.leb_refl.
  cbn [insert_by_count snd]. rewrite Nat.leb_refl. reflexivity.
Qed.

Lemma offline_collection_summary_witness :
  exists w',
    run_data_collection 3 2 offline = (Ok tt, w')
    /\ get_summary_stats w'
       = (Ok (Stats (3 * 3) 3
                (strftime (clock offline (ticks offline)))
                (strftime (clock offline (ticks offline + 3 - 1)))
                [(VStr "Bitcoin", 3); (VStr "Ethereum", 3); (VStr "Tether", 3)]),
          w').
Proof.
  apply (offline_collection_summary offline 3 2).
  - lia.
  - reflexivity.
  - intros i _. reflexivity.
  - intros i. apply sample_clock_monotone.
Defined.

(** ** The trends of a run without network *)

Lemma has_column_head c d v l :
  column c d = v :: l -> v <> VNA -> has_column c d = true.
Proof.
  intros Hcol Hv. destruct (has_column c d) eqn:E; [reflexivity|].
  rewrite (column_absent _ _ E) in Hcol.
  destruct (len d); [discriminate|]. injection Hcol as <- _. now contradiction Hv.
Qed.

(** Among the cells of mock listings, laid one listing after the other,
    those of the [asset]-th name are the [asset]-th of every listing. *)
Lemma selected_mock (f : nat -> nat -> Q) (l : list nat) asset :
  asset < 3 ->
  selected asset
    (combine (map (code_of ["Bitcoin"; "Ethereum"; "Tether"])
                  (List.concat (repeat mock_names (length l))))
             (map number_of
                  (flat_map (fun i => map (fun a => VNum (f i a)) (seq 0 3)) l)))
  = map (fun i => f i asset) l.
Proof.
  intros Ha.
  change (fun i => map (fun a => VNum (f i a)) (seq 0 3))
    with (fun i => [VNum (f i 0); VNum (f i 1); VNum (f i 2)]).
  induction l as [|i l IH]; [reflexivity|].
  cbn [length repeat List.concat flat_map map seq mock_names app combine
       code_of number_of].
  unfold selected in *. cbn [flat_map]. rewrite IH.
  destruct asset as [|[|[|asset]]]; try lia; reflexivity.
Qed.

(** X23: without network, the trends of a fresh pipeline after a run of
    [iterations] iterations are those of Bitcoin, Ethereum and Tether,
    in this order, under all six percent-change fields, and each cell is
    the arithmetic mean, over the iterations, of the draws the fallback
    made for that field of that asset: the [i]-th iteration consumes the
    twenty-one deviates after those of the iterations before it, seven
    per record, the first of the seven for the price, and scales the
    others by 2, 5, 10, 15, 20 and 25, for Tether by 0.1, 0.2, 0.3, 0.5,
    0.7 and 1. *)
Theorem offline_collection_trends (w : World) (iterations sleep_interval : nat) :
  0 < iterations ->
  df w = DataFrame_new ->
  (forall i, i < iterations -> failed (outcome_after i w) = true) ->
  exists w',
    run_data_collection iterations sleep_interval w = (Ok tt, w')
    /\ analyze_price_trends w'
       = (Ok (mkGroupedFrame mock_names trend_columns
                (map (fun asset =>
                        map (fun period =>
                               arithmetic_mean
                                 (map (fun i => mock_change (draws_of w i) asset period)
                                      (seq 0 iterations)))
                            (seq 0 6))
                     (seq 0 3))),
          w').
Proof.
  intros Hpos Hnew Hfail.
  unfold run_data_collection, bind, print at 1.
  set (w0 := with_stdout _ w).
  destruct (loop_fallback iterations sleep_interval iterations 0 w0)
    as (w1 & E & Hcoll & Hlen & Hname & _ & Hch).
  { exact Hfail. }
  { unfold w0. world_fields. rewrite Hnew. apply collected_new. }
  rewrite E. unfold print. eexists. split; [reflexivity|].
  set (w2 := with_stdout _ w1).
  change (df w0) with (df w) in *.
  rewrite Hnew in Hlen, Hname, Hch.
  cbn [column rows DataFrame_new map app len length Nat.add] in Hlen, Hname, Hch.
  change (df w1) with (df w2) in *.
  set (d := df w2) in *.
  destruct iterations as [|m]; [lia|].
  assert (Hne : empty d = false).
  { apply collected_not_empty; [exact Hcoll|]. lia. }
  assert (Hhasname : has_column "name" d = true).
  { eapply has_column_head; [rewrite Hname; reflexivity|discriminate]. }
  assert (Htext : forallb is_text_or_na (column "name" d) = true).
  { rewrite Hname. clear.
    induction (S m) as [|k IH]; [reflexivity|]. cbn. exact IH. }
  assert (Hnames : asset_names d = ["Bitcoin"; "Ethereum"; "Tether"]).
  { unfold asset_names. rewrite <- texts_of_name_column.
    rewrite Hname, texts_of_mock_names. apply distinct_mock_names. }
  assert (Hper : forall c, In c trend_columns ->
                   exists period, period < 6 /\ c = nth period trend_columns "").
  { intros c Hc. destruct (In_nth _ _ "" Hc) as (p & Hp & <-). now exists p. }
  assert (Hav : available_columns d = trend_columns).
  { unfold available_columns. apply forallb_filter_id, forallb_forall.
    intros c Hc. destruct (Hper c Hc) as (p & Hp & ->).
    eapply has_column_head; [rewrite (Hch p Hp); reflexivity|discriminate]. }
  assert (Hnum : forall c, In c trend_columns ->
                   forallb is_number_or_na (column c d) = true).
  { intros c Hc. destruct (Hper c Hc) as (p & Hp & ->). rewrite (Hch p Hp).
    apply forallb_forall. intros v Hv. apply in_flat_map in Hv as (i & _ & Hv).
    unfold mock_changes in Hv. apply in_map_iff in Hv as (a & <- & _).
    reflexivity. }
  unfold analyze_price_trends, bind, get_df, lift. fold d.
  rewrite Hne, Hav. cbv iota beta delta [trend_columns]. fold trend_columns.
  rewrite (groupby_mean_trends d trend_columns Hhasname Htext Hnum), Hnames.
  f_equal. f_equal. f_equal.
  change ["Bitcoin"; "Ethereum"; "Tether"]
    with (map (fun a => nth a ["Bitcoin"; "Ethereum"; "Tether"] "") (seq 0 3)).
  rewrite map_map. apply map_ext_in. intros a Ha. apply in_seq in Ha.
  change trend_columns with (map (fun p => nth p trend_columns "") (seq 0 6)) at 1.
  rewrite map_map. apply map_ext_in. intros p Hp. apply in_seq in Hp.
  unfold trend_of.
  rewrite <- (selected_rows_of_asset d ["Bitcoin"; "Ethereum"; "Tether"] a).
  2:{ destruct a as [|[|[|a]]]; try lia; reflexivity. }
  rewrite Hname, (Hch p) by lia.
  rewrite <- (length_seq (S m) 0) at 1.
  unfold mock_changes.
  rewrite (selected_mock (fun i a => mock_change (draws_of w0 i) a p)) by lia.
  reflexivity.
Qed.

Lemma offline_collection_trends_witness :
  exists w',
    run_data_collection 2 1 offline = (Ok tt, w')
    /\ analyze_price_trends w'
       = (Ok (mkGroupedFrame mock_names trend_columns
                (map (fun asset =>
                        map (fun period =>
                               arithmetic_mean
                                 (map (fun i => mock_change (draws_of offline i) asset period)
                                      (seq 0 2)))
                            (seq 0 6))
                     (seq 0 3))),
          w').
Proof.
  apply (offline_collection_trends offline 2 1).
  - lia.
  - reflexivity.
  - intros i _. reflexivity.
Defined.

(** ** Readers *)

Lemma read_only_ret {A} (a : A) : read_only (ret a).
Proof. intros w. reflexivity. Qed.

Lemma read_only_lift {A} (r : result A) : read_only (lift r).
Proof. intros w. reflexivity. Qed.

Lemma read_only_print s : read_only (print s).
Proof. intros w. reflexivity. Qed.

Lemma read_only_get_df : read_only get_df.
Proof. intros w. reflexivity. Qed.

Lemma read_only_bind {A B} (m : M A) (k : A -> M B) :
  read_only m -> (forall a, read_only (k a)) -> read_only (bind m k).
Proof.
  intros Hm Hk w. unfold bind. specialize (Hm w).
  destruct (m w) as [[a|e] w1]; cbn [snd] in *; [|exact Hm].
  now rewrite (Hk a w1).
Qed.

Ltac read_only_step :=
  first [ apply read_only_ret | apply read_only_lift | apply read_only_print
        | apply read_only_get_df
        | apply read_only_bind; [|intros ?] ].

Lemma read_only_analyze : read_only analyze_price_trends.
Proof.
  unfold analyze_price_trends. apply read_only_bind; [apply read_only_get_df|].
  intros d. destruct (empty d); [repeat read_only_step|].
  destruct (available_columns d); repeat read_only_step.
Qed.

(** X22: the methods that read the dataset never change it, whether they
    return or raise: [get_summary_stats] leaves the whole world as it
    is, and after [analyze_price_trends], which may print, the dataset
    is the one from before. *)
Theorem readers_leave_dataset :
  (forall w, snd (get_summary_stats w) = w)
  /\ read_only analyze_price_trends.
Proof.
  split; [|exact read_only_analyze].
  intros w. unfold get_summary_stats, bind, get_df, lift, ret.
  destruct (empty (df w)); [reflexivity|].
  repeat match goal with
         | |- context [match ?r with Ok _ => _ | Raise _ => _ end] =>
             destruct r; try reflexivity
         | |- context [if ?b then _ else _] => destruct b
         end.
Qed.

(** ** What the plots are drawn from *)

(** The periods of the six percent changes, as the figure names them. *)
Example periods :
  map period_of trend_columns = ["1h"; "24h"; "7d"; "30d"; "60d"; "90d"].
Proof. vm_compute. reflexivity. Qed.

(** The rows of an asset, as a selection by text. *)
Lemma select_text_rows d s :
  has_column "name" d = true ->
  select_text "name" s d = Ok (mkDataFrame (columns d) (rows_of_asset d s)).
Proof.
  unfold has_column, select_text, rows_of_asset.
  destruct (col_index "name" (columns d)); [|discriminate]. intros _.
  f_equal. f_equal. apply filter_ext. intros r. unfold asset_of.
  destruct (cell (columns d) r "name"); reflexivity.
Qed.

Lemma empty_columns d : empty d = false -> columns d <> [].
Proof. unfold empty. now destruct (columns d). Qed.

Lemma read_only_savefig save_plot file : read_only (savefig save_plot file).
Proof.
  unfold savefig. destruct save_plot.
  - apply read_only_bind; [apply read_only_print|intros; apply read_only_ret].
  - apply read_only_ret.
Qed.

(** X17: [visualize_bitcoin_price] never changes the dataset. On an
    empty dataset it prints that there is no data and asks for no
    figure. On a dataset that is not empty it raises [KeyError] when
    there is no column ['name']; prints that there is no Bitcoin data
    and asks for no figure when no record is named Bitcoin; and
    otherwise, the columns of both axes being there, draws the price
    against the timestamp from exactly the records named Bitcoin, in the
    order of the dataset, printing the name of the image file when it
    is asked to save the figure. *)
Theorem bitcoin_plot (w : World) (save_plot : bool) :
  read_only (visualize_bitcoin_price save_plot)
  /\ (empty (df w) = true ->
      visualize_bitcoin_price save_plot w
      = (Ok None,
         with_stdout (stdout w ++ ["No data available for visualization"]) w))
  /\ (empty (df w) = false ->
      has_column "name" (df w) = false ->
      visualize_bitcoin_price save_plot w = (Raise (KeyError "name"), w))
  /\ (empty (df w) = false ->
      has_column "name" (df w) = true ->
      rows_of_asset (df w) "Bitcoin" = [] ->
      visualize_bitcoin_price save_plot w
      = (Ok None, with_stdout (stdout w ++ ["No Bitcoin data available"]) w))
  /\ (empty (df w) = false ->
      has_column "name" (df w) = true ->
      rows_of_asset (df w) "Bitcoin" <> [] ->
      has_column "timestamp" (df w) = true ->
      has_column "quote.USD.price" (df w) = true ->
      exists w',
        visualize_bitcoin_price save_plot w
        = (Ok (Some (mkLinePlot
                       (mkDataFrame (columns (df w)) (rows_of_asset (df w) "Bitcoin"))
                       "timestamp" "quote.USD.price" None "Bitcoin Price Over Time"
                       (if save_plot then Some "bitcoin_price.png" else None))),
           w')
        /\ stdout w'
           = stdout w ++ (if save_plot then ["Plot saved as 'bitcoin_price.png'"]
                          else [])).
Proof.
  split.
  { unfold visualize_bitcoin_price. apply read_only_bind; [apply read_only_get_df|].
    intros d. destruct (empty d); [repeat read_only_step|].
    apply read_only_bind; [apply read_only_lift|]. intros b.
    destruct (empty b); repeat first [apply read_only_savefig | read_only_step]. }
  unfold visualize_bitcoin_price, bind, get_df, lift.
  split; [|split; [|split]].
  - intros ->. reflexivity.
  - intros -> Hno. unfold has_column, select_text in *.
    now destruct (col_index "name" (columns (df w))).
  - intros -> Hname Hrows. rewrite (select_text_rows _ _ Hname), Hrows.
    unfold empty. cbn [rows length Nat.eqb]. rewrite orb_true_r. reflexivity.
  - intros Hne Hname Hrows Hts Hprice. rewrite Hne, (select_text_rows _ _ Hname).
    assert (He : empty (mkDataFrame (columns (df w)) (rows_of_asset (df w) "Bitcoin"))
                 = false).
    { unfold empty. cbn [columns rows]. apply empty_columns in Hne.
      destruct (columns (df w)); [contradiction|].
      destruct (rows_of_asset (df w) "Bitcoin"); [contradiction|reflexivity]. }
    rewrite He. unfold lineplot.
    change (has_column "timestamp" (mkDataFrame (columns (df w)) ?r))
      with (has_column "timestamp" (df w)).
    change (has_column "quote.USD.price" (mkDataFrame (columns (df w)) ?r))
      with (has_column "quote.USD.price" (df w)).
    rewrite Hts, Hprice. cbn [negb]. unfold savefig, bind, print, ret.
    destruct save_plot; eexists; (split; [reflexivity|]); world_fields.
    + reflexivity.
    + now rewrite app_nil_r.
Qed.

Lemma bitcoin_plot_witness :
  exists w',
    visualize_bitcoin_price true collected_twice
    = (Ok (Some (mkLinePlot
                   (mkDataFrame (columns (df collected_twice))
                      (rows_of_asset (df collected_twice) "Bitcoin"))
                   "timestamp" "quote.USD.price" None "Bitcoin Price Over Time"
                   (Some "bitcoin_price.png"))),
       w')
    /\ stdout w' = stdout collected_twice ++ ["Plot saved as 'bitcoin_price.png'"].
Proof.
  apply (proj2 (proj2 (proj2 (proj2 (bitcoin_plot collected_twice true))))).
  - reflexivity.
  - reflexivity.
  - vm_compute. discriminate.
  - reflexivity.
  - reflexivity.
Defined.

Lemma trend_column_not_name c :
  In c trend_columns -> c <> "name" /\ c <> "percent_change".
Proof.
  intros Hc. unfold trend_columns in Hc. simpl in Hc.
  repeat (destruct Hc as [<-|Hc]; [split; discriminate|]). contradiction.
Qed.

Lemma existsb_eqb_absent (s : string) l :
  ~ In s l -> existsb (String.eqb s) l = false.
Proof.
  intros Hnin. induction l as [|x l IH]; [reflexivity|]. simpl.
  destruct (String.eqb_spec s x) as [->|_]; [exfalso; apply Hnin; now left|].
  apply IH. intros Hin. apply Hnin. now right.
Qed.

Lemma flat_map_ext_in {A B} (f g : A -> list B) l :
  (forall x, In x l -> f x = g x) -> flat_map f l = flat_map g l.
Proof.
  intros Hfg. induction l as [|x l IH]; [reflexivity|]. simpl.
  rewrite Hfg by now left. rewrite IH; [reflexivity|].
  intros y Hy. apply Hfg. now right.
Qed.

Lemma map_flat_map {A B C} (h : B -> C) (f : A -> list B) l :
  map h (flat_map f l) = flat_map (fun x => map h (f x)) l.
Proof.
  induction l as [|x l IH]; [reflexivity|]. simpl. now rewrite map_app, IH.
Qed.

(** X18: [visualize_trends] never changes the dataset. On an empty
    dataset it prints that there is no data and asks for no figure;
    when none of the six percent-change fields is a column it prints the
    two lines about the missing trend data and asks for no figure. On a
    dataset of quote records with at least one percent-change column and
    one named asset it draws from a frame with one row for every
    percent-change column and every asset, column after column and the
    assets in the order of their first appearance: the asset's name, the
    period with the prefix of the label taken off, and the mean of that
    percent change over the asset's records. *)
Theorem trends_plot (w : World) (save_plot : bool) :
  read_only (visualize_trends save_plot)
  /\ (empty (df w) = true ->
      visualize_trends save_plot w
      = (Ok None,
         with_stdout (stdout w ++ ["No data available for visualization"]) w))
  /\ (empty (df w) = false ->
      available_columns (df w) = [] ->
      visualize_trends save_plot w
      = (Ok None,
         with_stdout
           (stdout w ++ ["No trend data available";
                         "No trend data available for visualization"]) w))
  /\ (empty (df w) = false ->
      quotes (df w) ->
      available_columns (df w) <> [] ->
      asset_names (df w) <> [] ->
      exists w',
        visualize_trends save_plot w
        = (Ok (Some (mkLinePlot
                       (mkDataFrame ["name"; "time_period"; "percent_change"]
                          (flat_map
                             (fun c => map (fun s => [VStr s; VStr (period_of c);
                                                      trend_of (df w) s c])
                                           (asset_names (df w)))
                             (available_columns (df w))))
                       "time_period" "percent_change" (Some "name")
                       "Cryptocurrency Price Change Trends Over Time"
                       (if save_plot then Some "crypto_trends.png" else None))),
           w')
        /\ stdout w'
           = stdout w ++ (if save_plot then ["Plot saved as 'crypto_trends.png'"]
                          else [])).
Proof.
  split; [|split; [|split]].
  - unfold visualize_trends. apply read_only_bind; [apply read_only_get_df|].
    intros d. destruct (empty d); [repeat read_only_step|].
    apply read_only_bind; [exact read_only_analyze|]. intros g.
    destruct (grouped_empty g); repeat first [apply read_only_savefig | read_only_step].
  - intros Hempty. unfold visualize_trends, bind, get_df. now rewrite Hempty.
  - intros Hne Hav.
    unfold visualize_trends, analyze_price_trends, bind, get_df, print, ret.
    rewrite Hne. world_fields. rewrite Hne, Hav. world_fields.
    cbn [grouped_empty GroupedFrame_new g_columns g_index length Nat.eqb orb].
    world_fields. rewrite <- app_assoc. reflexivity.
  - intros Hne (Hname & Htext & Hnum) Hav Hassets.
    set (d := df w) in *. set (cols := available_columns d) in *.
    set (names := asset_names d) in *.
    assert (Hcols : forall c, In c cols -> c <> "name" /\ c <> "percent_change").
    { intros c Hc. apply trend_column_not_name. eapply available_columns_trend, Hc. }
    assert (Hanalyze : analyze_price_trends w
                       = (Ok (mkGroupedFrame (map VStr names) cols
                                (map (fun s => map (trend_of d s) cols) names)), w)).
    { unfold analyze_price_trends, bind, get_df, lift. fold d. rewrite Hne. fold cols.
      rewrite groupby_mean_trends; try assumption.
      - destruct cols; [contradiction|reflexivity].
      - intros c Hc. apply Hnum. eapply available_columns_trend, Hc. }
    unfold visualize_trends, bind at 1. unfold get_df. fold d. rewrite Hne.
    unfold bind at 1. rewrite Hanalyze.
    assert (Hge : grouped_empty (mkGroupedFrame (map VStr names) cols
                                   (map (fun s => map (trend_of d s) cols) names))
                  = false).
    { unfold grouped_empty. cbn [g_columns g_index]. rewrite length_map.
      destruct cols; [contradiction|]. destruct names; [contradiction|reflexivity]. }
    rewrite Hge. unfold bind at 1. unfold lift at 1, reset_index.
    cbn [g_columns g_index g_rows].
    rewrite existsb_eqb_absent by (intros Hin; now apply Hcols in Hin).
    rewrite combine_map_same, map_map. cbn [fst snd].
    unfold bind at 1. unfold lift at 1, melt. cbn [columns rows].
    change (col_index "name" ("name" :: cols)) with (Some 0).
    rewrite existsb_eqb_absent.
    2:{ intros [Hin|Hin]; [discriminate|]. now apply Hcols in Hin. }
    assert (Hvars : List.filter (fun c => negb (String.eqb c "name")) ("name" :: cols)
                    = cols).
    { cbn [List.filter String.eqb Ascii.eqb Bool.eqb negb andb].
      change (String.eqb "name" "name") with true. cbn [negb].
      apply forallb_filter_id. apply forallb_forall. intros c Hc.
      apply Hcols in Hc as [Hc _]. apply negb_true_iff. now apply String.eqb_neq. }
    rewrite Hvars.
    assert (Hrows :
      flat_map
        (fun c => map (fun r => [cell ("name" :: cols) r "name"; VStr c;
                                 cell ("name" :: cols) r c])
                      (map (fun s => VStr s :: map (trend_of d s) cols) names))
        cols
      = flat_map (fun c => map (fun s => [VStr s; VStr c; trend_of d s c]) names) cols).
    { apply flat_map_ext_in. intros c Hc. rewrite map_map. apply map_ext. intros s.
      f_equal. f_equal. f_equal. unfold cell. cbn [col_index].
      destruct (String.eqb_spec c "name") as [E|_]; [now apply Hcols in Hc|].
      destruct (col_index_In _ _ Hc) as [j Hj]. rewrite Hj.
      destruct (col_index_Some _ _ _ Hj) as [Hlt Hnth]. cbn [nth].
      rewrite (nth_indep _ VNA (trend_of d s "")) by now rewrite length_map.
      rewrite (map_nth (trend_of d s)). now rewrite Hnth. }
    rewrite Hrows.
    unfold bind at 1. unfold lift at 1, replace_in_column. cbn [columns rows].
    assert (Hi : col_index "time_period" ["name"; "time_period"; "percent_change"]
                 = Some 1) by reflexivity.
    rewrite Hi.
    rewrite map_flat_map.
    assert (Hclean :
      flat_map
        (fun c => map (fun r => list_set 1 (match nth 1 r VNA with
                                            | VStr s =>
                                                VStr (str_replace
                                                        "quote.USD.percent_change_" "" s)
                                            | _ => VNA
                                            end) r)
                      (map (fun s => [VStr s; VStr c; trend_of d s c]) names))
        cols
      = flat_map (fun c => map (fun s => [VStr s; VStr (period_of c); trend_of d s c])
                               names) cols).
    { apply flat_map_ext. intros c. rewrite map_map. reflexivity. }
    rewrite Hclean.
    unfold bind at 1. unfold lift at 1, lineplot.
    change (has_column "time_period"
              (mkDataFrame ["name"; "time_period"; "percent_change"] ?r))
      with true.
    change (has_column "percent_change"
              (mkDataFrame ["name"; "time_period"; "percent_change"] ?r))
      with true.
    change (has_column "name"
              (mkDataFrame ["name"; "time_period"; "percent_change"] ?r))
      with true.
    cbn [negb]. unfold savefig, bind, print, ret.
    destruct save_plot; eexists; (split; [reflexivity|]); world_fields;
      [reflexivity|now rewrite app_nil_r].
Qed.

Lemma trends_plot_witness :
  exists w',
    visualize_trends true collected_twice
    = (Ok (Some (mkLinePlot
                   (mkDataFrame ["name"; "time_period"; "percent_change"]
                      (flat_map
                         (fun c => map (fun s => [VStr s; VStr (period_of c);
                                                  trend_of (df collected_twice) s c])
                                       (asset_names (df collected_twice)))
                         (available_columns (df collected_twice))))
                   "time_period" "percent_change" (Some "name")
                   "Cryptocurrency Price Change Trends Over Time"
                   (Some "crypto_trends.png"))),
       w')
    /\ stdout w' = stdout collected_twice ++ ["Plot saved as 'crypto_trends.png'"].
Proof.
  apply (proj2 (proj2 (proj2 (trends_plot collected_twice true)))).
  - reflexivity.
  - split; [reflexivity|]. split; [reflexivity|].
    intros c Hc. unfold trend_columns in Hc. simpl in Hc.
    repeat (destruct Hc as [<-|Hc]; [vm_compute; reflexivity|]). contradiction.
  - vm_compute. discriminate.
  - vm_compute. discriminate.
Defined.
